(** * FinamPy triangular-arbitrage bot: a shallow embedding and its properties

    The development follows the Python sources module by module:
    - [core/arb_models.py]      -> [ArbTick], [ArbTriangle], [ArbOpportunity]
    - [config/arb_config.py]    -> [ArbConfig]
    - [core/arb_calculator.py]  -> [ArbCalculator]
    - [core/arb_monitor.py]     -> [ArbMonitor]
    - [core/arb_executor.py]    -> [ArbExecutor]
    - [run_arbitrage.py]        -> [ArbitrageApp] (the tick source of the scanner)
    - [arbitrage_trader.py]     -> [ArbitrageTrader]
    - [arbitrage_finder.py]     -> [ArbitrageFinder]

    Numbers.  Python [float] prices are modelled by exact rationals [Q]:
    every operation of the sources that is used here ([+], [-], [*], [/],
    comparisons, [abs]) is the exact one, so results stand for the Python
    results up to binary64 rounding.  Divisions by zero raise in Python; the
    sources guard each of them, and the guards are part of the model.
    One concrete computation is also replayed on binary64 numbers
    ([PrimFloat]) to tie the rational model to the machine arithmetic.

    Effects.  The broker (order placement, cancellation, order state) is an
    oracle in an environment record; every request the code sends is appended
    to a call log carried by the state.  Time is a clock reading in the
    state, which [time.sleep] advances.  Logging and terminal output are
    left out. *)

From Stdlib Require Import QArith Qabs Qround Lqa ZArith List Ascii String Lia.
From Stdlib Require Import Sorted Permutation.
From Stdlib Require Import Floats.
From stdpp Require Import gmap strings pretty.
Import ListNotations.

Local Open Scope Q_scope.
Local Open Scope string_scope.

(** ** Python numerics on [Q] *)

Module Py.

(** [x > y], [x >= y] on floats. *)
Definition gt (x y : Q) : bool := negb (Qle_bool x y).
Definition ge (x y : Q) : bool := Qle_bool y x.
Definition le (x y : Q) : bool := Qle_bool x y.
Definition lt (x y : Q) : bool := negb (Qle_bool y x).

(** [round(x)] rounds half to even. *)
Definition round_half_even (x : Q) : Z :=
  let f := Qfloor x in
  let d := x - inject_Z f in
  if lt d (1 # 2) then f
  else if gt d (1 # 2) then (f + 1)%Z
  else if Z.even f then f else (f + 1)%Z.

(** [round(x, 2)], on the exact value.  Python rounds the binary64 value,
    which differs where the exact value is a tie: [round(0.1 * 1.05, 2)] is
    0.11 in Python and 0.10 here.  Only lot sizes go through it. *)
Definition round2 (x : Q) : Q := inject_Z (round_half_even (x * 100)) / 100.

(** [int(x)] truncates toward zero. *)
Definition int (x : Q) : Z := Z.quot (Qnum x) (Zpos (Qden x)).

(** [s.split('@')[0]]: the part of [s] before the first ['@']. *)
Fixpoint before_at (s : string) : string :=
  match s with
  | EmptyString => EmptyString
  | String c s' => if Ascii.eqb c "@"%char then EmptyString else String c (before_at s')
  end.

(** [s.startswith(p)]. *)
Definition startswith (s p : string) : bool := String.prefix p s.

(** Truthiness of a string: non-empty. *)
Definition truthy (s : string) : bool := negb (String.eqb s "").

(** [l[i]] for an int [i]: a negative index counts from the end; the
    position reached and the element there, [None] where Python raises
    IndexError. *)
Definition getitem {A : Type} (l : list A) (i : Z) : option (nat * A) :=
  let pos := if Z.ltb i 0 then (i + Z.of_nat (List.length l))%Z else i in
  if Z.ltb pos 0 then None
  else match nth_error l (Z.to_nat pos) with
       | Some a => Some (Z.to_nat pos, a)
       | None => None
       end.

(** [l.sort(key=key, reverse=True)].  Python's sort is stable, also with
    [reverse=True]: elements with equal keys keep their original order.
    A stable sort has one possible result; it is computed here by
    insertion: an element goes in front of the sorted rest, behind the
    elements of the rest whose key is strictly larger. *)
Section Sort.
Context {A : Type} (key : A -> Q).

Fixpoint insert_desc (x : A) (l : list A) : list A :=
  match l with
  | [] => [x]
  | y :: l' => if ge (key x) (key y) then x :: y :: l' else y :: insert_desc x l'
  end.

Fixpoint sort_desc (l : list A) : list A :=
  match l with
  | [] => []
  | x :: l' => insert_desc x (sort_desc l')
  end.
End Sort.

(** Outcome of a call that may raise. *)
Inductive result (A : Type) : Type :=
| Ok (a : A)
| Raise (exn : string).
Arguments Ok {A} a.
Arguments Raise {A} exn.

(** [s.endswith(p)]. *)
Definition endswith (s p : string) : bool :=
  Nat.leb (String.length p) (String.length s)
  && String.eqb (substring (String.length s - String.length p) (String.length p) s) p.

(** [p in s] on strings. *)
Definition contains (s p : string) : bool :=
  match String.index 0 p s with Some _ => true | None => false end.

(** [itertools.combinations(l, 2)] and [itertools.combinations(l, 3)]:
    the sub-sequences of [l] of that length, in the order of positions. *)
Fixpoint combinations2 {A : Type} (l : list A) : list (A * A) :=
  match l with
  | [] => []
  | x :: rest => List.map (fun y => (x, y)) rest ++ combinations2 rest
  end.

Fixpoint combinations3 {A : Type} (l : list A) : list (A * A * A) :=
  match l with
  | [] => []
  | x :: rest => List.map (fun yz => (x, fst yz, snd yz)) (combinations2 rest)
                 ++ combinations3 rest
  end.

End Py.

(** ** core/arb_models.py *)

Module ArbTick.
Record t := mk {
  symbol : string;
  bid : Q;
  ask : Q;
  last : Q;
  volume : Z;
  timestamp : option Q   (* datetime, seconds; [None] is Python's None *)
}.

Definition spread_points (self : t) : Q :=
  if Py.gt (ask self) 0 && Py.gt (bid self) 0
  then (ask self - bid self) / 0.0001
  else 0.

Definition is_valid (self : t) : bool :=
  Py.gt (bid self) 0 && Py.gt (ask self) 0 && Py.gt (last self) 0.
End ArbTick.

Module ArbTriangle.
Record t := mk {
  triangle_type : Z;
  direction : Z;
  tickets : list string;
  entry_prices : list Q;
  lots : list Q;
  deviation : Q;
  current_profit : Q;
  open_time : option Q;
  active : bool;
  compensation : bool;
  parent_index : Z;
  total_volume : Q;
  symbols : list string
}.

(** [ArbTriangle()]: the dataclass defaults. *)
Definition default : t :=
  mk (-1) 0 [""; ""; ""] [0; 0; 0] [0; 0; 0] 0 0 None false false (-1) 0 [].

Definition get_side (self : t) (index : Z) : string :=
  if Z.eqb (direction self) 1
  then (if Z.ltb index 2 then "BUY" else "SELL")
  else (if Z.ltb index 2 then "SELL" else "BUY").
End ArbTriangle.

Module ArbOpportunity.
Record t := mk {
  triangle_type : nat;
  direction : Z;
  deviation : Q;
  ticks : list ArbTick.t;
  signal_type : string;
  description : string
}.

Definition is_profitable (self : t) : bool := Py.gt (Qabs (deviation self)) 0.
End ArbOpportunity.

(** ** config/arb_config.py *)

Module ArbConfig.
Record t := mk {
  LotSize : Q;
  MaxSpread : Q;
  MinDeviation : Q;
  LossCompensationThreshold : Q;
  TargetProfit : Q;
  MaxLoss : Q;
  MaxTriangles : Z;
  EnableCompensation : bool;
  CompensationLotMultiplier : Q;
  CloseAllOnTargetProfit : bool;
  TimeCloseHours : Q;
  PaperTrading : bool;
  ScanInterval : Q
}.

Definition default : t :=
  mk 0.1 2.0 2.0 5.0 10.0 (-20.0) 3 true 0.6 true 4.0 false 3.0.

Definition ARB_CURRENCY_PAIRS : list (string * string) :=
  [ ("USD", "USD000000TOD@CETS"); ("EUR", "EUR_RUB__TOD@CETS");
    ("CNY", "CNY000000TOD@CETS"); ("GBP", "GBP000000TOD@CETS");
    ("CHF", "CHF000000TOD@CETS"); ("JPY", "JPY000000TOD@CETS");
    ("HKD", "HKD000000TOD@CETS"); ("BYN", "BYN000000TOD@CETS");
    ("KZT", "KZT000000TOD@CETS"); ("TRY", "TRY000000TOD@CETS");
    ("AUD", "AUD000000TOD@CETS"); ("CAD", "CAD000000TOD@CETS") ].

(** [ARB_CURRENCY_PAIRS.get(code)]; [ARB_CURRENCY_PAIRS[code]] raises
    KeyError where this is [None]. *)
Definition currency_pair (code : string) : option string :=
  snd <$> List.find (fun kv => String.eqb (fst kv) code) ARB_CURRENCY_PAIRS.

Definition ARB_TRIANGLE_PAIRS : list (list string) :=
  [ ["USD"; "EUR"; "EUR"]; ["USD"; "JPY"; "JPY"]; ["USD"; "JPY"; "JPY"];
    ["EUR"; "USD"; "EUR"]; ["GBP"; "USD"; "GBP"]; ["CNY"; "USD"; "CNY"] ].

(** 0 = multiplication, 1 = division. *)
Definition ARB_TRIANGLE_FORMULAS : list Z := [0; 0; 0; 1; 1; 1]%Z.

Definition ARB_TRIANGLE_DESCRIPTIONS : list string :=
  [ "USD×EUR = EUR"; "USD×JPY = JPY"; "CHF×JPY = JPY";
    "EUR/USD = EUR"; "GBP/USD = GBP"; "CNY/USD = CNY" ].
End ArbConfig.

(** ** core/arb_calculator.py *)

Module ArbCalculator.
Import ArbConfig.

Definition POINT : Q := 0.0001.

(** [calc_deviations(tri_type, ticks)].  [tri_type] is an index into
    [ARB_TRIANGLE_FORMULAS]; past its end Python raises IndexError. *)
Definition calc_deviations (tri_type : nat) (ticks : list ArbTick.t)
  : Py.result (Q * Q * string) :=
  match ticks with
  | [t0; t1; t2] =>
      match nth_error ARB_TRIANGLE_FORMULAS tri_type with
      | None => Py.Raise "IndexError"
      | Some f =>
          if Z.eqb f 0 then
            let dev_buy := (ArbTick.bid t2 - (ArbTick.ask t0 * ArbTick.ask t1)) / POINT in
            let dev_sell := ((ArbTick.bid t0 * ArbTick.bid t1) - ArbTick.ask t2) / POINT in
            Py.Ok (dev_buy, dev_sell, "MUL")
          else
            let dev_buy :=
              if Py.gt (ArbTick.ask t0) 0
              then ((ArbTick.bid t2 / ArbTick.ask t0) - ArbTick.ask t1) / POINT else 0 in
            let dev_sell :=
              if Py.gt (ArbTick.bid t0) 0
              then (ArbTick.bid t1 - (ArbTick.ask t2 / ArbTick.bid t0)) / POINT else 0 in
            Py.Ok (dev_buy, dev_sell, "DIV")
      end
  | _ => Py.Ok (0, 0, "ERROR")
  end.

Definition check_spreads (ticks : list ArbTick.t) (max_spread : Q) : bool :=
  forallb (fun t => Py.le (ArbTick.spread_points t) max_spread) ticks.

Definition calc_lots (tri_type : Z) (direction : Z) (base_lot : Q) : list Q :=
  let '(l0, l1, l2) :=
    if Z.eqb tri_type 0 then (base_lot, base_lot * 0.95, base_lot * 1.02)
    else if Z.eqb tri_type 1 then (base_lot, base_lot * 1.05, base_lot * 0.98)
    else if Z.eqb tri_type 2 then (base_lot, base_lot, base_lot * 0.9)
    else if Z.leb 3 tri_type then (base_lot, base_lot, base_lot * 1.03)
    else (base_lot, base_lot, base_lot) in
  List.map Py.round2 [l0; l1; l2].

(** One turn of the [for tri in range(len(ARB_TRIANGLE_PAIRS))] loop:
    the opportunity appended for [tri], if any. *)
Definition scan_triangle (triangles_state : list ArbTriangle.t)
    (get_ticks_func : nat -> option (list ArbTick.t)) (config : ArbConfig.t)
    (tri : nat) : Py.result (option ArbOpportunity.t) :=
  if existsb (fun t => ArbTriangle.active t
                       && Z.eqb (ArbTriangle.triangle_type t) (Z.of_nat tri))
             triangles_state
  then Py.Ok None
  else
    match get_ticks_func tri with
    | None | Some [] => Py.Ok None
    | Some ticks =>
        if negb (forallb ArbTick.is_valid ticks) then Py.Ok None
        else if negb (check_spreads ticks (MaxSpread config)) then Py.Ok None
        else
          match calc_deviations tri ticks with
          | Py.Raise e => Py.Raise e
          | Py.Ok (dev_buy, dev_sell, sig_type) =>
              let descr := nth tri ARB_TRIANGLE_DESCRIPTIONS "" in
              if Py.gt dev_buy (MinDeviation config) then
                Py.Ok (Some (ArbOpportunity.mk tri 1 dev_buy ticks sig_type
                               (descr ++ " BUY")))
              else if Py.gt dev_sell (MinDeviation config) then
                Py.Ok (Some (ArbOpportunity.mk tri (-1) dev_sell ticks sig_type
                               (descr ++ " SELL")))
              else Py.Ok None
          end
    end.

(** The loop: opportunities in the order they are appended. *)
Fixpoint scan_all (triangles_state : list ArbTriangle.t)
    (get_ticks_func : nat -> option (list ArbTick.t)) (config : ArbConfig.t)
    (tris : list nat) : Py.result (list ArbOpportunity.t) :=
  match tris with
  | [] => Py.Ok []
  | tri :: rest =>
      match scan_triangle triangles_state get_ticks_func config tri with
      | Py.Raise e => Py.Raise e
      | Py.Ok o =>
          match scan_all triangles_state get_ticks_func config rest with
          | Py.Raise e => Py.Raise e
          | Py.Ok os => Py.Ok (match o with Some x => x :: os | None => os end)
          end
      end
  end.

Definition find_opportunities (triangles_state : list ArbTriangle.t)
    (get_ticks_func : nat -> option (list ArbTick.t)) (config : ArbConfig.t)
  : Py.result (list ArbOpportunity.t) :=
  let active_count :=
    Z.of_nat (List.length (List.filter ArbTriangle.active triangles_state)) in
  if Z.leb (MaxTriangles config) active_count then Py.Ok []
  else
    match scan_all triangles_state get_ticks_func config
            (seq 0 (List.length ARB_TRIANGLE_PAIRS)) with
    | Py.Raise e => Py.Raise e
    | Py.Ok opportunities =>
        Py.Ok (Py.sort_desc (fun x => Qabs (ArbOpportunity.deviation x)) opportunities)
    end.
End ArbCalculator.

(** ** core/arb_monitor.py *)

Module ArbMonitor.

(** One entry of [SubscribeQuoteResponse.quote].  A price field is [None]
    when the message field is unset or its [value] string is empty (both
    are falsy in the handler's tests), otherwise the number that
    [float(value)] yields. *)
Record Quote := mkQuote {
  q_symbol : string;
  q_bid : option Q;
  q_ask : option Q;
  q_last : option Q;
  q_volume : option Q
}.

(** [self.ticks] is a dict from symbol to the latest [ArbTick]. *)
Record t := mk {
  ticks : gmap string ArbTick.t;
  running : bool;
  updates : Z;
  start_time : option Q
}.

(** [ArbMonitor(fp)]. *)
Definition init : t := mk ∅ false 0 None.

(** The [ArbTick(...)] the handler builds for [q] when the clock reads [now]. *)
Definition make_tick (q : Quote) (now : Q) : ArbTick.t :=
  ArbTick.mk (q_symbol q)
    (match q_bid q with Some v => v | None => 0 end)
    (match q_ask q with Some v => v | None => 0 end)
    (match q_last q with Some v => v | None => 0 end)
    (match q_volume q with Some v => Py.int v | None => 0%Z end)
    (Some now).

(** Body of [for q in quote.quote].  No callback is registered anywhere in
    the repository, so the callback loop does nothing. *)
Definition handle (self : t) (qn : Quote * Q) : t :=
  let symbol := q_symbol (fst qn) in
  let tick := make_tick (fst qn) (snd qn) in
  mk (<[symbol := tick]> (ticks self)) (running self) (updates self + 1)%Z
     (start_time self).

(** [_handler(quote)]: each entry comes with the reading of
    [datetime.now()] at the moment it is handled. *)
Definition _handler (self : t) (quote : list (Quote * Q)) : t :=
  fold_left handle quote self.

Definition get_tick (self : t) (currency : string) : option ArbTick.t :=
  match ArbConfig.currency_pair currency with
  | Some symbol => if Py.truthy symbol then ticks self !! symbol else None
  | None => None
  end.

End ArbMonitor.

(** ** run_arbitrage.py: how the scanner reads the monitor *)

Module ArbitrageApp.

Fixpoint collect_ticks (monitor : ArbMonitor.t) (currencies : list string)
  : option (list ArbTick.t) :=
  match currencies with
  | [] => Some []
  | currency :: rest =>
      match ArbMonitor.get_tick monitor currency with
      | None => None
      | Some tick =>
          if negb (ArbTick.is_valid tick) then None
          else match collect_ticks monitor rest with
               | None => None
               | Some ticks => Some (tick :: ticks)
               end
      end
  end.

(** [get_ticks_for_triangle(tri_type)], for [tri_type] in range. *)
Definition get_ticks_for_triangle (monitor : ArbMonitor.t) (tri_type : nat)
  : option (list ArbTick.t) :=
  collect_ticks monitor (nth tri_type ArbConfig.ARB_TRIANGLE_PAIRS []).

End ArbitrageApp.

(** ** The broker interface (FinamPy) *)

Module Broker.

Inductive Side := SIDE_BUY | SIDE_SELL.

Definition side_eqb (a b : Side) : bool :=
  match a, b with
  | SIDE_BUY, SIDE_BUY | SIDE_SELL, SIDE_SELL => true
  | _, _ => false
  end.

(** [Order(...)], always of type ORDER_TYPE_MARKET. *)
Record Order := mkOrder {
  o_account_id : string;
  o_symbol : string;
  o_quantity : Q;
  o_side : Side;
  o_client_order_id : string;
  o_comment : string
}.

(** Requests sent through [fp.call_function]. *)
Inductive Call :=
| PlaceOrder (order : Order)
| CancelOrder (account_id order_id : string)
| GetOrder (account_id order_id : string).

(** What [call_function(PlaceOrder, order)] gives back: an order state with
    its [order_id], [None], or an exception. *)
Inductive PlaceReply :=
| PlaceState (order_id : string)
| PlaceNone
| PlaceRaises.

(** [call_function(CancelOrder, ...)]: a truthy or falsy result, or an
    exception. *)
Inductive CancelReply :=
| CancelResult (truthy : bool)
| CancelRaises.

(** [call_function(GetOrder, ...)]: an order state (with the side of its
    order), [None], or an exception. *)
Inductive GetReply :=
| GetState (side : Side)
| GetNone
| GetRaises.

(** The broker answers a request knowing every request sent before it. *)
Record t := mk {
  place_order : list Call -> Order -> PlaceReply;
  cancel_order : list Call -> string -> CancelReply;
  get_order : list Call -> string -> GetReply
}.

Definition is_cancel (c : Call) : bool :=
  match c with CancelOrder _ _ => true | _ => false end.

(** The operation word of a side. *)
Definition side_name (s : Side) : string :=
  match s with SIDE_BUY => "BUY" | SIDE_SELL => "SELL" end.

(** The order ids the broker hands out for the PlaceOrder requests of
    [trace], sent after [history]: those of the replies that carry a
    non-empty id. *)
Fixpoint accepted (broker : t) (history trace : list Call) : list string :=
  match trace with
  | [] => []
  | c :: rest =>
      (match c with
       | PlaceOrder order =>
           match place_order broker history order with
           | PlaceState order_id => if Py.truthy order_id then [order_id] else []
           | _ => []
           end
       | _ => []
       end) ++ accepted broker (history ++ [c]) rest
  end.

End Broker.

(** ** core/arb_executor.py *)

Module ArbExecutor.
Import Broker.

Record t := mk {
  account_id : string;
  config : ArbConfig.t;
  triangles : list ArbTriangle.t;
  calls : list Call;     (* requests sent so far, oldest first *)
  clock : Q              (* seconds *)
}.

(** [ArbExecutor(fp_connection, account_id, config)]. *)
Definition init (account_id : string) (config : ArbConfig.t) (now : Q) : t :=
  mk account_id config (repeat ArbTriangle.default 50) [] now.

Definition send (c : Call) (self : t) : t :=
  mk (account_id self) (config self) (triangles self) (calls self ++ [c]) (clock self).

Definition sleep (d : Q) (self : t) : t :=
  mk (account_id self) (config self) (triangles self) (calls self) (clock self + d).

Definition set_triangles (ts : list ArbTriangle.t) (self : t) : t :=
  mk (account_id self) (config self) ts (calls self) (clock self).

Definition close_position (broker : Broker.t) (ticket : string) (self : t) : bool * t :=
  if Py.startswith ticket "PAPER_" then (true, self)
  else
    let self' := send (CancelOrder (account_id self) ticket) self in
    match cancel_order broker (calls self) ticket with
    | CancelResult true => (true, self')
    | CancelResult false => (false, self')
    | CancelRaises => (false, self')
    end.

Fixpoint _rollback (broker : Broker.t) (tickets : list string) (self : t) : t :=
  match tickets with
  | [] => self
  | ticket :: rest => _rollback broker rest (snd (close_position broker ticket self))
  end.

(** [next((i for i, t in enumerate(self.triangles) if not t.active), None)]. *)
Fixpoint first_free (ts : list ArbTriangle.t) (i : nat) : option nat :=
  match ts with
  | [] => None
  | t :: rest => if negb (ArbTriangle.active t) then Some i else first_free rest (S i)
  end.

(** [ARB_CURRENCY_PAIRS[tick.symbol.split('@')[0]]] for the first three
    ticks; IndexError or KeyError otherwise. *)
Definition order_symbols (opp : ArbOpportunity.t) : Py.result (list string) :=
  match ArbOpportunity.ticks opp with
  | t0 :: t1 :: t2 :: _ =>
      match ArbConfig.currency_pair (Py.before_at (ArbTick.symbol t0)),
            ArbConfig.currency_pair (Py.before_at (ArbTick.symbol t1)),
            ArbConfig.currency_pair (Py.before_at (ArbTick.symbol t2)) with
      | Some s0, Some s1, Some s2 => Py.Ok [s0; s1; s2]
      | _, _, _ => Py.Raise "KeyError"
      end
  | _ => Py.Raise "IndexError"
  end.

Definition sides_prices (opp : ArbOpportunity.t) (t0 t1 t2 : ArbTick.t)
  : list Side * list Q :=
  if String.eqb (ArbOpportunity.signal_type opp) "MUL" then
    if Z.eqb (ArbOpportunity.direction opp) 1
    then ([SIDE_BUY; SIDE_BUY; SIDE_SELL], [ArbTick.ask t0; ArbTick.ask t1; ArbTick.bid t2])
    else ([SIDE_SELL; SIDE_SELL; SIDE_BUY], [ArbTick.bid t0; ArbTick.bid t1; ArbTick.ask t2])
  else
    if Z.eqb (ArbOpportunity.direction opp) 1
    then ([SIDE_BUY; SIDE_SELL; SIDE_SELL], [ArbTick.ask t0; ArbTick.bid t1; ArbTick.bid t2])
    else ([SIDE_SELL; SIDE_BUY; SIDE_BUY], [ArbTick.bid t0; ArbTick.ask t1; ArbTick.ask t2]).

(** The [Order(...)] built for leg [i]. *)
Definition make_order (self : t) (opp : ArbOpportunity.t) (comp : bool) (slot : nat)
    (symbols : list string) (lots : list Q) (sides : list Side) (i : nat) : Order :=
  mkOrder (account_id self) (nth i symbols "") (nth i lots 0) (nth i sides SIDE_BUY)
    (pretty (Py.int (clock self)) ++ "_" ++ pretty slot ++ "_" ++ pretty i)
    ((if comp then "COMP_" else "ARB_")
       ++ "T" ++ pretty (ArbOpportunity.triangle_type opp)
       ++ "_D" ++ pretty (ArbOpportunity.direction opp) ++ "_" ++ pretty i).

(** The [for i in range(3)] loop, from leg [i] on.  [None]: a leg failed,
    the placed ones were rolled back and [open_triangle] returns None. *)
Fixpoint place_legs (broker : Broker.t) (opp : ArbOpportunity.t) (comp : bool)
    (slot : nat) (symbols : list string) (lots : list Q) (sides : list Side)
    (legs : list nat) (tickets : list string) (self : t)
  : option (list string) * t :=
  match legs with
  | [] => (Some tickets, self)
  | i :: rest =>
      if ArbConfig.PaperTrading (config self) then
        let ticket := "PAPER_" ++ pretty slot ++ "_" ++ pretty i ++ "_"
                        ++ pretty (Py.int (clock self)) in
        place_legs broker opp comp slot symbols lots sides rest (tickets ++ [ticket]) self
      else
        let order := make_order self opp comp slot symbols lots sides i in
        let self' := send (PlaceOrder order) self in
        match place_order broker (calls self) order with
        | PlaceState order_id =>
            if Py.truthy order_id then
              place_legs broker opp comp slot symbols lots sides rest
                (tickets ++ [order_id]) (sleep 0.5 self')
            else (None, _rollback broker tickets self')
        | PlaceNone => (None, _rollback broker tickets self')
        | PlaceRaises => (None, _rollback broker tickets self')
        end
  end.

Definition open_triangle (broker : Broker.t) (opp : ArbOpportunity.t)
    (comp : bool) (parent : Z) (self : t) : Py.result (option nat) * t :=
  match first_free (triangles self) 0 with
  | None => (Py.Ok None, self)
  | Some slot =>
      let base_lot :=
        if comp
        then ArbConfig.LotSize (config self) * ArbConfig.CompensationLotMultiplier (config self)
        else ArbConfig.LotSize (config self) in
      let lots := ArbCalculator.calc_lots (Z.of_nat (ArbOpportunity.triangle_type opp))
                    (ArbOpportunity.direction opp) base_lot in
      match order_symbols opp, ArbOpportunity.ticks opp with
      | Py.Ok symbols, t0 :: t1 :: t2 :: _ =>
          let '(sides, prices) := sides_prices opp t0 t1 t2 in
          match place_legs broker opp comp slot symbols lots sides [0; 1; 2]%nat [] self with
          | (None, self') => (Py.Ok None, self')
          | (Some tickets, self') =>
              let tri :=
                ArbTriangle.mk (Z.of_nat (ArbOpportunity.triangle_type opp))
                  (ArbOpportunity.direction opp) tickets prices lots
                  (ArbOpportunity.deviation opp) 0 (Some (clock self')) true comp parent
                  0 symbols in
              (Py.Ok (Some slot), set_triangles (<[slot := tri]> (triangles self')) self')
          end
      | Py.Raise e, _ => (Py.Raise e, self)
      | Py.Ok _, _ => (Py.Raise "IndexError", self)
      end
  end.

(** The [for ticket in tri.tickets] loop of [close_triangle]. *)
Fixpoint close_tickets (broker : Broker.t) (tickets : list string) (self : t) : t :=
  match tickets with
  | [] => self
  | ticket :: rest =>
      if Py.truthy ticket
      then close_tickets broker rest (sleep 0.3 (snd (close_position broker ticket self)))
      else close_tickets broker rest self
  end.

Definition deactivate (tri : ArbTriangle.t) : ArbTriangle.t :=
  ArbTriangle.mk (ArbTriangle.triangle_type tri) (ArbTriangle.direction tri)
    (ArbTriangle.tickets tri) (ArbTriangle.entry_prices tri) (ArbTriangle.lots tri)
    (ArbTriangle.deviation tri) (ArbTriangle.current_profit tri)
    (ArbTriangle.open_time tri) false false (ArbTriangle.parent_index tri)
    (ArbTriangle.total_volume tri) (ArbTriangle.symbols tri).

(** [close_triangle(index)].  The guard [index >= len(self.triangles)]
    lets every negative index through to [self.triangles[index]], which
    counts from the end or raises IndexError. *)
Definition close_triangle (broker : Broker.t) (index : Z) (self : t)
  : Py.result unit * t :=
  if Z.geb index (Z.of_nat (List.length (triangles self))) then (Py.Ok tt, self)
  else
    match Py.getitem (triangles self) index with
    | None => (Py.Raise "IndexError", self)
    | Some (pos, tri) =>
        if negb (ArbTriangle.active tri) then (Py.Ok tt, self)
        else
          let self' := close_tickets broker (ArbTriangle.tickets tri) self in
          (Py.Ok tt, set_triangles (<[pos := deactivate tri]> (triangles self')) self')
    end.

(** Number of active slots. *)
Definition active_count (self : t) : nat :=
  List.length (List.filter ArbTriangle.active (triangles self)).

End ArbExecutor.

(** ** run_arbitrage.py: the scan branch of the main loop *)

Module ArbitrageAppRun.

(** The body of [if now - last_scan >= self.config.ScanInterval] in
    [ArbitrageApp.run]: scan, then open the best opportunity.  The
    executor's configuration is the application's.  An exception leaves
    the loop. *)
Definition scan_step (broker : Broker.t) (monitor : ArbMonitor.t) (executor : ArbExecutor.t)
  : Py.result unit * ArbExecutor.t :=
  match ArbCalculator.find_opportunities (ArbExecutor.triangles executor)
          (ArbitrageApp.get_ticks_for_triangle monitor) (ArbExecutor.config executor) with
  | Py.Raise e => (Py.Raise e, executor)
  | Py.Ok [] => (Py.Ok tt, executor)
  | Py.Ok (best :: _) =>
      if Py.ge (Qabs (ArbOpportunity.deviation best))
               (ArbConfig.MinDeviation (ArbExecutor.config executor))
      then
        match ArbExecutor.open_triangle broker best false (-1) executor with
        | (Py.Raise e, executor') => (Py.Raise e, executor')
        | (Py.Ok _, executor') => (Py.Ok tt, executor')
        end
      else (Py.Ok tt, executor)
  end.

End ArbitrageAppRun.

(** ** arbitrage_trader.py *)

Module ArbitrageTrader.
Import Broker.

Module CurrencyPair.
Record t := mk {
  base_currency : string;
  quote_currency : string;
  symbol : string;
  name : string;
  bid : Q;
  ask : Q;
  last : Q
}.

Definition display_name (self : t) : string :=
  base_currency self ++ "/" ++ quote_currency self.
End CurrencyPair.

(** A triangle holds its pairs as values.  In Python real pairs are the
    objects stored in [self.currency_pairs], whose prices the quote handler
    overwrites in place; a [Triangle.t] stands for the triangle with its
    pairs read at the moment a function is called.  Virtual pairs are
    separate objects and keep zero prices. *)
Module Triangle.
Record t := mk {
  pairs : list CurrencyPair.t;
  operations : list string;
  formula_type : string;
  synthetic_rate : Q;
  market_rate : Q;
  deviation_points : Q;
  deviation_percent : Q
}.

(** [Triangle(pairs=..., operations=..., formula_type=...)]. *)
Definition new (pairs : list CurrencyPair.t) (operations : list string)
    (formula_type : string) : t :=
  mk pairs operations formula_type 0 0 0 0.
End Triangle.

Module ActiveTriangle.
Record t := mk {
  triangle : Triangle.t;
  tickets : list string;
  entry_prices : list Q;
  lots : list Q;
  open_time : Q;
  expected_profit : Q
}.
End ActiveTriangle.

Record t := mk {
  min_deviation_points : Q;
  max_spread_points : Q;
  lot_size : Q;
  max_concurrent_triangles : Z;
  take_profit_points : Q;
  stop_loss_points : Q;
  account_id : string;
  currency_pairs : list (string * CurrencyPair.t);  (* dict, in insertion order *)
  triangles : list Triangle.t;
  active_triangles : list ActiveTriangle.t;
  calls : list Call;
  clock : Q
}.

Definition send (c : Call) (self : t) : t :=
  mk (min_deviation_points self) (max_spread_points self) (lot_size self)
     (max_concurrent_triangles self) (take_profit_points self) (stop_loss_points self)
     (account_id self) (currency_pairs self) (triangles self) (active_triangles self)
     (calls self ++ [c]) (clock self).

Definition sleep (d : Q) (self : t) : t :=
  mk (min_deviation_points self) (max_spread_points self) (lot_size self)
     (max_concurrent_triangles self) (take_profit_points self) (stop_loss_points self)
     (account_id self) (currency_pairs self) (triangles self) (active_triangles self)
     (calls self) (clock self + d).

Definition set_triangles (ts : list Triangle.t) (self : t) : t :=
  mk (min_deviation_points self) (max_spread_points self) (lot_size self)
     (max_concurrent_triangles self) (take_profit_points self) (stop_loss_points self)
     (account_id self) (currency_pairs self) ts (active_triangles self)
     (calls self) (clock self).

Definition set_active_triangles (acts : list ActiveTriangle.t) (self : t) : t :=
  mk (min_deviation_points self) (max_spread_points self) (lot_size self)
     (max_concurrent_triangles self) (take_profit_points self) (stop_loss_points self)
     (account_id self) (currency_pairs self) (triangles self) acts
     (calls self) (clock self).

(** The same bot at another clock reading, and the same active triangle
    with another opening time. *)
Definition at_time (now : Q) (self : t) : t :=
  mk (min_deviation_points self) (max_spread_points self) (lot_size self)
     (max_concurrent_triangles self) (take_profit_points self) (stop_loss_points self)
     (account_id self) (currency_pairs self) (triangles self) (active_triangles self)
     (calls self) now.

Definition opened_at (t0 : Q) (active : ActiveTriangle.t) : ActiveTriangle.t :=
  ActiveTriangle.mk (ActiveTriangle.triangle active) (ActiveTriangle.tickets active)
    (ActiveTriangle.entry_prices active) (ActiveTriangle.lots active) t0
    (ActiveTriangle.expected_profit active).

Definition is_virtual (pair : CurrencyPair.t) : bool :=
  Py.startswith (CurrencyPair.symbol pair) "VIRTUAL".

(** The loop [for p in self.currency_pairs.values(): if p.base_currency ==
    pair.quote_currency and p.quote_currency == 'RUB']: first match. *)
Definition real_pair_of (self : t) (pair : CurrencyPair.t) : option CurrencyPair.t :=
  List.find (fun p => String.eqb (CurrencyPair.base_currency p) (CurrencyPair.quote_currency pair)
                      && String.eqb (CurrencyPair.quote_currency p) "RUB")
            (List.map snd (currency_pairs self)).

Definition check_spread (self : t) (pair : CurrencyPair.t) : bool :=
  if Py.le (CurrencyPair.ask pair) 0 || Py.le (CurrencyPair.bid pair) 0 then false
  else
    let spread := (CurrencyPair.ask pair - CurrencyPair.bid pair) / 0.0001 in
    Py.le spread (max_spread_points self).

Definition get_effective_rate (self : t) (pair : CurrencyPair.t) (operation : string) : Q :=
  if is_virtual pair then
    match real_pair_of self pair with
    | Some real_pair =>
        if String.eqb operation "BUY"
        then (if Py.gt (CurrencyPair.ask real_pair) 0 then 1 / CurrencyPair.ask real_pair else 0)
        else (if Py.gt (CurrencyPair.bid real_pair) 0 then 1 / CurrencyPair.bid real_pair else 0)
    | None => 0
    end
  else
    if String.eqb operation "BUY" then CurrencyPair.ask pair else CurrencyPair.bid pair.

(** Returns (synthetic_rate, market_rate, deviation_points, deviation_percent).
    Unpacking [triangle.pairs] raises ValueError unless there are three. *)
Definition calculate_triangle (self : t) (triangle : Triangle.t)
  : Py.result (Q * Q * Q * Q) :=
  match Triangle.pairs triangle with
  | [p1; p2; p3] =>
      match Triangle.operations triangle with
      | op0 :: op1 :: op2 :: _ =>
          let rate1 := get_effective_rate self p1 op0 in
          let rate2 := get_effective_rate self p2 op1 in
          let rate3 := get_effective_rate self p3 op2 in
          if Py.le rate1 0 || Py.le rate2 0 || Py.le rate3 0 then Py.Ok (0, 0, 0, 0)
          else
            let synthetic :=
              if String.eqb (Triangle.formula_type triangle) "MUL" then rate1 * rate2
              else if Py.gt rate2 0 then rate1 / rate2 else 0 in
            let market := rate3 in
            if Py.gt market 0 && Py.gt synthetic 0
            then Py.Ok (synthetic, market, (market - synthetic) / 0.0001,
                        ((market - synthetic) / synthetic) * 100)
            else Py.Ok (synthetic, market, 0, 0)
      | _ => Py.Raise "IndexError"
      end
  | _ => Py.Raise "ValueError"
  end.

(** The quote-presence test of [find_opportunities] for one pair. *)
Definition has_quotes (self : t) (p : CurrencyPair.t) : bool :=
  if is_virtual p then
    match real_pair_of self p with
    | None => false
    | Some real_pair =>
        negb (Py.le (CurrencyPair.bid real_pair) 0 || Py.le (CurrencyPair.ask real_pair) 0)
    end
  else negb (Py.le (CurrencyPair.bid p) 0 || Py.le (CurrencyPair.ask p) 0).

(** The spread test of [find_opportunities] for one pair. *)
Definition spread_ok (self : t) (p : CurrencyPair.t) : bool :=
  if negb (is_virtual p) then check_spread self p else true.

(** The assignments to [triangle.synthetic_rate] .. [deviation_percent]. *)
Definition with_rates (triangle : Triangle.t) (r : Q * Q * Q * Q) : Triangle.t :=
  let '(synthetic, market, dev_points, dev_percent) := r in
  Triangle.mk (Triangle.pairs triangle) (Triangle.operations triangle)
    (Triangle.formula_type triangle) synthetic market dev_points dev_percent.

(** One turn of [for triangle in self.triangles]: the triangle as it is
    after the turn, and whether it was appended to [opportunities]. *)
Definition scan_triangle (self : t) (triangle : Triangle.t)
  : Py.result (Triangle.t * bool) :=
  if negb (forallb (has_quotes self) (Triangle.pairs triangle)) then Py.Ok (triangle, false)
  else if negb (forallb (spread_ok self) (Triangle.pairs triangle)) then Py.Ok (triangle, false)
  else
    match calculate_triangle self triangle with
    | Py.Raise e => Py.Raise e
    | Py.Ok (synthetic, market, dev_points, dev_percent) =>
        if Py.ge (Qabs dev_points) (min_deviation_points self)
        then Py.Ok (with_rates triangle (synthetic, market, dev_points, dev_percent), true)
        else Py.Ok (triangle, false)
    end.

(** The loop over [self.triangles]: every triangle after its turn, with
    its mark. *)
Fixpoint scan_all (self : t) (ts : list Triangle.t)
  : Py.result (list (Triangle.t * bool)) :=
  match ts with
  | [] => Py.Ok []
  | triangle :: rest =>
      match scan_triangle self triangle with
      | Py.Raise e => Py.Raise e
      | Py.Ok r =>
          match scan_all self rest with
          | Py.Raise e => Py.Raise e
          | Py.Ok rs => Py.Ok (r :: rs)
          end
      end
  end.

(** [find_opportunities()]: the sorted opportunities, and the bot with its
    triangles as the scan left them. *)
Definition find_opportunities (self : t) : Py.result (list Triangle.t * t) :=
  match scan_all self (triangles self) with
  | Py.Raise e => Py.Raise e
  | Py.Ok marked =>
      let opportunities := List.map fst (List.filter snd marked) in
      Py.Ok (Py.sort_desc (fun x => Qabs (Triangle.deviation_points x)) opportunities,
             set_triangles (List.map fst marked) self)
  end.

Definition calculate_lots (self : t) (triangle : Triangle.t) : Py.result (list Q) :=
  match Triangle.pairs triangle with
  | [p1; p2; p3] =>
      let l2 := if String.eqb (Triangle.formula_type triangle) "MUL"
                then lot_size self * 0.98 else lot_size self * 1.02 in
      Py.Ok (List.map Py.round2 [lot_size self; lot_size self; l2])
  | _ => Py.Raise "ValueError"
  end.

Definition close_position (broker : Broker.t) (ticket : string) (self : t) : bool * t :=
  let self' := send (CancelOrder (account_id self) ticket) self in
  match cancel_order broker (calls self) ticket with
  | CancelResult true => (true, self')
  | CancelResult false => (false, self')
  | CancelRaises => (false, self')
  end.

(** [for ticket in tickets: self.close_position(ticket)]. *)
Fixpoint close_all (broker : Broker.t) (tickets : list string) (self : t) : t :=
  match tickets with
  | [] => self
  | ticket :: rest => close_all broker rest (snd (close_position broker ticket self))
  end.

(** Price and order symbol of one leg in [execute_triangle]; [None] when a
    virtual pair has no real pair. *)
Definition execution_price (self : t) (pair : CurrencyPair.t) (side : Side)
  : option (Q * string) :=
  if is_virtual pair then
    match real_pair_of self pair with
    | Some real_pair =>
        let price := if side_eqb side SIDE_SELL
                     then CurrencyPair.ask real_pair else CurrencyPair.bid real_pair in
        let price := if Py.gt price 0 then 1 / price else 0 in
        Some (price, CurrencyPair.symbol real_pair)
    | None => None
    end
  else
    Some (if side_eqb side SIDE_BUY then CurrencyPair.ask pair else CurrencyPair.bid pair,
          CurrencyPair.symbol pair).

(** The [for i, pair in enumerate(triangle.pairs)] loop from leg [i] on.
    [None]: [execute_triangle] returns False. *)
Fixpoint execute_legs (broker : Broker.t) (triangle : Triangle.t) (lots : list Q)
    (legs : list CurrencyPair.t) (i : nat) (tickets : list string)
    (entry_prices : list Q) (self : t) : option (list string * list Q) * t :=
  match legs with
  | [] => (Some (tickets, entry_prices), self)
  | cp :: rest =>
      match nth_error (Triangle.operations triangle) i with
      | None => (None, close_all broker tickets self)        (* IndexError, caught *)
      | Some operation =>
          let side := if String.eqb operation "BUY" then SIDE_BUY else SIDE_SELL in
          match execution_price self cp side with
          | None => (None, self)
          | Some (price, symbol) =>
              let order :=
                mkOrder (account_id self) symbol (nth i lots 0) side
                  ("arb_" ++ pretty (Py.int (clock self)) ++ "_" ++ pretty i)
                  ("ARB_" ++ Triangle.formula_type triangle ++ "_" ++ pretty i) in
              let self' := send (PlaceOrder order) self in
              match place_order broker (calls self) order with
              | PlaceState order_id =>
                  if Py.truthy order_id then
                    execute_legs broker triangle lots rest (S i) (tickets ++ [order_id])
                      (entry_prices ++ [price]) (sleep 0.5 self')
                  else (None, close_all broker tickets self')
              | PlaceNone => (None, close_all broker tickets self')
              | PlaceRaises => (None, close_all broker tickets self')
              end
          end
      end
  end.

Definition execute_triangle (broker : Broker.t) (triangle : Triangle.t) (self : t)
  : Py.result bool * t :=
  if Z.leb (max_concurrent_triangles self) (Z.of_nat (List.length (active_triangles self)))
  then (Py.Ok false, self)
  else if Nat.ltb (List.length (Triangle.operations triangle))
                  (List.length (Triangle.pairs triangle))
  then (Py.Raise "IndexError", self)      (* [triangle.description] in the log line *)
  else
    match calculate_lots self triangle with
    | Py.Raise e => (Py.Raise e, self)
    | Py.Ok lots =>
        match execute_legs broker triangle lots (Triangle.pairs triangle) 0 [] [] self with
        | (None, self') => (Py.Ok false, self')
        | (Some (tickets, entry_prices), self') =>
            let active :=
              ActiveTriangle.mk triangle tickets entry_prices lots (clock self')
                (Triangle.deviation_points triangle * lot_size self * 1000) in
            (Py.Ok true, set_active_triangles (active_triangles self' ++ [active]) self')
        end
    end.

(** Current price of leg [i] in the monitor. *)
Definition current_price_of (self : t) (pair : CurrencyPair.t) : Q :=
  if is_virtual pair then
    match real_pair_of self pair with
    | Some rp => if Py.gt (CurrencyPair.last rp) 0 then 1 / CurrencyPair.last rp
                 else CurrencyPair.last rp
    | None => 0
    end
  else CurrencyPair.last pair.

(** Body of [for i, ticket in enumerate(active.tickets)], inside its
    [try]/[except: pass]: the contribution to [current_profit] and whether
    an order state was seen ([all_closed = False]). *)
Definition leg_profit (self : t) (active : ActiveTriangle.t) (i : nat) (reply : GetReply)
  : Q * bool :=
  match reply with
  | GetState side =>
      match nth_error (Triangle.pairs (ActiveTriangle.triangle active)) i,
            nth_error (ActiveTriangle.entry_prices active) i,
            nth_error (ActiveTriangle.lots active) i with
      | Some cp, Some entry, Some lot =>
          let current_price := current_price_of self cp in
          if Py.gt current_price 0 && Py.gt entry 0 then
            if side_eqb side SIDE_BUY
            then ((current_price - entry) * lot * 100000, true)
            else ((entry - current_price) * lot * 100000, true)
          else (0, true)
      | _, _, _ => (0, true)     (* IndexError, swallowed by [except: pass] *)
      end
  | GetNone => (0, false)
  | GetRaises => (0, false)
  end.

Fixpoint poll_tickets (broker : Broker.t) (active : ActiveTriangle.t)
    (tickets : list string) (i : nat) (current_profit : Q) (all_closed : bool)
    (self : t) : Q * bool * t :=
  match tickets with
  | [] => (current_profit, all_closed, self)
  | ticket :: rest =>
      let self' := send (GetOrder (account_id self) ticket) self in
      let '(profit, seen) := leg_profit self active i (get_order broker (calls self) ticket) in
      poll_tickets broker active rest (S i) (current_profit + profit)
        (all_closed && negb seen) self'
  end.

(** One turn of [for active in self.active_triangles]: whether [active]
    goes to [to_remove]. *)
Definition monitor_one (broker : Broker.t) (active : ActiveTriangle.t) (self : t)
  : bool * t :=
  let '(current_profit, all_closed, self1) :=
    poll_tickets broker active (ActiveTriangle.tickets active) 0 0 true self in
  if all_closed then (true, self1)
  else if Py.ge current_profit (take_profit_points self * lot_size self * 1000)
  then (true, close_all broker (ActiveTriangle.tickets active) self1)
  else if Py.le current_profit (- stop_loss_points self * lot_size self * 1000)
  then (true, close_all broker (ActiveTriangle.tickets active) self1)
  else (false, self1).

Fixpoint monitor_loop (broker : Broker.t) (actives : list ActiveTriangle.t) (self : t)
  : list (ActiveTriangle.t * bool) * t :=
  match actives with
  | [] => ([], self)
  | active :: rest =>
      let '(remove, self1) := monitor_one broker active self in
      let '(marks, self2) := monitor_loop broker rest self1 in
      ((active, remove) :: marks, self2)
  end.

(** [monitor_active_triangles()].  [self.active_triangles.remove(active)]
    is taken to delete the entry that was marked: entries are separate
    objects with their own tickets. *)
Definition monitor_active_triangles (broker : Broker.t) (self : t) : t :=
  let '(marks, self') := monitor_loop broker (active_triangles self) self in
  set_active_triangles (List.map fst (List.filter (fun m => negb (snd m)) marks)) self'.

(** [init_currency_pairs()]: the dict [self.currency_pairs], symbol to pair. *)
Definition currency_symbols : list (string * string) :=
  [ ("USD", "USD000000TOD@CETS"); ("EUR", "EUR_RUB__TOD@CETS");
    ("CNY", "CNY000000TOD@CETS"); ("GBP", "GBP000000TOD@CETS");
    ("CHF", "CHF000000TOD@CETS"); ("JPY", "JPY000000TOD@CETS");
    ("HKD", "HKD000000TOD@CETS"); ("BYN", "BYN000000TOD@CETS");
    ("KZT", "KZT000000TOD@CETS"); ("TRY", "TRY000000TOD@CETS");
    ("AUD", "AUD000000TOD@CETS"); ("CAD", "CAD000000TOD@CETS");
    ("NOK", "NOK000000TOD@CETS"); ("SEK", "SEK000000TOD@CETS");
    ("DKK", "DKK000000TOD@CETS"); ("CZK", "CZK000000TOD@CETS");
    ("PLN", "PLN000000TOD@CETS"); ("INR", "INR000000TOD@CETS");
    ("BRL", "BRL000000TOD@CETS"); ("ZAR", "ZAR000000TOD@CETS") ].

Definition currency_names : list (string * string) :=
  [ ("USD", "Доллар США"); ("EUR", "Евро"); ("CNY", "Китайский юань");
    ("GBP", "Фунт стерлингов"); ("CHF", "Швейцарский франк");
    ("JPY", "Японская иена (100)"); ("HKD", "Гонконгский доллар");
    ("BYN", "Белорусский рубль"); ("KZT", "Казахстанский тенге (100)");
    ("TRY", "Турецкая лира"); ("AUD", "Австралийский доллар");
    ("CAD", "Канадский доллар"); ("NOK", "Норвежская крона");
    ("SEK", "Шведская крона"); ("DKK", "Датская крона");
    ("CZK", "Чешская крона"); ("PLN", "Польский злотый");
    ("INR", "Индийская рупия"); ("BRL", "Бразильский реал");
    ("ZAR", "Южноафриканский рэнд") ].

Definition init_currency_pairs : list (string * CurrencyPair.t) :=
  List.map (fun cs =>
              let name := match List.find (fun kv => String.eqb (fst kv) (fst cs))
                                  currency_names with
                          | Some kv => snd kv
                          | None => fst cs
                          end in
              (snd cs, CurrencyPair.mk (fst cs) "RUB" (snd cs) name 0 0 0))
           currency_symbols.

(** [_find_pair(base, quote)]. *)
Definition _find_pair (self : t) (base quote : string) : option CurrencyPair.t :=
  if String.eqb quote "RUB" then
    List.find (fun pair => String.eqb (CurrencyPair.base_currency pair) base
                           && String.eqb (CurrencyPair.quote_currency pair) "RUB")
              (List.map snd (currency_pairs self))
  else if String.eqb base "RUB" then
    match List.find (fun pair => String.eqb (CurrencyPair.base_currency pair) quote
                                 && String.eqb (CurrencyPair.quote_currency pair) "RUB")
                    (List.map snd (currency_pairs self)) with
    | Some _ =>
        Some (CurrencyPair.mk "RUB" quote ("VIRTUAL_RUB" ++ quote)
                ("Виртуальная RUB/" ++ quote) 0 0 0)
    | None => None
    end
  else None.

Definition _build_multiplication_triangle (self : t) (c1 c2 c3 : string) : t :=
  match _find_pair self c1 c2, _find_pair self c2 c3, _find_pair self c1 c3 with
  | Some pair_ab, Some pair_bc, Some pair_ac =>
      set_triangles
        (triangles self
         ++ [Triangle.new [pair_ab; pair_bc; pair_ac] ["BUY"; "BUY"; "SELL"] "MUL";
             Triangle.new [pair_ab; pair_bc; pair_ac] ["SELL"; "SELL"; "BUY"] "MUL"])
        self
  | _, _, _ => self
  end.

Definition _build_division_triangle (self : t) (c1 c2 c3 : string) : t :=
  match _find_pair self c1 c3, _find_pair self c1 c2, _find_pair self c2 c3 with
  | Some pair_ac, Some pair_ab, Some pair_bc =>
      set_triangles
        (triangles self
         ++ [Triangle.new [pair_ac; pair_ab; pair_bc] ["BUY"; "SELL"; "SELL"] "DIV";
             Triangle.new [pair_ac; pair_ab; pair_bc] ["SELL"; "BUY"; "BUY"] "DIV"])
        self
  | _, _, _ => self
  end.

(** [build_all_triangles()].  [bases] is [list(set(p.base_currency ...))]:
    the base currencies without repetition, in the order the Python set
    happens to yield them. *)
Definition build_all_triangles (bases : list string) (self : t) : t :=
  let currencies := (bases ++ ["RUB"])%list in
  fold_left (fun acc c => let '(c1, c2, c3) := c in
                          _build_division_triangle
                            (_build_multiplication_triangle acc c1 c2 c3) c1 c2 c3)
            (Py.combinations3 currencies) self.

(** [cleanup()], the orders: every ticket of every active triangle is
    closed; the list of active triangles is left as it is. *)
Definition cleanup (broker : Broker.t) (self : t) : t :=
  fold_left (fun acc active => close_all broker (ActiveTriangle.tickets active) acc)
            (active_triangles self) self.

End ArbitrageTrader.

(** ** arbitrage_finder.py *)

Module ArbitrageFinder.
Import Broker.

Module CurrencyPair.
Record t := mk {
  base_currency : string;
  quote_currency : string;
  symbol : string;
  bid : Q;
  ask : Q;
  last : Q
}.
End CurrencyPair.

Module Triangle.
Record t := mk {
  pairs : list CurrencyPair.t;
  operations : list string;
  formula_type : string;
  synthetic_rate : Q;
  market_rate : Q;
  deviation : Q;
  deviation_points : Q
}.

Definition new (pairs : list CurrencyPair.t) (operations : list string)
    (formula_type : string) : t :=
  mk pairs operations formula_type 0 0 0 0.
End Triangle.

(** The two triangles [build_all_triangles] appends for a multiplication
    template, and the two for a division template. *)
Definition mul_forward (pair1 pair2 pair3 : CurrencyPair.t) : Triangle.t :=
  Triangle.new [pair1; pair2; pair3] ["BUY"; "BUY"; "SELL"] "MUL".
Definition mul_reverse (pair1 pair2 pair3 : CurrencyPair.t) : Triangle.t :=
  Triangle.new [pair1; pair2; pair3] ["SELL"; "SELL"; "BUY"] "MUL".
Definition div_forward (pair1 pair2 pair3 : CurrencyPair.t) : Triangle.t :=
  Triangle.new [pair1; pair2; pair3] ["BUY"; "SELL"; "SELL"] "DIV".
Definition div_reverse (pair1 pair2 pair3 : CurrencyPair.t) : Triangle.t :=
  Triangle.new [pair1; pair2; pair3] ["SELL"; "BUY"; "BUY"] "DIV".

(** [operations[0] == a and operations[1] == b], with its IndexErrors. *)
Definition first_two_are (operations : list string) (a b : string) : Py.result bool :=
  match operations with
  | [] => Py.Raise "IndexError"
  | op0 :: rest =>
      if String.eqb op0 a then
        match rest with
        | [] => Py.Raise "IndexError"
        | op1 :: _ => Py.Ok (String.eqb op1 b)
        end
      else Py.Ok false
  end.

(** Returns (synthetic_rate, market_rate, deviation_points). *)
Definition calculate_triangle_rate (triangle : Triangle.t) : Py.result (Q * Q * Q) :=
  match Triangle.pairs triangle with
  | [p1; p2; p3] =>
      let rates :=
        if String.eqb (Triangle.formula_type triangle) "MUL" then
          match first_two_are (Triangle.operations triangle) "BUY" "BUY" with
          | Py.Raise e => Py.Raise e
          | Py.Ok true =>
              Py.Ok (CurrencyPair.ask p1 * CurrencyPair.ask p2, CurrencyPair.bid p3)
          | Py.Ok false =>
              Py.Ok (CurrencyPair.bid p1 * CurrencyPair.bid p2, CurrencyPair.ask p3)
          end
        else
          match first_two_are (Triangle.operations triangle) "BUY" "SELL" with
          | Py.Raise e => Py.Raise e
          | Py.Ok true =>
              Py.Ok (if Py.gt (CurrencyPair.bid p2) 0
                     then CurrencyPair.ask p1 / CurrencyPair.bid p2 else 0,
                     CurrencyPair.bid p3)
          | Py.Ok false =>
              Py.Ok (if Py.gt (CurrencyPair.ask p2) 0
                     then CurrencyPair.bid p1 / CurrencyPair.ask p2 else 0,
                     CurrencyPair.ask p3)
          end in
      match rates with
      | Py.Raise e => Py.Raise e
      | Py.Ok (synthetic, market) =>
          if Py.gt market 0 && Py.gt synthetic 0
          then Py.Ok (synthetic, market, (market - synthetic) / 0.0001)
          else Py.Ok (synthetic, market, 0)
      end
  | _ => Py.Raise "ValueError"
  end.

(** An entry of [self.active_triangles] (a dict). *)
Record Active := mkActive {
  a_triangle : Triangle.t;
  a_tickets : list string;
  a_open_time : Q;
  a_expected_profit : Q
}.

Record t := mk {
  account_id : string;
  active_triangles : list Active;
  calls : list Call;
  clock : Q
}.

Definition close_position (broker : Broker.t) (ticket : string) (self : t) : bool * t :=
  let self' := mk (account_id self) (active_triangles self)
                  (calls self ++ [CancelOrder (account_id self) ticket]) (clock self) in
  match cancel_order broker (calls self) ticket with
  | CancelResult true => (true, self')
  | CancelResult false => (false, self')
  | CancelRaises => (false, self')
  end.

Fixpoint close_all (broker : Broker.t) (tickets : list string) (self : t) : t :=
  match tickets with
  | [] => self
  | ticket :: rest => close_all broker rest (snd (close_position broker ticket self))
  end.

(** [(datetime.now() - open_time).seconds]: the seconds field of the
    timedelta, whole seconds within the current day of the difference. *)
Definition timedelta_seconds (now open_time : Q) : Z :=
  (Qfloor (now - open_time) mod 86400)%Z.

Fixpoint monitor_loop (broker : Broker.t) (actives : list Active) (self : t)
  : list (Active * bool) * t :=
  match actives with
  | [] => ([], self)
  | active :: rest =>
      if Z.ltb 3600 (timedelta_seconds (clock self) (a_open_time active)) then
        let '(marks, self') := monitor_loop broker rest (close_all broker (a_tickets active) self) in
        ((active, true) :: marks, self')
      else
        let '(marks, self') := monitor_loop broker rest self in
        ((active, false) :: marks, self')
  end.

Definition monitor_active_positions (broker : Broker.t) (self : t) : t :=
  let '(marks, self') := monitor_loop broker (active_triangles self) self in
  mk (account_id self') (List.map fst (List.filter (fun m => negb (snd m)) marks))
     (calls self') (clock self').

(** The currencies [load_currency_pairs] reads off an asset symbol: [None]
    where the loop moves on without creating a pair. *)
Definition pair_of_symbol (symbol : string) : option (string * string) :=
  if Py.endswith symbol "@CETS" && Py.contains symbol "TOD" then
    if Py.startswith symbol "USD" then Some ("USD", "RUB")
    else if Py.startswith symbol "EUR" then
      (if Py.contains symbol "RUB" then Some ("EUR", "RUB") else None)
    else if Py.startswith symbol "CNY" then Some ("CNY", "RUB")
    else if Py.startswith symbol "GBP" then Some ("GBP", "RUB")
    else if Py.startswith symbol "CHF" then Some ("CHF", "RUB")
    else if Py.startswith symbol "JPY" then Some ("JPY", "RUB")
    else if Py.startswith symbol "HKD" then Some ("HKD", "RUB")
    else if Py.startswith symbol "BYN" then Some ("BYN", "RUB")
    else if Py.startswith symbol "KZT" then Some ("KZT", "RUB")
    else if Py.startswith symbol "TRY" then Some ("TRY", "RUB")
    else if Py.startswith symbol "AUD" then Some ("AUD", "RUB")
    else if Py.startswith symbol "CAD" then Some ("CAD", "RUB")
    else None
  else None.

(** [d[key] = value] on a dict kept in insertion order. *)
Fixpoint dict_set {V : Type} (d : list (string * V)) (key : string) (value : V)
  : list (string * V) :=
  match d with
  | [] => [(key, value)]
  | (k, v) :: rest =>
      if String.eqb k key then (k, value) :: rest else (k, v) :: dict_set rest key value
  end.

(** [load_currency_pairs()]: [self.currency_pairs] and [self.currencies]
    after the call, both empty before it.  [assets] lists the symbols of
    the reply, [None] for an empty reply or a failed request. *)
Definition load_currency_pairs (assets : option (list string))
  : list (string * CurrencyPair.t) * gset string :=
  match assets with
  | None => ([], ∅)
  | Some symbols =>
      fold_left (fun acc symbol =>
                   match pair_of_symbol symbol with
                   | None => acc
                   | Some (base, quote) =>
                       (dict_set (fst acc) symbol (CurrencyPair.mk base quote symbol 0 0 0),
                        {[base]} ∪ ({[quote]} ∪ snd acc))
                   end)
                symbols ([], ∅)
  end.

(** [find_pair(base, quote)] over [self.currency_pairs]. *)
Definition find_pair (currency_pairs : list (string * CurrencyPair.t))
    (base quote : string) : option CurrencyPair.t :=
  List.find (fun pair => String.eqb (CurrencyPair.base_currency pair) base
                         && String.eqb (CurrencyPair.quote_currency pair) quote)
            (List.map snd currency_pairs).

(** The triangles one turn of the loop of [build_all_triangles] appends. *)
Definition build_triangles (currency_pairs : list (string * CurrencyPair.t))
    (c1 c2 c3 : string) : list Triangle.t :=
  (match find_pair currency_pairs c1 c2, find_pair currency_pairs c2 c3,
         find_pair currency_pairs c1 c3 with
   | Some pair1, Some pair2, Some pair3 =>
       [mul_forward pair1 pair2 pair3; mul_reverse pair1 pair2 pair3]
   | _, _, _ => []
   end
   ++ match find_pair currency_pairs c1 c2, find_pair currency_pairs c1 c3,
            find_pair currency_pairs c3 c2 with
      | Some pair1, Some pair2, Some pair3 =>
          [div_forward pair1 pair2 pair3; div_reverse pair1 pair2 pair3]
      | _, _, _ => []
      end)%list.

(** [build_all_triangles()]: [self.triangles] after the call, empty before
    it.  [currencies_list] is [list(self.currencies)], the set in the order
    Python happens to yield it. *)
Definition build_all_triangles (currency_pairs : list (string * CurrencyPair.t))
    (currencies_list : list string) : list Triangle.t :=
  List.concat (List.map (fun c => let '(c1, c2, c3) := c in
                                  build_triangles currency_pairs c1 c2 c3)
                        (Py.combinations3 currencies_list)).

End ArbitrageFinder.

(** ** The specification's per-instrument formulas *)

Module Spec.

(** Specification, section 4.3 step 2: a leg's spread in points is
    [(ask - bid) / pointSize], with that leg's own [pointSize]. *)
Definition spread_points (pointSize bid ask : Q) : Q := (ask - bid) / pointSize.

(** Specification, section 4.3 step 4:
    [deviationPoints = (market - synthetic) / pointSize_of_leg2]. *)
Definition deviation_points (pointSize_of_leg2 market synthetic : Q) : Q :=
  (market - synthetic) / pointSize_of_leg2.

(** Specification, section 4.3 step 5: accept iff
    [|deviationPoints| >= MinDeviationPoints]. *)
Definition accepts (MinDeviationPoints deviationPoints : Q) : Prop :=
  MinDeviationPoints <= Qabs deviationPoints.

(** Specification, section 3: the Quote of a symbol is the most recently
    received one.  [latest symbol updates] is the newest entry of [updates]
    (oldest first) for [symbol]. *)
Definition latest (symbol : string) (updates : list (ArbMonitor.Quote * Q))
  : option (ArbMonitor.Quote * Q) :=
  List.find (fun u => String.eqb (ArbMonitor.q_symbol (fst u)) symbol) (rev updates).

(** Specification, section 4.3: rank by [|deviationPoints|] descending, ties
    by template id ascending.  [ranks_before key id a b]: [a] must come
    before [b]. *)
Definition ranks_before {A : Type} (key : A -> Q) (id : A -> nat) (a b : A) : Prop :=
  key b < key a \/ (key a == key b /\ (id a < id b)%nat).

(** Everything the core scanner has checked about an opportunity [o] it
    returns: the template is configured and has no active instance, the
    ticks are those of the tick source, valid and within the spread limit,
    and the deviation is the qualifying one of the two signed deviations. *)
Definition sound (triangles_state : list ArbTriangle.t)
    (get_ticks_func : nat -> option (list ArbTick.t)) (config : ArbConfig.t)
    (o : ArbOpportunity.t) : Prop :=
  let tri := ArbOpportunity.triangle_type o in
  (tri < List.length ArbConfig.ARB_TRIANGLE_PAIRS)%nat
  /\ existsb (fun t => ArbTriangle.active t
                       && Z.eqb (ArbTriangle.triangle_type t) (Z.of_nat tri))
             triangles_state = false
  /\ get_ticks_func tri = Some (ArbOpportunity.ticks o)
  /\ forallb ArbTick.is_valid (ArbOpportunity.ticks o) = true
  /\ ArbCalculator.check_spreads (ArbOpportunity.ticks o) (ArbConfig.MaxSpread config) = true
  /\ ArbConfig.MinDeviation config < ArbOpportunity.deviation o
  /\ exists dev_buy dev_sell,
      ArbCalculator.calc_deviations tri (ArbOpportunity.ticks o)
      = Py.Ok (dev_buy, dev_sell, ArbOpportunity.signal_type o)
      /\ ((ArbOpportunity.direction o = 1%Z /\ ArbOpportunity.deviation o = dev_buy)
          \/ (ArbOpportunity.direction o = (-1)%Z /\ ArbOpportunity.deviation o = dev_sell
              /\ dev_buy <= ArbConfig.MinDeviation config)).

End Spec.

(** ** Concrete data used in examples *)

Module Samples.

(** USD/RUB 79.50/79.52, EUR/USD 1.0695/1.0705, EUR/RUB 85.10/85.14. *)
Definition usd_rub : ArbTick.t := ArbTick.mk "USD" 79.50 79.52 79.51 0 None.
Definition eur_usd : ArbTick.t := ArbTick.mk "EUR" 1.0695 1.0705 1.07 0 None.
Definition eur_rub : ArbTick.t := ArbTick.mk "EUR" 85.10 85.14 85.12 0 None.
Definition snapshot : list ArbTick.t := [usd_rub; eur_usd; eur_rub].

(** The same quotes as pairs of the trader. *)
Definition p_usd_rub : ArbitrageTrader.CurrencyPair.t :=
  ArbitrageTrader.CurrencyPair.mk "USD" "RUB" "USD000000TOD@CETS" "USD" 79.50 79.52 79.51.
Definition p_eur_usd : ArbitrageTrader.CurrencyPair.t :=
  ArbitrageTrader.CurrencyPair.mk "EUR" "USD" "EURUSD000TOD@CETS" "EURUSD" 1.0695 1.0705 1.07.
Definition p_eur_rub : ArbitrageTrader.CurrencyPair.t :=
  ArbitrageTrader.CurrencyPair.mk "EUR" "RUB" "EUR_RUB__TOD@CETS" "EUR" 85.10 85.14 85.12.

(** The virtual pair [_find_pair('RUB', 'USD')] creates. *)
Definition p_rub_usd : ArbitrageTrader.CurrencyPair.t :=
  ArbitrageTrader.CurrencyPair.mk "RUB" "USD" "VIRTUAL_RUBUSD" "RUB/USD" 0 0 0.

Definition mul_forward : ArbitrageTrader.Triangle.t :=
  ArbitrageTrader.Triangle.new [p_usd_rub; p_eur_usd; p_eur_rub] ["BUY"; "BUY"; "SELL"] "MUL".

(** A bot with the defaults of [main()]: 2.0, 3.0, 0.1, 2, 5.0, 3.0. *)
Definition trader (triangles : list ArbitrageTrader.Triangle.t)
    (actives : list ArbitrageTrader.ActiveTriangle.t) (now : Q) : ArbitrageTrader.t :=
  ArbitrageTrader.mk 2.0 3.0 0.1 2 5.0 3.0 "ACC"
    [ ("USD000000TOD@CETS", p_usd_rub); ("EUR_RUB__TOD@CETS", p_eur_rub) ]
    triangles actives [] now.

(** The scanner's tick source: the snapshot for triangle 0, nothing else. *)
Definition get_ticks (tri : nat) : option (list ArbTick.t) :=
  match tri with O => Some snapshot | _ => None end.

(** Default configuration with a spread limit wide enough for the snapshot. *)
Definition wide_config : ArbConfig.t :=
  ArbConfig.mk 0.1 500 2.0 5.0 10.0 (-20.0) 3 true 0.6 true 4.0 false 3.0.

(** A yen quote, for an instrument whose price step would be 0.01. *)
Definition jpy_rub : ArbTick.t := ArbTick.mk "JPY000000TOD@CETS" 52.10 52.11 52.10 0 None.
Definition jpy_pointSize : Q := 0.01.

(** Legs whose synthetic rate is 2 * 26.05 = 52.10, against [jpy_rub]. *)
Definition leg_two : ArbTick.t := ArbTick.mk "USD" 2 2 2 0 None.
Definition leg_2605 : ArbTick.t := ArbTick.mk "JPY" 26.05 26.05 26.05 0 None.
Definition jpy_rub_up : ArbTick.t := ArbTick.mk "JPY" 52.12 52.13 52.12 0 None.

(** Quotes without a bid, and with crossed prices. *)
Definition no_bid : ArbTick.t := ArbTick.mk "USD" 0 79.52 79.51 0 None.
Definition crossed : ArbTick.t := ArbTick.mk "USD" 79.52 79.50 79.51 0 None.

(** An opportunity on triangle 0 and a fresh live executor. *)
Definition opportunity : ArbOpportunity.t :=
  ArbOpportunity.mk 0 1 5 snapshot "MUL" "USD×EUR = EUR BUY".
Definition executor : ArbExecutor.t := ArbExecutor.init "ACC" ArbConfig.default 0.

(** A broker that accepts the first two orders of a session and rejects
    the third, and acknowledges every cancellation. *)
Definition third_fails : Broker.t :=
  Broker.mk
    (fun calls _ => match calls with
                    | [] => Broker.PlaceState "ID0"
                    | [_] => Broker.PlaceState "ID1"
                    | _ => Broker.PlaceNone
                    end)
    (fun _ _ => Broker.CancelResult true)
    (fun _ _ => Broker.GetNone).

(** A broker like [third_fails] whose order ids begin with PAPER_. *)
Definition paper_ids : Broker.t :=
  Broker.mk
    (fun calls _ => match calls with
                    | [] => Broker.PlaceState "PAPER_A"
                    | [_] => Broker.PlaceState "PAPER_B"
                    | _ => Broker.PlaceNone
                    end)
    (fun _ _ => Broker.CancelResult true)
    (fun _ _ => Broker.GetNone).

(** A broker that accepts every order under the id [T<n>], [n] the number
    of requests seen before, acknowledges cancellations and reports every
    order as a live buy order. *)
Definition accept_all : Broker.t :=
  Broker.mk
    (fun calls _ => Broker.PlaceState ("T" ++ pretty (List.length calls)))
    (fun _ _ => Broker.CancelResult true)
    (fun _ _ => Broker.GetState Broker.SIDE_BUY).

(** A triangle whose middle leg is the virtual pair RUB/USD. *)
Definition with_virtual_buy : ArbitrageTrader.Triangle.t :=
  ArbitrageTrader.Triangle.new [p_usd_rub; p_rub_usd; p_eur_rub] ["BUY"; "BUY"; "SELL"] "MUL".
Definition with_virtual_sell : ArbitrageTrader.Triangle.t :=
  ArbitrageTrader.Triangle.new [p_usd_rub; p_rub_usd; p_eur_rub] ["SELL"; "SELL"; "BUY"] "MUL".

(** The active triangles left by [execute_triangle] on a fresh bot. *)
Definition executed (triangle : ArbitrageTrader.Triangle.t)
  : list ArbitrageTrader.ActiveTriangle.t :=
  ArbitrageTrader.active_triangles
    (snd (ArbitrageTrader.execute_triangle accept_all triangle (trader [] [] 0))).

(** An open triangle entered at the current last prices at time [t0]. *)
Definition active_at (t0 : Q) : ArbitrageTrader.ActiveTriangle.t :=
  ArbitrageTrader.ActiveTriangle.mk mul_forward ["T0"; "T1"; "T2"]
    [79.51; 1.07; 85.12] [0.1; 0.1; 0.1] t0 0.

(** The snapshot as pairs of the finder, and a zero-spread variant. *)
Definition f_usd_rub : ArbitrageFinder.CurrencyPair.t :=
  ArbitrageFinder.CurrencyPair.mk "USD" "RUB" "USD000000TOD@CETS" 79.50 79.52 79.51.
Definition f_eur_usd : ArbitrageFinder.CurrencyPair.t :=
  ArbitrageFinder.CurrencyPair.mk "EUR" "USD" "EURUSD000TOD@CETS" 1.0695 1.0705 1.07.
Definition f_eur_rub : ArbitrageFinder.CurrencyPair.t :=
  ArbitrageFinder.CurrencyPair.mk "EUR" "RUB" "EUR_RUB__TOD@CETS" 85.10 85.14 85.12.
Definition f_two : ArbitrageFinder.CurrencyPair.t :=
  ArbitrageFinder.CurrencyPair.mk "AAA" "BBB" "AAABBB" 2 2 2.
Definition f_three : ArbitrageFinder.CurrencyPair.t :=
  ArbitrageFinder.CurrencyPair.mk "BBB" "CCC" "BBBCCC" 3 3 3.
Definition f_seven : ArbitrageFinder.CurrencyPair.t :=
  ArbitrageFinder.CurrencyPair.mk "AAA" "CCC" "AAACCC" 7 7 7.

(** Zero-spread ticks. *)
Definition tick_two : ArbTick.t := ArbTick.mk "USD" 2 2 2 0 None.
Definition tick_three : ArbTick.t := ArbTick.mk "EUR" 3 3 3 0 None.
Definition tick_seven : ArbTick.t := ArbTick.mk "EUR" 7 7 7 0 None.

(** A finder holding one triangle opened at time 0, five hours later. *)
Definition finder_after_5h : ArbitrageFinder.t :=
  ArbitrageFinder.mk "ACC"
    [ArbitrageFinder.mkActive (ArbitrageFinder.mul_forward f_usd_rub f_eur_usd f_eur_rub)
       ["T0"; "T1"; "T2"] 0 0]
    [] 18000.

Definition tick_eight : ArbTick.t := ArbTick.mk "JPY" 8 8 8 0 None.
Definition tick_0_0002 : ArbTick.t := ArbTick.mk "USD" 0.0002 0.0002 0.0002 0 None.
Definition tick_one : ArbTick.t := ArbTick.mk "EUR" 1 1 1 0 None.
Definition tick_0_0004 : ArbTick.t := ArbTick.mk "EUR" 0.0004 0.0004 0.0004 0 None.

(** Ticks giving triangles 0 and 1 the same deviation, 10000 points, and
    triangle 2 a larger one, 20000 points. *)
Definition tie_ticks (tri : nat) : option (list ArbTick.t) :=
  match tri with
  | 0%nat | 1%nat => Some [tick_two; tick_three; tick_seven]
  | 2%nat => Some [tick_two; tick_three; tick_eight]
  | _ => None
  end.

(** Ticks giving triangle 0 a forward deviation of exactly 2 points, and a
    reverse deviation of -2: [(0.0004 - 0.0002 * 1) / 0.0001]. *)
Definition boundary_ticks (tri : nat) : option (list ArbTick.t) :=
  match tri with
  | O => Some [tick_0_0002; tick_one; tick_0_0004]
  | _ => None
  end.

(** Zero-spread pairs of the trader and a triangle over them: synthetic
    rate 6, market rate 7. *)
Definition p_two : ArbitrageTrader.CurrencyPair.t :=
  ArbitrageTrader.CurrencyPair.mk "AAA" "BBB" "AAABBB" "AAA/BBB" 2 2 2.
Definition p_three : ArbitrageTrader.CurrencyPair.t :=
  ArbitrageTrader.CurrencyPair.mk "BBB" "CCC" "BBBCCC" "BBB/CCC" 3 3 3.
Definition p_seven : ArbitrageTrader.CurrencyPair.t :=
  ArbitrageTrader.CurrencyPair.mk "AAA" "CCC" "AAACCC" "AAA/CCC" 7 7 7.
Definition six_seven : ArbitrageTrader.Triangle.t :=
  ArbitrageTrader.Triangle.new [p_two; p_three; p_seven] ["BUY"; "BUY"; "SELL"] "MUL".
Definition six_seven_rev : ArbitrageTrader.Triangle.t :=
  ArbitrageTrader.Triangle.new [p_two; p_three; p_seven] ["SELL"; "SELL"; "BUY"] "MUL".

(** An executor in paper mode, and one whose single slot is taken. *)
Definition paper_config : ArbConfig.t :=
  ArbConfig.mk 0.1 2.0 2.0 5.0 10.0 (-20.0) 3 true 0.6 true 4.0 true 3.0.
Definition paper_executor : ArbExecutor.t := ArbExecutor.init "ACC" paper_config 0.
Definition taken_slot : ArbTriangle.t :=
  ArbTriangle.mk 0 1 ["ID0"; ""; "PAPER_0_2_0"] [79.52; 1.0705; 85.10] [0.1; 0.1; 0.1]
    5 0 (Some 0) true false (-1) 0 [].
Definition full_executor : ArbExecutor.t :=
  ArbExecutor.mk "ACC" ArbConfig.default [taken_slot] [] 0.

(** A table of two slots, the last one taken. *)
Definition two_slots : ArbExecutor.t :=
  ArbExecutor.mk "ACC" ArbConfig.default [ArbTriangle.default; taken_slot] [] 0.

(** Two quote messages: USD and EUR, then USD again. *)
Definition quote_batches : list (list (ArbMonitor.Quote * Q)) :=
  [ [ (ArbMonitor.mkQuote "USD000000TOD@CETS" (Some 79.50) (Some 79.52) (Some 79.51) None, 1);
      (ArbMonitor.mkQuote "EUR_RUB__TOD@CETS" (Some 85.10) (Some 85.14) (Some 85.12) None, 1) ];
    [ (ArbMonitor.mkQuote "USD000000TOD@CETS" (Some 79.60) (Some 79.62) (Some 79.61) None, 2) ] ].
Definition fed_monitor : ArbMonitor.t :=
  fold_left ArbMonitor._handler quote_batches ArbMonitor.init.

(** Tight quotes, for which triangle 0 shows a large reverse deviation. *)
Definition tight_batches : list (list (ArbMonitor.Quote * Q)) :=
  [ [ (ArbMonitor.mkQuote "USD000000TOD@CETS" (Some 79.5000) (Some 79.5001) (Some 79.5) None, 1);
      (ArbMonitor.mkQuote "EUR_RUB__TOD@CETS" (Some 85.1000) (Some 85.1001) (Some 85.1) None, 1) ] ].

(** A bot as its constructor leaves it before the catalog is built. *)
Definition fresh_trader : ArbitrageTrader.t :=
  ArbitrageTrader.mk 2.0 3.0 0.1 2 5.0 3.0 "ACC" ArbitrageTrader.init_currency_pairs
    [] [] [] 0.

(** The symbols of an Assets reply. *)
Definition asset_symbols : list string :=
  [ "USD000000TOD@CETS"; "SBER@MISX"; "EUR_RUB__TOD@CETS"; "EURUSD000TOD@CETS";
    "CNY000000TOD@CETS"; "USD000000TOD@CETS"; "USD000UTSTOM@CETS" ].

(** A broker that accepts the first order of a session and rejects the
    second. *)
Definition second_fails : Broker.t :=
  Broker.mk
    (fun calls _ => match calls with
                    | [] => Broker.PlaceState "ID0"
                    | _ => Broker.PlaceNone
                    end)
    (fun _ _ => Broker.CancelResult false)
    (fun _ _ => Broker.GetNone).

(** A broker whose GetOrder requests all fail. *)
Definition unreachable : Broker.t :=
  Broker.mk (fun _ _ => Broker.PlaceRaises) (fun _ _ => Broker.CancelRaises)
            (fun _ _ => Broker.GetRaises).

(** A finder holding one triangle opened at time 0, twenty-four and a half
    hours later. *)
Definition finder_after_a_day : ArbitrageFinder.t :=
  ArbitrageFinder.mk "ACC"
    [ArbitrageFinder.mkActive (ArbitrageFinder.mul_forward f_usd_rub f_eur_usd f_eur_rub)
       ["T0"; "T1"; "T2"] 0 0]
    [] 88200.

(** A DIV opportunity on the snapshot, and the slot that stores it. *)
Definition div_opportunity : ArbOpportunity.t :=
  ArbOpportunity.mk 1 1 6 snapshot "DIV" "".
Definition div_slot : ArbTriangle.t :=
  ArbTriangle.mk 1 1 ["T0"; "T1"; "T2"] [0; 0; 0] [0; 0; 0] 6 0 None true false (-1) 0 [].

(** The binary64 computation of [dev_buy] on the snapshot. *)
#[warnings="-inexact-float"]
Definition dev_buy_binary64 : float := ((85.10 - 79.52 * 1.0705) / 0.0001)%float.

(** It lies within 1e-7 of -261.6. *)
#[warnings="-inexact-float"]
Definition dev_buy_binary64_close : bool :=
  PrimFloat.ltb (-261.6000001)%float dev_buy_binary64
  && PrimFloat.ltb dev_buy_binary64 (-261.5999999)%float.

(** The binary64 computation of both deviations on [boundary_ticks]: the
    doubles nearest to 0.0004 and 0.0002 are twice those nearest to 0.0002
    and 0.0001, so the results are 2 and -2 without rounding. *)
#[warnings="-inexact-float"]
Definition boundary_dev_buy_binary64 : float := ((0.0004 - 0.0002 * 1) / 0.0001)%float.
#[warnings="-inexact-float"]
Definition boundary_dev_sell_binary64 : float := ((0.0002 * 1 - 0.0004) / 0.0001)%float.
Definition boundary_binary64_exact : bool :=
  PrimFloat.eqb boundary_dev_buy_binary64 2%float
  && PrimFloat.eqb boundary_dev_sell_binary64 (-2)%float
  && negb (PrimFloat.ltb 2%float boundary_dev_buy_binary64).

End Samples.

(** * Properties *)

(** ** Comparisons *)

Lemma gt_true (x y : Q) : Py.gt x y = true <-> y < x.
Proof.
  unfold Py.gt. rewrite negb_true_iff, <- not_true_iff_false, Qle_bool_iff.
  split; [apply Qnot_le_lt | apply Qlt_not_le].
Qed.

Lemma gt_false (x y : Q) : Py.gt x y = false <-> x <= y.
Proof. unfold Py.gt. rewrite negb_false_iff. apply Qle_bool_iff. Qed.

Lemma ge_true (x y : Q) : Py.ge x y = true <-> y <= x.
Proof. apply Qle_bool_iff. Qed.

Lemma ge_false (x y : Q) : Py.ge x y = false <-> x < y.
Proof.
  unfold Py.ge. rewrite <- not_true_iff_false, Qle_bool_iff.
  split; [apply Qnot_le_lt | apply Qlt_not_le].
Qed.

Lemma le_true (x y : Q) : Py.le x y = true <-> x <= y.
Proof. apply Qle_bool_iff. Qed.

Lemma le_false (x y : Q) : Py.le x y = false <-> y < x.
Proof.
  unfold Py.le. rewrite <- not_true_iff_false, Qle_bool_iff.
  split; [apply Qnot_le_lt | apply Qlt_not_le].
Qed.

Lemma point_pos : 0 < ArbCalculator.POINT.
Proof. reflexivity. Qed.

(** ** The worked example of the specification *)

(** C1 (as amended).  On the snapshot USD/RUB 79.50/79.52, EUR/USD
    1.0695/1.0705, EUR/RUB 85.10/85.14 the multiplication formula gives
    synthetic = 79.52 * 1.0705 = 85.12616, market = 85.10 and a forward
    deviation of (85.10 - 85.12616) / 0.0001 = -261.6 points, both in
    [calc_deviations] and in [ArbitrageTrader.calculate_triangle]; the
    binary64 computation agrees to within 1e-7.  In the trader the triangle
    is stopped by the spread test while the deviation test
    [abs(dev) >= min_deviation_points] lets it through; the core scanner's
    spread test stops it as well, and its signed tests [dev > MinDeviation]
    would not select it either. *)
Theorem C1_snapshot_deviation :
  (exists dev_buy dev_sell,
      ArbCalculator.calc_deviations 0 Samples.snapshot = Py.Ok (dev_buy, dev_sell, "MUL")
      /\ dev_buy == -261.6 /\ dev_sell == -1147.5
      /\ Py.gt dev_buy (ArbConfig.MinDeviation ArbConfig.default) = false
      /\ Py.gt dev_sell (ArbConfig.MinDeviation ArbConfig.default) = false)
  /\ (exists synthetic market dev_points dev_percent,
         ArbitrageTrader.calculate_triangle (Samples.trader [] [] 0) Samples.mul_forward
         = Py.Ok (synthetic, market, dev_points, dev_percent)
         /\ synthetic == 85.12616 /\ market == 85.10 /\ dev_points == -261.6
         /\ Py.ge (Qabs dev_points)
              (ArbitrageTrader.min_deviation_points (Samples.trader [] [] 0)) = true)
  /\ ArbCalculator.check_spreads Samples.snapshot (ArbConfig.MaxSpread ArbConfig.default) = false
  /\ forallb (ArbitrageTrader.spread_ok (Samples.trader [] [] 0))
       (ArbitrageTrader.Triangle.pairs Samples.mul_forward) = false
  /\ Samples.dev_buy_binary64_close = true.
Proof.
  split; [| split; [| split; [| split]]].
  - eexists _, _. split; [reflexivity |]. repeat split; reflexivity.
  - eexists _, _, _, _. split; [reflexivity |]. repeat split; reflexivity.
  - reflexivity.
  - reflexivity.
  - vm_compute. reflexivity.
Qed.

(** C1, as stated, fails: the deviation is not within one point of -566,
    nor the synthetic rate within 0.001 of 85.1566. *)
Lemma C1_not_minus_566 :
  ~ (exists dev_buy dev_sell sig,
        ArbCalculator.calc_deviations 0 Samples.snapshot = Py.Ok (dev_buy, dev_sell, sig)
        /\ Qabs (dev_buy - (-566)) <= 1)
  /\ ~ (exists synthetic market dev_points dev_percent,
           ArbitrageTrader.calculate_triangle (Samples.trader [] [] 0) Samples.mul_forward
           = Py.Ok (synthetic, market, dev_points, dev_percent)
           /\ Qabs (synthetic - 85.1566) <= 0.001 /\ Qabs (dev_points - (-566)) <= 1).
Proof.
  split.
  - intros (dev_buy & dev_sell & sig & H & Hd).
    vm_compute in H. injection H as <- _ _. vm_compute in Hd. apply Hd. reflexivity.
  - intros (s & m & dp & pc & H & Hs & Hd).
    vm_compute in H. injection H as <- _ _ _. vm_compute in Hs. apply Hs. reflexivity.
Qed.

(** ** Point size *)

(** C2 (as amended).  Spread and deviation are divided by the one constant
    0.0001 ([POINT]) whatever the instrument: for every tick and every pair
    with positive prices the spread in points is the specification's formula
    at point size 0.0001, and so are the deviations of [calc_deviations], in
    its multiplication and in its division branch (where a deviation is 0
    when the price it divides by is not positive), and of
    [ArbitrageTrader.calculate_triangle]; no symbol enters. *)
Theorem C2_global_point_size :
  forall (t : ArbTick.t) (self : ArbitrageTrader.t) (pair : ArbitrageTrader.CurrencyPair.t),
    0 < ArbTick.bid t -> 0 < ArbTick.ask t ->
    0 < ArbitrageTrader.CurrencyPair.bid pair -> 0 < ArbitrageTrader.CurrencyPair.ask pair ->
    ArbTick.spread_points t
    = Spec.spread_points ArbCalculator.POINT (ArbTick.bid t) (ArbTick.ask t)
    /\ ArbitrageTrader.check_spread self pair
       = Py.le (Spec.spread_points ArbCalculator.POINT
                  (ArbitrageTrader.CurrencyPair.bid pair)
                  (ArbitrageTrader.CurrencyPair.ask pair))
               (ArbitrageTrader.max_spread_points self)
    /\ (forall tri t0 t1 dev_buy dev_sell sig,
           ArbCalculator.calc_deviations tri [t0; t1; t] = Py.Ok (dev_buy, dev_sell, sig) ->
           (sig = "MUL"
            /\ dev_buy = Spec.deviation_points ArbCalculator.POINT (ArbTick.bid t)
                          (ArbTick.ask t0 * ArbTick.ask t1)
            /\ dev_sell = Spec.deviation_points ArbCalculator.POINT
                            (ArbTick.bid t0 * ArbTick.bid t1) (ArbTick.ask t))
           \/ (sig = "DIV"
               /\ dev_buy = (if Py.gt (ArbTick.ask t0) 0
                             then Spec.deviation_points ArbCalculator.POINT
                                    (ArbTick.bid t / ArbTick.ask t0) (ArbTick.ask t1)
                             else 0)
               /\ dev_sell = (if Py.gt (ArbTick.bid t0) 0
                              then Spec.deviation_points ArbCalculator.POINT
                                     (ArbTick.bid t1) (ArbTick.ask t / ArbTick.bid t0)
                              else 0)))
    /\ (forall triangle synthetic market dev_points dev_percent,
           ArbitrageTrader.calculate_triangle self triangle
           = Py.Ok (synthetic, market, dev_points, dev_percent) ->
           dev_points = 0
           \/ dev_points = Spec.deviation_points ArbCalculator.POINT market synthetic).
Proof.
  intros t self pair Hb Ha Hpb Hpa.
  split; [| split; [| split]].
  - unfold ArbTick.spread_points.
    apply gt_true in Hb, Ha. rewrite Hb, Ha. reflexivity.
  - unfold ArbitrageTrader.check_spread.
    assert (Py.le (ArbitrageTrader.CurrencyPair.ask pair) 0 = false) as -> by now apply le_false.
    assert (Py.le (ArbitrageTrader.CurrencyPair.bid pair) 0 = false) as -> by now apply le_false.
    reflexivity.
  - intros tri t0 t1 dev_buy dev_sell sig H.
    unfold ArbCalculator.calc_deviations in H.
    destruct (nth_error ArbConfig.ARB_TRIANGLE_FORMULAS tri) as [f |]; [| discriminate].
    destruct (Z.eqb f 0); injection H as <- <- <-.
    + left. repeat split.
    + right. split; [reflexivity |].
      split; [destruct (Py.gt (ArbTick.ask t0) 0) | destruct (Py.gt (ArbTick.bid t0) 0)];
        reflexivity.
  - intros triangle synthetic market dev_points dev_percent H.
    unfold ArbitrageTrader.calculate_triangle in H.
    destruct (ArbitrageTrader.Triangle.pairs triangle) as [| p1 [| p2 [| p3 [|]]]];
      try discriminate.
    destruct (ArbitrageTrader.Triangle.operations triangle) as [| o0 [| o1 [| o2 ?]]];
      try discriminate.
    destruct (_ || _ || _).
    + injection H as _ _ <- _. now left.
    + destruct (_ && _); injection H as <- <- <- _; [now right | now left].
Qed.

Lemma C2_global_point_size_witness :
  ArbTick.spread_points Samples.usd_rub
  = Spec.spread_points ArbCalculator.POINT 79.50 79.52.
Proof.
  apply (C2_global_point_size Samples.usd_rub (Samples.trader [] [] 0) Samples.p_usd_rub);
    reflexivity.
Defined.

(** C2, as stated, fails: for a yen quote 52.10/52.11 with a price step of
    0.01 the specification's spread is 1 point and passes a limit of 2,
    while the code computes 100 points and rejects the quote; likewise the
    deviation against that leg is 200 points in the code and 2 with the
    leg's own point size. *)
Lemma C2_not_per_instrument :
  ~ ArbTick.spread_points Samples.jpy_rub
    == Spec.spread_points Samples.jpy_pointSize
         (ArbTick.bid Samples.jpy_rub) (ArbTick.ask Samples.jpy_rub)
  /\ Spec.spread_points Samples.jpy_pointSize
       (ArbTick.bid Samples.jpy_rub) (ArbTick.ask Samples.jpy_rub) <= 2
  /\ ArbCalculator.check_spreads [Samples.jpy_rub] 2 = false
  /\ ~ (exists dev_buy dev_sell sig,
          ArbCalculator.calc_deviations 0
            [Samples.leg_two; Samples.leg_2605; Samples.jpy_rub_up]
          = Py.Ok (dev_buy, dev_sell, sig)
          /\ dev_buy == Spec.deviation_points Samples.jpy_pointSize
                          (ArbTick.bid Samples.jpy_rub_up)
                          (ArbTick.ask Samples.leg_two * ArbTick.ask Samples.leg_2605)).
Proof.
  split; [| split; [| split]].
  - intros H. vm_compute in H. discriminate.
  - vm_compute. discriminate.
  - reflexivity.
  - intros (dev_buy & dev_sell & sig & H & Hd).
    vm_compute in H. injection H as <- _ _. vm_compute in Hd. discriminate.
Qed.

(** ** Spread of invalid quotes *)

Lemma spread_points_nonpositive (t : ArbTick.t) :
  ArbTick.bid t <= 0 \/ ArbTick.ask t <= 0 -> ArbTick.spread_points t = 0.
Proof.
  intros H. unfold ArbTick.spread_points.
  destruct H as [H | H]; apply gt_false in H; rewrite H;
    [now rewrite andb_false_r | reflexivity].
Qed.

Lemma spread_points_crossed (t : ArbTick.t) :
  0 < ArbTick.ask t -> ArbTick.ask t < ArbTick.bid t -> ArbTick.spread_points t < 0.
Proof.
  intros Ha Hc. unfold ArbTick.spread_points.
  assert (Hb : 0 < ArbTick.bid t) by (eapply Qlt_trans; eassumption).
  apply gt_true in Ha as Ha', Hb as Hb'. rewrite Ha', Hb'. simpl.
  unfold Qdiv. change (/ 0.0001) with (10000 # 1). lra.
Qed.

Lemma is_valid_nonpositive (t : ArbTick.t) :
  ArbTick.bid t <= 0 \/ ArbTick.ask t <= 0 -> ArbTick.is_valid t = false.
Proof.
  intros H. unfold ArbTick.is_valid.
  destruct H as [H | H]; apply gt_false in H; rewrite H;
    [reflexivity | now rewrite andb_false_r].
Qed.

(** C10.  A tick with a non-positive bid or ask has [spread_points] 0 (and
    is not [is_valid]); a crossed tick, bid > ask > 0, has a negative
    [spread_points]; so [check_spreads] accepts any list of such ticks for
    every non-negative limit, and in the scanner it is the [is_valid] test
    that drops a triangle with a non-positive price. *)
Theorem C10_spread_check_accepts_invalid :
  forall (t : ArbTick.t) (ticks : list ArbTick.t) (max_spread : Q),
    (ArbTick.bid t <= 0 \/ ArbTick.ask t <= 0 ->
       ArbTick.spread_points t = 0 /\ ArbTick.is_valid t = false)
    /\ (0 < ArbTick.ask t -> ArbTick.ask t < ArbTick.bid t -> ArbTick.spread_points t < 0)
    /\ (0 <= max_spread ->
          Forall (fun u => ArbTick.bid u <= 0 \/ ArbTick.ask u <= 0
                           \/ (0 < ArbTick.ask u /\ ArbTick.ask u < ArbTick.bid u)) ticks ->
          ArbCalculator.check_spreads ticks max_spread = true)
    /\ (forall triangles_state get_ticks_func config tri,
          get_ticks_func tri = Some ticks ->
          Exists (fun u => ArbTick.bid u <= 0 \/ ArbTick.ask u <= 0) ticks ->
          ArbCalculator.scan_triangle triangles_state get_ticks_func config tri = Py.Ok None).
Proof.
  intros t ticks max_spread. split; [| split; [| split]].
  - intros H. split; [now apply spread_points_nonpositive | now apply is_valid_nonpositive].
  - apply spread_points_crossed.
  - intros Hmax Hall. unfold ArbCalculator.check_spreads.
    apply forallb_forall. intros u Hu.
    rewrite List.Forall_forall in Hall. specialize (Hall u Hu).
    apply le_true.
    destruct Hall as [H | [H | [H1 H2]]].
    + rewrite spread_points_nonpositive by now left. exact Hmax.
    + rewrite spread_points_nonpositive by now right. exact Hmax.
    + apply Qle_trans with 0; [| exact Hmax].
      apply Qlt_le_weak. now apply spread_points_crossed.
  - intros st get cfg tri Hget Hex.
    unfold ArbCalculator.scan_triangle. destruct (existsb _ st); [reflexivity |].
    rewrite Hget. destruct ticks as [| u0 rest]; [reflexivity |].
    assert (Hv : forallb ArbTick.is_valid (u0 :: rest) = false).
    { apply List.Exists_exists in Hex as (u & Hin & Hu).
      apply not_true_iff_false. intros Hall.
      rewrite forallb_forall in Hall. specialize (Hall u Hin).
      rewrite is_valid_nonpositive in Hall by exact Hu. discriminate. }
    rewrite Hv. reflexivity.
Qed.

Lemma C10_spread_check_accepts_invalid_witness :
  (ArbTick.spread_points Samples.no_bid = 0 /\ ArbTick.is_valid Samples.no_bid = false)
  /\ ArbTick.spread_points Samples.crossed < 0
  /\ ArbCalculator.check_spreads [Samples.no_bid; Samples.crossed] 0 = true.
Proof.
  split; [| split].
  - apply (C10_spread_check_accepts_invalid Samples.no_bid [] 0). left. vm_compute. discriminate.
  - apply (C10_spread_check_accepts_invalid Samples.crossed [] 0); reflexivity.
  - apply (C10_spread_check_accepts_invalid Samples.no_bid [Samples.no_bid; Samples.crossed] 0).
    + vm_compute. discriminate.
    + constructor; [left; vm_compute; discriminate |].
      constructor; [right; right; split; reflexivity | constructor].
Defined.

(** ** The quote cache *)

Lemma handler_concat (batches : list (list (ArbMonitor.Quote * Q))) (self : ArbMonitor.t) :
  fold_left ArbMonitor._handler batches self
  = fold_left ArbMonitor.handle (concat batches) self.
Proof.
  revert self. induction batches as [| b bs IH]; intros self; simpl; [reflexivity |].
  rewrite IH. unfold ArbMonitor._handler. now rewrite fold_left_app.
Qed.

Lemma ticks_after_updates (updates : list (ArbMonitor.Quote * Q)) (self : ArbMonitor.t)
    (symbol : string) :
  ArbMonitor.ticks (fold_left ArbMonitor.handle updates self) !! symbol
  = match Spec.latest symbol updates with
    | Some (q, now) => Some (ArbMonitor.make_tick q now)
    | None => ArbMonitor.ticks self !! symbol
    end.
Proof.
  induction updates as [| u updates IH] using rev_ind; [reflexivity |].
  rewrite fold_left_app. simpl. unfold Spec.latest. rewrite rev_unit. simpl.
  rewrite lookup_insert. destruct u as [q now]. simpl.
  destruct (String.eqb_spec (ArbMonitor.q_symbol q) symbol) as [-> | Hne].
  - rewrite decide_True by reflexivity. reflexivity.
  - rewrite decide_False by exact Hne. exact IH.
Qed.

Lemma currency_pair_truthy (currency symbol : string) :
  ArbConfig.currency_pair currency = Some symbol -> Py.truthy symbol = true.
Proof.
  unfold ArbConfig.currency_pair, ArbConfig.ARB_CURRENCY_PAIRS. cbn [List.find fst].
  repeat (destruct (String.eqb _ currency);
          [intros H; cbv in H; injection H as <-; reflexivity |]).
  discriminate.
Qed.

(** C8.  After any sequence of quote messages, [get_tick] for a currency
    returns the tick built from the single most recent entry for its symbol,
    all five data fields and the timestamp coming from that entry, or what
    the cache held before if no entry named the symbol (absent for a fresh
    monitor, and for an unknown currency); an entry for a symbol replaces
    the stored tick whole, whatever was stored. *)
Theorem C8_last_write_wins :
  forall (self : ArbMonitor.t) (batches : list (list (ArbMonitor.Quote * Q)))
         (currency : string),
    ArbMonitor.get_tick (fold_left ArbMonitor._handler batches self) currency
    = match ArbConfig.currency_pair currency with
      | None => None
      | Some symbol =>
          match Spec.latest symbol (concat batches) with
          | Some (q, now) =>
              Some (ArbTick.mk (ArbMonitor.q_symbol q)
                      (default 0 (ArbMonitor.q_bid q)) (default 0 (ArbMonitor.q_ask q))
                      (default 0 (ArbMonitor.q_last q))
                      (default 0%Z (Py.int <$> ArbMonitor.q_volume q)) (Some now))
          | None => ArbMonitor.get_tick self currency
          end
      end
    /\ ArbMonitor.get_tick ArbMonitor.init currency = None
    /\ (forall q now,
          ArbMonitor.ticks (ArbMonitor.handle self (q, now)) !! ArbMonitor.q_symbol q
          = Some (ArbMonitor.make_tick q now)).
Proof.
  intros self batches currency. split; [| split].
  - unfold ArbMonitor.get_tick.
    destruct (ArbConfig.currency_pair currency) as [symbol |] eqn:Hc; [| reflexivity].
    rewrite (currency_pair_truthy _ _ Hc).
    rewrite handler_concat, ticks_after_updates.
    destruct (Spec.latest symbol (concat batches)) as [[q now] |]; [| reflexivity].
    unfold ArbMonitor.make_tick.
    destruct (ArbMonitor.q_bid q), (ArbMonitor.q_ask q), (ArbMonitor.q_last q),
      (ArbMonitor.q_volume q); reflexivity.
  - unfold ArbMonitor.get_tick.
    destruct (ArbConfig.currency_pair currency) as [symbol |]; [| reflexivity].
    destruct (Py.truthy symbol); reflexivity.
  - intros q now. unfold ArbMonitor.handle. simpl. apply lookup_insert_eq.
Qed.

(** ** Rollback of a partly opened triangle *)

Lemma first_free_inactive (ts : list ArbTriangle.t) (i slot : nat) :
  ArbExecutor.first_free ts i = Some slot ->
  exists tri, ts !! (slot - i)%nat = Some tri /\ ArbTriangle.active tri = false.
Proof.
  revert i. induction ts as [| t ts IH]; intros i H; simpl in H; [discriminate |].
  destruct (ArbTriangle.active t) eqn:Ha; simpl in H.
  - destruct (IH _ H) as (tri & Hl & Hi). exists tri. split; [| exact Hi].
    assert (Hle : (S i <= slot)%nat).
    { clear -H. revert H. generalize (S i). induction ts as [| u us IHu]; intros k H;
        simpl in H; [discriminate |].
      destruct (negb (ArbTriangle.active u)); [injection H as <-; lia |].
      specialize (IHu _ H). lia. }
    replace (slot - i)%nat with (S (slot - S i)) by lia. exact Hl.
  - injection H as <-. exists t. rewrite Nat.sub_diag. split; [reflexivity | exact Ha].
Qed.

(** C3 (as amended).  In live mode, with a free slot, when the orders of
    legs 0 and 1 are placed (order ids [id0], [id1]) and the placement of
    leg 2 fails (no state, an empty order id, or an exception),
    [open_triangle] returns None after calling [close_position] exactly
    twice, for [id0] and then [id1]; the slot table is unchanged, so the
    slot is still free and the number of active slots is what it was.  The
    requests sent are the three PlaceOrder requests followed by one
    CancelOrder for each of [id0], [id1] that does not start with PAPER_,
    in this order, and nothing else: two cancel requests for ids that do
    not start with PAPER_, fewer otherwise. *)
Theorem C3_rollback_on_third_leg :
  forall (broker : Broker.t) (opp : ArbOpportunity.t) (comp : bool) (parent : Z)
         (self : ArbExecutor.t) (slot : nat) (symbols : list string)
         (t0 t1 t2 : ArbTick.t) (more : list ArbTick.t) (id0 id1 : string),
    let lots :=
      ArbCalculator.calc_lots (Z.of_nat (ArbOpportunity.triangle_type opp))
        (ArbOpportunity.direction opp)
        (if comp
         then ArbConfig.LotSize (ArbExecutor.config self)
              * ArbConfig.CompensationLotMultiplier (ArbExecutor.config self)
         else ArbConfig.LotSize (ArbExecutor.config self)) in
    let sides := fst (ArbExecutor.sides_prices opp t0 t1 t2) in
    let o0 := ArbExecutor.make_order self opp comp slot symbols lots sides 0 in
    let s1 := ArbExecutor.sleep 0.5 (ArbExecutor.send (Broker.PlaceOrder o0) self) in
    let o1 := ArbExecutor.make_order s1 opp comp slot symbols lots sides 1 in
    let s2 := ArbExecutor.sleep 0.5 (ArbExecutor.send (Broker.PlaceOrder o1) s1) in
    let o2 := ArbExecutor.make_order s2 opp comp slot symbols lots sides 2 in
    let s3 := ArbExecutor.send (Broker.PlaceOrder o2) s2 in
    ArbConfig.PaperTrading (ArbExecutor.config self) = false ->
    ArbExecutor.first_free (ArbExecutor.triangles self) 0 = Some slot ->
    ArbOpportunity.ticks opp = t0 :: t1 :: t2 :: more ->
    ArbExecutor.order_symbols opp = Py.Ok symbols ->
    Broker.place_order broker (ArbExecutor.calls self) o0 = Broker.PlaceState id0 ->
    id0 <> "" ->
    Broker.place_order broker (ArbExecutor.calls s1) o1 = Broker.PlaceState id1 ->
    id1 <> "" ->
    Broker.place_order broker (ArbExecutor.calls s2) o2 = Broker.PlaceNone
    \/ Broker.place_order broker (ArbExecutor.calls s2) o2 = Broker.PlaceState ""
    \/ Broker.place_order broker (ArbExecutor.calls s2) o2 = Broker.PlaceRaises ->
    let out := ArbExecutor.open_triangle broker opp comp parent self in
    fst out = Py.Ok None
    /\ snd out
       = snd (ArbExecutor.close_position broker id1
                (snd (ArbExecutor.close_position broker id0 s3)))
    /\ ArbExecutor.triangles (snd out) = ArbExecutor.triangles self
    /\ (exists tri, ArbExecutor.triangles (snd out) !! slot = Some tri
                    /\ ArbTriangle.active tri = false)
    /\ ArbExecutor.active_count (snd out) = ArbExecutor.active_count self
    /\ ArbExecutor.calls (snd out)
       = (ArbExecutor.calls self
          ++ [Broker.PlaceOrder o0; Broker.PlaceOrder o1; Broker.PlaceOrder o2]
          ++ List.map (Broker.CancelOrder (ArbExecutor.account_id self))
               (List.filter (fun id => negb (Py.startswith id "PAPER_")) [id0; id1]))%list
    /\ (Py.startswith id0 "PAPER_" = false -> Py.startswith id1 "PAPER_" = false ->
        List.filter Broker.is_cancel (ArbExecutor.calls (snd out))
        = (List.filter Broker.is_cancel (ArbExecutor.calls self)
           ++ [Broker.CancelOrder (ArbExecutor.account_id self) id0;
               Broker.CancelOrder (ArbExecutor.account_id self) id1])%list).
Proof.
  intros broker opp comp parent self slot symbols t0 t1 t2 more id0 id1
    lots sides o0 s1 o1 s2 o2 s3 Hlive Hfree Hticks Hsym H0 Hid0 H1 Hid1 H2 out.
  assert (Ht0 : Py.truthy id0 = true).
  { unfold Py.truthy. apply negb_true_iff, String.eqb_neq. exact Hid0. }
  assert (Ht1 : Py.truthy id1 = true).
  { unfold Py.truthy. apply negb_true_iff, String.eqb_neq. exact Hid1. }
  assert (Hout : out = (Py.Ok None, ArbExecutor._rollback broker [id0; id1] s3)).
  { unfold out, ArbExecutor.open_triangle.
    rewrite Hfree, Hsym, Hticks.
    assert (Hsp : ArbExecutor.sides_prices opp t0 t1 t2
                  = (sides, snd (ArbExecutor.sides_prices opp t0 t1 t2)))
      by (unfold sides; destruct (ArbExecutor.sides_prices opp t0 t1 t2); reflexivity).
    rewrite Hsp. fold lots.
    cbn [ArbExecutor.place_legs]. rewrite Hlive.
    fold o0. rewrite H0, Ht0. fold s1.
    cbn [ArbExecutor.place_legs].
    change (ArbExecutor.config s1) with (ArbExecutor.config self). rewrite Hlive.
    fold o1. rewrite H1, Ht1. fold s2.
    cbn [ArbExecutor.place_legs].
    change (ArbExecutor.config s2) with (ArbExecutor.config self). rewrite Hlive.
    fold o2. fold s3.
    destruct H2 as [-> | [-> | ->]]; reflexivity. }
  assert (Htri : forall ticket st,
             ArbExecutor.triangles (snd (ArbExecutor.close_position broker ticket st))
             = ArbExecutor.triangles st).
  { intros ticket st. unfold ArbExecutor.close_position.
    destruct (Py.startswith ticket "PAPER_"); [reflexivity |].
    destruct (Broker.cancel_order _ _ _) as [[|] |]; reflexivity. }
  assert (Hts : ArbExecutor.triangles (snd out) = ArbExecutor.triangles self).
  { rewrite Hout. cbn [snd ArbExecutor._rollback]. now rewrite !Htri. }
  rewrite Hout at 1 2. cbn [fst snd ArbExecutor._rollback].
  split; [reflexivity |]. split; [reflexivity |]. split; [exact Hts |].
  assert (Hc : forall ticket st,
             ArbExecutor.calls (snd (ArbExecutor.close_position broker ticket st))
             = (ArbExecutor.calls st
                ++ List.map (Broker.CancelOrder (ArbExecutor.account_id st))
                     (List.filter (fun id => negb (Py.startswith id "PAPER_")) [ticket]))%list
             /\ ArbExecutor.account_id (snd (ArbExecutor.close_position broker ticket st))
                = ArbExecutor.account_id st).
  { intros ticket st. unfold ArbExecutor.close_position. cbn [List.filter].
    destruct (Py.startswith ticket "PAPER_"); cbn; [now rewrite app_nil_r |].
    destruct (Broker.cancel_order _ _ _) as [[|] |]; split; reflexivity. }
  assert (Hcalls : ArbExecutor.calls (snd out)
                   = (ArbExecutor.calls self
                      ++ [Broker.PlaceOrder o0; Broker.PlaceOrder o1; Broker.PlaceOrder o2]
                      ++ List.map (Broker.CancelOrder (ArbExecutor.account_id self))
                           (List.filter (fun id => negb (Py.startswith id "PAPER_"))
                              [id0; id1]))%list).
  { rewrite Hout. cbn [snd ArbExecutor._rollback].
    destruct (Hc id1 (snd (ArbExecutor.close_position broker id0 s3))) as [-> _].
    destruct (Hc id0 s3) as [-> ->].
    change (ArbExecutor.account_id s3) with (ArbExecutor.account_id self).
    change (ArbExecutor.calls s3)
      with (((ArbExecutor.calls self ++ [Broker.PlaceOrder o0]) ++ [Broker.PlaceOrder o1])
            ++ [Broker.PlaceOrder o2])%list.
    cbn [List.filter].
    destruct (Py.startswith id0 "PAPER_"), (Py.startswith id1 "PAPER_"); cbn;
      rewrite <- ?app_assoc; cbn; rewrite ?app_nil_r; reflexivity. }
  split; [| split; [| split]].
  - rewrite Hts. destruct (first_free_inactive _ _ _ Hfree) as (tri & Hl & Hi).
    rewrite Nat.sub_0_r in Hl. now exists tri.
  - unfold ArbExecutor.active_count. now rewrite Hts.
  - exact Hcalls.
  - intros Hp0 Hp1. rewrite Hcalls. cbn [List.filter]. rewrite Hp0, Hp1.
    rewrite List.filter_app. reflexivity.
Qed.

Lemma C3_rollback_on_third_leg_witness :
  fst (ArbExecutor.open_triangle Samples.third_fails Samples.opportunity false (-1)
         Samples.executor) = Py.Ok None
  /\ List.filter Broker.is_cancel
       (ArbExecutor.calls
          (snd (ArbExecutor.open_triangle Samples.third_fails Samples.opportunity false (-1)
                  Samples.executor)))
     = [Broker.CancelOrder "ACC" "ID0"; Broker.CancelOrder "ACC" "ID1"].
Proof.
  pose proof (C3_rollback_on_third_leg Samples.third_fails Samples.opportunity false (-1)
                Samples.executor 0%nat
                ["USD000000TOD@CETS"; "EUR_RUB__TOD@CETS"; "EUR_RUB__TOD@CETS"]
                Samples.usd_rub Samples.eur_usd Samples.eur_rub [] "ID0" "ID1") as H.
  cbv zeta in H.
  destruct H as (Hr & _ & _ & _ & _ & _ & Hc);
    try reflexivity; try discriminate; [left; reflexivity |].
  split; [exact Hr |].
  rewrite Hc by reflexivity. reflexivity.
Defined.

(** C3, as stated, fails: the two cancel calls are calls of
    [close_position], which sends nothing for a ticket that starts with
    PAPER_.  In live mode, with a broker that hands out the ids PAPER_A and
    PAPER_B for legs 0 and 1 and rejects leg 2, [open_triangle] returns
    None having sent the three PlaceOrder requests and no CancelOrder at
    all: both orders stay at the broker. *)
Lemma C3_paper_ids_not_cancelled :
  let out := ArbExecutor.open_triangle Samples.paper_ids Samples.opportunity false (-1)
               Samples.executor in
  ArbConfig.PaperTrading (ArbExecutor.config Samples.executor) = false
  /\ fst out = Py.Ok None
  /\ List.length (ArbExecutor.calls (snd out)) = 3%nat
  /\ List.filter Broker.is_cancel (ArbExecutor.calls (snd out)) = []
  /\ Broker.accepted Samples.paper_ids [] (ArbExecutor.calls (snd out))
     = ["PAPER_A"; "PAPER_B"].
Proof. repeat split. Qed.

(** ** Price of a virtual leg: scanner against executor *)

(** C9, evaluated.  For the virtual pair RUB/USD over USD/RUB 79.50/79.52
    the scanner's [get_effective_rate] gives 1/79.52 for BUY and 1/79.50
    for SELL, while [execute_triangle] records 1/79.50 for BUY and 1/79.52
    for SELL as entry price of the same leg: the two disagree. *)
Theorem C9_scanner_executor_disagree :
  ArbitrageTrader.get_effective_rate (Samples.trader [] [] 0) Samples.p_rub_usd "BUY"
    == 1 / 79.52
  /\ List.map ArbitrageTrader.ActiveTriangle.entry_prices
       (Samples.executed Samples.with_virtual_buy) = [[79.52; 1 / 79.50; 85.10]]
  /\ ArbitrageTrader.get_effective_rate (Samples.trader [] [] 0) Samples.p_rub_usd "SELL"
     == 1 / 79.50
  /\ List.map ArbitrageTrader.ActiveTriangle.entry_prices
       (Samples.executed Samples.with_virtual_sell) = [[79.50; 1 / 79.52; 85.14]]
  /\ ~ 1 / 79.52 == 1 / 79.50.
Proof.
  repeat split; try reflexivity. intros H. vm_compute in H. discriminate.
Qed.

(** The general picture behind C9: with positive bid and ask of the real
    pair, scanner and executor agree on a virtual leg exactly when the real
    pair has no spread. *)
Lemma virtual_leg_prices (self : ArbitrageTrader.t) (pair real_pair : ArbitrageTrader.CurrencyPair.t) :
  ArbitrageTrader.is_virtual pair = true ->
  ArbitrageTrader.real_pair_of self pair = Some real_pair ->
  0 < ArbitrageTrader.CurrencyPair.bid real_pair ->
  0 < ArbitrageTrader.CurrencyPair.ask real_pair ->
  ArbitrageTrader.get_effective_rate self pair "BUY"
  = 1 / ArbitrageTrader.CurrencyPair.ask real_pair
  /\ ArbitrageTrader.execution_price self pair Broker.SIDE_BUY
     = Some (1 / ArbitrageTrader.CurrencyPair.bid real_pair,
             ArbitrageTrader.CurrencyPair.symbol real_pair)
  /\ ArbitrageTrader.get_effective_rate self pair "SELL"
     = 1 / ArbitrageTrader.CurrencyPair.bid real_pair
  /\ ArbitrageTrader.execution_price self pair Broker.SIDE_SELL
     = Some (1 / ArbitrageTrader.CurrencyPair.ask real_pair,
             ArbitrageTrader.CurrencyPair.symbol real_pair).
Proof.
  intros Hv Hr Hb Ha.
  unfold ArbitrageTrader.get_effective_rate, ArbitrageTrader.execution_price.
  rewrite Hv, Hr. apply gt_true in Hb, Ha. simpl. rewrite Hb, Ha. repeat split.
Qed.

(** ** The monitor and the holding time *)

(** C4, evaluated.  Whatever the opening time [t0] and the clock [now] (in
    particular with [now - t0] beyond four hours), a triangle whose orders
    are live and whose running profit is 0 stays in [active_triangles]
    after [monitor_active_triangles], and no cancel request is sent: the
    monitor never looks at the time. *)
Theorem C4_monitor_ignores_elapsed_time :
  forall t0 now : Q,
    let self := Samples.trader [Samples.mul_forward] [Samples.active_at t0] now in
    let self' := ArbitrageTrader.monitor_active_triangles Samples.accept_all self in
    ArbitrageTrader.active_triangles self' = [Samples.active_at t0]
    /\ List.filter Broker.is_cancel (ArbitrageTrader.calls self') = [].
Proof.
  intros t0 now. split; reflexivity.
Qed.

(** In general: whether the monitor marks a triangle for removal depends
    neither on its opening time nor on the clock. *)
Lemma poll_tickets_time (broker : Broker.t) (active : ArbitrageTrader.ActiveTriangle.t)
    (t0 now : Q) (tickets : list string) (i : nat) (profit : Q) (all_closed : bool)
    (self : ArbitrageTrader.t) :
  ArbitrageTrader.poll_tickets broker (ArbitrageTrader.opened_at t0 active) tickets i
    profit all_closed (ArbitrageTrader.at_time now self)
  = let '(p, c, self') :=
      ArbitrageTrader.poll_tickets broker active tickets i profit all_closed self in
    (p, c, ArbitrageTrader.at_time now self').
Proof.
  revert i profit all_closed self.
  induction tickets as [| ticket tickets IH]; intros i profit all_closed self;
    [reflexivity |].
  cbn [ArbitrageTrader.poll_tickets].
  change (ArbitrageTrader.leg_profit (ArbitrageTrader.at_time now self)
            (ArbitrageTrader.opened_at t0 active) i)
    with (ArbitrageTrader.leg_profit self active i).
  change (ArbitrageTrader.calls (ArbitrageTrader.at_time now self))
    with (ArbitrageTrader.calls self).
  destruct (ArbitrageTrader.leg_profit self active i _) as [p seen].
  exact (IH (S i) (profit + p) (all_closed && negb seen)
           (ArbitrageTrader.send
              (Broker.GetOrder (ArbitrageTrader.account_id self) ticket) self)).
Qed.

Lemma monitor_one_time (broker : Broker.t) (active : ArbitrageTrader.ActiveTriangle.t)
    (t0 now : Q) (self : ArbitrageTrader.t) :
  fst (ArbitrageTrader.monitor_one broker (ArbitrageTrader.opened_at t0 active)
         (ArbitrageTrader.at_time now self))
  = fst (ArbitrageTrader.monitor_one broker active self).
Proof.
  unfold ArbitrageTrader.monitor_one.
  change (ArbitrageTrader.ActiveTriangle.tickets (ArbitrageTrader.opened_at t0 active))
    with (ArbitrageTrader.ActiveTriangle.tickets active).
  rewrite poll_tickets_time.
  destruct (ArbitrageTrader.poll_tickets broker active _ _ _ _ self) as [[p c] self1].
  destruct c; [reflexivity |].
  change (ArbitrageTrader.take_profit_points (ArbitrageTrader.at_time now self))
    with (ArbitrageTrader.take_profit_points self).
  change (ArbitrageTrader.stop_loss_points (ArbitrageTrader.at_time now self))
    with (ArbitrageTrader.stop_loss_points self).
  change (ArbitrageTrader.lot_size (ArbitrageTrader.at_time now self))
    with (ArbitrageTrader.lot_size self).
  destruct (Py.ge _ _); [reflexivity |]. destruct (Py.le _ _); reflexivity.
Qed.

(** The sibling monitor of [arbitrage_finder.py] does close on time: five
    hours after opening the triangle is removed and its three tickets are
    cancelled. *)
Lemma finder_monitor_closes_on_time :
  let self' := ArbitrageFinder.monitor_active_positions Samples.accept_all
                 Samples.finder_after_5h in
  ArbitrageFinder.active_triangles self' = []
  /\ ArbitrageFinder.calls self'
     = [Broker.CancelOrder "ACC" "T0"; Broker.CancelOrder "ACC" "T1";
        Broker.CancelOrder "ACC" "T2"].
Proof. split; reflexivity. Qed.

(** ** Forward and reverse deviations *)

Lemma gt_compat (x y z : Q) : x == y -> Py.gt x z = Py.gt y z.
Proof. intros H. unfold Py.gt. now rewrite H. Qed.

Lemma div_point_opp (x y : Q) : x == - y -> x / ArbCalculator.POINT == - (y / ArbCalculator.POINT).
Proof. intros H. rewrite H. unfold Qdiv. ring. Qed.

Lemma calc_deviations_mirror (tri : nat) (t0 t1 t2 : ArbTick.t) (dev_buy dev_sell : Q)
    (sig : string) :
  ArbTick.bid t0 == ArbTick.ask t0 ->
  ArbTick.bid t1 == ArbTick.ask t1 ->
  ArbTick.bid t2 == ArbTick.ask t2 ->
  ArbCalculator.calc_deviations tri [t0; t1; t2] = Py.Ok (dev_buy, dev_sell, sig) ->
  dev_buy == - dev_sell.
Proof.
  intros H0 H1 H2 H. unfold ArbCalculator.calc_deviations in H.
  destruct (nth_error ArbConfig.ARB_TRIANGLE_FORMULAS tri) as [f |]; [| discriminate].
  destruct (Z.eqb f 0).
  - injection H as <- <- _. apply div_point_opp. rewrite H0, H1, H2. ring.
  - injection H as <- <- _. rewrite (gt_compat _ _ 0 H0).
    destruct (Py.gt (ArbTick.ask t0) 0) eqn:Hpos; [| reflexivity].
    apply gt_true in Hpos.
    apply div_point_opp. rewrite H0, H1, H2. field. lra.
Qed.

Lemma finder_same_sign (p1 p2 p3 : ArbitrageFinder.CurrencyPair.t) :
  ArbitrageFinder.CurrencyPair.bid p1 == ArbitrageFinder.CurrencyPair.ask p1 ->
  ArbitrageFinder.CurrencyPair.bid p2 == ArbitrageFinder.CurrencyPair.ask p2 ->
  ArbitrageFinder.CurrencyPair.bid p3 == ArbitrageFinder.CurrencyPair.ask p3 ->
  forall fwd rev,
    (fwd = ArbitrageFinder.mul_forward p1 p2 p3 /\ rev = ArbitrageFinder.mul_reverse p1 p2 p3)
    \/ (fwd = ArbitrageFinder.div_forward p1 p2 p3 /\ rev = ArbitrageFinder.div_reverse p1 p2 p3) ->
    exists s m d s' m' d',
      ArbitrageFinder.calculate_triangle_rate fwd = Py.Ok (s, m, d)
      /\ ArbitrageFinder.calculate_triangle_rate rev = Py.Ok (s', m', d')
      /\ d == d'.
Proof.
  intros H1 H2 H3 fwd rev [[-> ->] | [-> ->]];
    unfold ArbitrageFinder.calculate_triangle_rate; cbn.
  - rewrite (gt_compat _ _ 0 H3).
    assert (Hs : ArbitrageFinder.CurrencyPair.bid p1 * ArbitrageFinder.CurrencyPair.bid p2
                 == ArbitrageFinder.CurrencyPair.ask p1 * ArbitrageFinder.CurrencyPair.ask p2)
      by now rewrite H1, H2.
    rewrite (gt_compat _ _ 0 Hs).
    destruct (Py.gt (ArbitrageFinder.CurrencyPair.ask p3) 0 && _);
      eexists _, _, _, _, _, _; (split; [reflexivity |]); (split; [reflexivity |]);
      [| reflexivity].
    rewrite H3, Hs. reflexivity.
  - rewrite (gt_compat _ _ 0 H3), (gt_compat _ _ 0 H2).
    destruct (Py.gt (ArbitrageFinder.CurrencyPair.ask p2) 0) eqn:Hp2.
    + assert (Hs : ArbitrageFinder.CurrencyPair.bid p1 / ArbitrageFinder.CurrencyPair.ask p2
                   == ArbitrageFinder.CurrencyPair.ask p1 / ArbitrageFinder.CurrencyPair.bid p2)
        by now rewrite H1, H2.
      rewrite (gt_compat _ _ 0 Hs).
      destruct (Py.gt (ArbitrageFinder.CurrencyPair.ask p3) 0 && _);
        eexists _, _, _, _, _, _; (split; [reflexivity |]); (split; [reflexivity |]);
        [| reflexivity].
      rewrite H3, Hs. reflexivity.
    + rewrite andb_false_r.
      eexists _, _, _, _, _, _; (split; [reflexivity |]); (split; reflexivity).
Qed.

(** C7 (as amended).  When every leg is quoted without spread (bid = ask),
    the two deviations of [calc_deviations] are sign mirrors,
    [dev_buy = - dev_sell], for both formulas.  In
    [ArbitrageFinder.calculate_triangle_rate] both directions of a template
    compute [market - synthetic] with the same orientation, so without
    spread the forward and the reverse deviation are equal, not opposite. *)
Theorem C7_mirror_without_spread :
  forall (tri : nat) (t0 t1 t2 : ArbTick.t) (p1 p2 p3 : ArbitrageFinder.CurrencyPair.t),
    ArbTick.bid t0 == ArbTick.ask t0 ->
    ArbTick.bid t1 == ArbTick.ask t1 ->
    ArbTick.bid t2 == ArbTick.ask t2 ->
    ArbitrageFinder.CurrencyPair.bid p1 == ArbitrageFinder.CurrencyPair.ask p1 ->
    ArbitrageFinder.CurrencyPair.bid p2 == ArbitrageFinder.CurrencyPair.ask p2 ->
    ArbitrageFinder.CurrencyPair.bid p3 == ArbitrageFinder.CurrencyPair.ask p3 ->
    (forall dev_buy dev_sell sig,
        ArbCalculator.calc_deviations tri [t0; t1; t2] = Py.Ok (dev_buy, dev_sell, sig) ->
        dev_buy == - dev_sell)
    /\ (exists s m d s' m' d',
          ArbitrageFinder.calculate_triangle_rate (ArbitrageFinder.mul_forward p1 p2 p3)
          = Py.Ok (s, m, d)
          /\ ArbitrageFinder.calculate_triangle_rate (ArbitrageFinder.mul_reverse p1 p2 p3)
             = Py.Ok (s', m', d')
          /\ d == d')
    /\ (exists s m d s' m' d',
          ArbitrageFinder.calculate_triangle_rate (ArbitrageFinder.div_forward p1 p2 p3)
          = Py.Ok (s, m, d)
          /\ ArbitrageFinder.calculate_triangle_rate (ArbitrageFinder.div_reverse p1 p2 p3)
             = Py.Ok (s', m', d')
          /\ d == d').
Proof.
  intros tri t0 t1 t2 p1 p2 p3 H0 H1 H2 G1 G2 G3. split; [| split].
  - intros dev_buy dev_sell sig H.
    exact (calc_deviations_mirror tri t0 t1 t2 dev_buy dev_sell sig H0 H1 H2 H).
  - apply (finder_same_sign p1 p2 p3 G1 G2 G3). left. split; reflexivity.
  - apply (finder_same_sign p1 p2 p3 G1 G2 G3). right. split; reflexivity.
Qed.

Lemma C7_mirror_without_spread_witness :
  (forall dev_buy dev_sell sig,
      ArbCalculator.calc_deviations 0
        [Samples.tick_two; Samples.tick_three; Samples.tick_seven]
      = Py.Ok (dev_buy, dev_sell, sig) ->
      dev_buy == - dev_sell)
  /\ (exists s m d s' m' d',
        ArbitrageFinder.calculate_triangle_rate
          (ArbitrageFinder.mul_forward Samples.f_two Samples.f_three Samples.f_seven)
        = Py.Ok (s, m, d)
        /\ ArbitrageFinder.calculate_triangle_rate
             (ArbitrageFinder.mul_reverse Samples.f_two Samples.f_three Samples.f_seven)
           = Py.Ok (s', m', d')
        /\ d == d').
Proof.
  pose proof (C7_mirror_without_spread 0
                Samples.tick_two Samples.tick_three Samples.tick_seven
                Samples.f_two Samples.f_three Samples.f_seven) as H.
  destruct H as (Ha & Hb & _); try reflexivity.
  split; [exact Ha | exact Hb].
Defined.

(** C7, as stated, fails on the snapshot: [calc_deviations] gives a forward
    deviation of -261.6 and a reverse one of -1147.5; in the finder the
    forward triangle deviates by -261.6 and the reverse one by +1147.5.
    Neither pair is a pair of opposite numbers. *)
Lemma C7_not_mirrors :
  ~ (forall dev_buy dev_sell sig,
        ArbCalculator.calc_deviations 0 Samples.snapshot = Py.Ok (dev_buy, dev_sell, sig) ->
        dev_buy == - dev_sell)
  /\ ~ (forall s m d s' m' d',
          ArbitrageFinder.calculate_triangle_rate
            (ArbitrageFinder.mul_forward Samples.f_usd_rub Samples.f_eur_usd Samples.f_eur_rub)
          = Py.Ok (s, m, d) ->
          ArbitrageFinder.calculate_triangle_rate
            (ArbitrageFinder.mul_reverse Samples.f_usd_rub Samples.f_eur_usd Samples.f_eur_rub)
          = Py.Ok (s', m', d') ->
          d == - d').
Proof.
  split.
  - intros H. specialize (H _ _ _ eq_refl). vm_compute in H. discriminate.
  - intros H. specialize (H _ _ _ _ _ _ eq_refl eq_refl). vm_compute in H. discriminate.
Qed.

(** ** The stable descending sort *)

Section SortFacts.
Context {A : Type} (key : A -> Q).

Lemma insert_desc_perm (x : A) (l : list A) :
  Permutation (Py.insert_desc key x l) (x :: l).
Proof.
  induction l as [| y l IH]; simpl; [reflexivity |].
  destruct (Py.ge (key x) (key y)); [reflexivity |].
  rewrite IH. apply perm_swap.
Qed.

Lemma sort_desc_perm (l : list A) : Permutation (Py.sort_desc key l) l.
Proof.
  induction l as [| x l IH]; simpl; [reflexivity |].
  rewrite insert_desc_perm. now constructor.
Qed.

Lemma sort_desc_In (x : A) (l : list A) : In x (Py.sort_desc key l) <-> In x l.
Proof.
  split; apply Permutation_in; [| symmetry]; apply sort_desc_perm.
Qed.

Context (id : A -> nat).

Lemma ranks_before_key (a b : A) : Spec.ranks_before key id a b -> key b <= key a.
Proof. intros [H | [H _]]; [now apply Qlt_le_weak | rewrite H; apply Qle_refl]. Qed.

Lemma insert_desc_ranked (x : A) (l : list A) :
  StronglySorted (Spec.ranks_before key id) l ->
  List.Forall (fun y => (id x < id y)%nat) l ->
  StronglySorted (Spec.ranks_before key id) (Py.insert_desc key x l).
Proof.
  induction l as [| y l IH]; intros Hs Hid; simpl.
  - repeat constructor.
  - apply StronglySorted_inv in Hs as [Hs Hy].
    apply List.Forall_cons_iff in Hid as [Hxy Hid].
    destruct (Py.ge (key x) (key y)) eqn:Hge.
    + apply ge_true in Hge.
      assert (Hrank : forall z, key z <= key y -> (id x < id z)%nat ->
                                Spec.ranks_before key id x z).
      { intros z Hz Hlt. unfold Spec.ranks_before.
        destruct (Qlt_le_dec (key z) (key x)) as [Hlt' | Hle]; [now left |].
        right. split; [| exact Hlt]. apply Qle_antisym; [exact Hle |].
        eapply Qle_trans; eassumption. }
      constructor; [constructor; assumption |].
      constructor; [apply Hrank; [apply Qle_refl | exact Hxy] |].
      rewrite List.Forall_forall in Hy, Hid |- *. intros z Hz.
      apply Hrank; [apply ranks_before_key; now apply Hy | now apply Hid].
    + apply ge_false in Hge.
      constructor; [now apply IH |].
      rewrite List.Forall_forall in Hy |- *. intros z Hz.
      apply (Permutation_in _ (insert_desc_perm x l)) in Hz as [<- | Hz];
        [now left | now apply Hy].
Qed.

Lemma sort_desc_ranked (l : list A) :
  StronglySorted (fun a b => (id a < id b)%nat) l ->
  StronglySorted (Spec.ranks_before key id) (Py.sort_desc key l).
Proof.
  induction l as [| x l IH]; intros Hs; simpl; [constructor |].
  apply StronglySorted_inv in Hs as [Hs Hx].
  apply insert_desc_ranked; [now apply IH |].
  rewrite List.Forall_forall in Hx |- *. intros y Hy.
  apply Hx. exact (proj1 (sort_desc_In y l) Hy).
Qed.

End SortFacts.

Lemma sort_desc_map {A B : Type} (f : A -> B) (key : B -> Q) (l : list A) :
  List.map f (Py.sort_desc (fun a => key (f a)) l) = Py.sort_desc key (List.map f l).
Proof.
  induction l as [| x l IH]; simpl; [reflexivity |].
  rewrite <- IH. generalize (Py.sort_desc (fun a => key (f a)) l) as s.
  induction s as [| y s IHs]; simpl; [reflexivity |].
  destruct (Py.ge (key (f x)) (key (f y))); simpl; [reflexivity | now rewrite IHs].
Qed.

(** ** The core scanner *)

Section CoreScanner.
Variable triangles_state : list ArbTriangle.t.
Variable get_ticks_func : nat -> option (list ArbTick.t).
Variable config : ArbConfig.t.

Let scan := ArbCalculator.scan_triangle triangles_state get_ticks_func config.
Let scan_all := ArbCalculator.scan_all triangles_state get_ticks_func config.

Lemma scan_triangle_type (tri : nat) (o : ArbOpportunity.t) :
  scan tri = Py.Ok (Some o) -> ArbOpportunity.triangle_type o = tri.
Proof.
  unfold scan, ArbCalculator.scan_triangle.
  destruct (existsb _ _); [discriminate |].
  destruct (get_ticks_func tri) as [[| u ticks] |]; try discriminate.
  destruct (negb (forallb _ _)); [discriminate |].
  destruct (negb (ArbCalculator.check_spreads _ _)); [discriminate |].
  destruct (ArbCalculator.calc_deviations _ _) as [[[dev_buy dev_sell] sig] |];
    [| discriminate].
  destruct (Py.gt dev_buy _); [intros [= <-]; reflexivity |].
  destruct (Py.gt dev_sell _); [intros [= <-]; reflexivity | discriminate].
Qed.

Lemma scan_all_In (tris : list nat) (os : list ArbOpportunity.t) :
  scan_all tris = Py.Ok os ->
  forall o, In o os <-> exists tri, In tri tris /\ scan tri = Py.Ok (Some o).
Proof.
  unfold scan_all, scan. revert os.
  induction tris as [| tri tris IH]; intros os H o; simpl in H.
  - injection H as <-. split; [intros [] | intros (tri & [] & _)].
  - destruct (ArbCalculator.scan_triangle _ _ _ tri) as [r |] eqn:Hr; [| discriminate].
    destruct (ArbCalculator.scan_all _ _ _ tris) as [os' |]; [| discriminate].
    injection H as <-. specialize (IH os' eq_refl o).
    split.
    + intros Hin.
      assert (Hcase : r = Some o \/ In o os').
      { destruct r as [x |]; [destruct Hin as [<- | Hin]; [now left | now right] | now right]. }
      destruct Hcase as [-> | Hin'].
      * exists tri. split; [now left | exact Hr].
      * apply IH in Hin' as (tri' & Hin' & Hs). exists tri'. split; [now right | exact Hs].
    + intros (tri' & [<- | Hin'] & Hs).
      * rewrite Hr in Hs. injection Hs as ->. now left.
      * assert (Hin : In o os') by (apply IH; eauto).
        destruct r; [now right | exact Hin].
Qed.

Lemma scan_all_increasing (tris : list nat) (os : list ArbOpportunity.t) :
  scan_all tris = Py.Ok os ->
  StronglySorted Nat.lt tris ->
  StronglySorted (fun a b => (ArbOpportunity.triangle_type a
                              < ArbOpportunity.triangle_type b)%nat) os.
Proof.
  revert os. induction tris as [| tri tris IH]; intros os H Hs.
  - injection H as <-. constructor.
  - pose proof (scan_all_In _ _ H) as Hin.
    unfold scan_all in H. simpl in H.
    destruct (ArbCalculator.scan_triangle _ _ _ tri) as [r |] eqn:Hr; [| discriminate].
    destruct (ArbCalculator.scan_all _ _ _ tris) as [os' |] eqn:Hos; [| discriminate].
    injection H as <-.
    apply StronglySorted_inv in Hs as [Hs Htri].
    specialize (IH os' Hos Hs).
    destruct r as [x |]; [| exact IH].
    constructor; [exact IH |].
    rewrite List.Forall_forall. intros y Hy.
    rewrite (scan_triangle_type _ _ Hr).
    apply (scan_all_In _ _ Hos) in Hy as (tri' & Hin' & Hs').
    rewrite (scan_triangle_type _ _ Hs').
    rewrite List.Forall_forall in Htri. now apply Htri.
Qed.

End CoreScanner.

Lemma seq_increasing (start len : nat) : StronglySorted Nat.lt (seq start len).
Proof.
  revert start. induction len as [| len IH]; intros start; simpl; constructor.
  - apply IH.
  - rewrite List.Forall_forall. intros y Hy. apply in_seq in Hy. unfold Nat.lt. lia.
Qed.

Lemma core_find_opportunities_ranked triangles_state get_ticks_func config
    (opps : list ArbOpportunity.t) :
  ArbCalculator.find_opportunities triangles_state get_ticks_func config = Py.Ok opps ->
  StronglySorted
    (Spec.ranks_before (fun o => Qabs (ArbOpportunity.deviation o))
       ArbOpportunity.triangle_type) opps.
Proof.
  unfold ArbCalculator.find_opportunities.
  destruct (Z.leb _ _); [intros [= <-]; constructor |].
  destruct (ArbCalculator.scan_all _ _ _ _) as [os |] eqn:Hos; [| discriminate].
  intros [= <-]. apply sort_desc_ranked.
  eapply scan_all_increasing; [exact Hos | apply seq_increasing].
Qed.

(** ** The trader's scanner *)

Lemma combine_map_fst_snd {A B : Type} (l : list (A * B)) :
  combine (List.map fst l) (List.map snd l) = l.
Proof. induction l as [| [a b] l IH]; simpl; [reflexivity | now rewrite IH]. Qed.

(** Numbering the entries of a marked list and keeping the marked ones. *)
Lemma tagged_spec {T : Type} (l : list (T * bool)) (k : nat) :
  let tagged := List.filter (fun it => snd (snd it)) (combine (seq k (List.length l)) l) in
  List.map snd tagged = List.filter snd l
  /\ StronglySorted Nat.lt (List.map fst tagged)
  /\ (forall i r, In (i, r) tagged ->
                  (k <= i)%nat /\ nth_error l (i - k) = Some r /\ snd r = true).
Proof.
  revert k. induction l as [| x l IH]; intros k; simpl.
  - split; [reflexivity |]. split; [constructor |]. intros i r [].
  - destruct (IH (S k)) as (Hmap & Hsorted & Hin). simpl in Hmap, Hsorted, Hin.
    assert (Hrest : forall i r,
               In (i, r) (List.filter (fun it => snd (snd it))
                            (combine (seq (S k) (List.length l)) l)) ->
               (k <= i)%nat /\ nth_error (x :: l) (i - k) = Some r /\ snd r = true).
    { intros i r Hi. destruct (Hin i r Hi) as (Hle & Hnth & Hr).
      split; [lia |]. split; [| exact Hr].
      replace (i - k)%nat with (S (i - S k)) by lia. exact Hnth. }
    destruct (snd x) eqn:Hx; simpl.
    + split; [now rewrite Hmap |]. split.
      * constructor; [exact Hsorted |].
        rewrite List.Forall_forall. intros i Hi.
        apply in_map_iff in Hi as ([i' r] & <- & Hi). simpl.
        destruct (Hin i' r Hi) as (Hle & _). unfold Nat.lt. lia.
      * intros i r [[= <- <-] | Hi]; [| now apply Hrest].
        rewrite Nat.sub_diag. simpl. auto.
    + split; [exact Hmap |]. split; [exact Hsorted | exact Hrest].
Qed.

Lemma trader_scan_all_nth (self : ArbitrageTrader.t) (ts : list ArbitrageTrader.Triangle.t)
    (marked : list (ArbitrageTrader.Triangle.t * bool)) :
  ArbitrageTrader.scan_all self ts = Py.Ok marked ->
  forall i r, nth_error marked i = Some r ->
              exists tr, nth_error ts i = Some tr
                         /\ ArbitrageTrader.scan_triangle self tr = Py.Ok r.
Proof.
  revert marked. induction ts as [| t ts IH]; intros marked H i r Hi; simpl in H.
  - injection H as <-. destruct i; discriminate.
  - destruct (ArbitrageTrader.scan_triangle self t) as [r0 |] eqn:Hr0; [| discriminate].
    destruct (ArbitrageTrader.scan_all self ts) as [rs |]; [| discriminate].
    injection H as <-. destruct i as [| i]; simpl in Hi.
    + injection Hi as <-. exists t. split; [reflexivity | exact Hr0].
    + destruct (IH rs eq_refl i r Hi) as (tr & Htr & Hs). now exists tr.
Qed.

Lemma trader_scan_all_In (self : ArbitrageTrader.t) (ts : list ArbitrageTrader.Triangle.t)
    (marked : list (ArbitrageTrader.Triangle.t * bool)) :
  ArbitrageTrader.scan_all self ts = Py.Ok marked ->
  forall r, In r marked <->
            exists tr, In tr ts /\ ArbitrageTrader.scan_triangle self tr = Py.Ok r.
Proof.
  revert marked. induction ts as [| t ts IH]; intros marked H r; simpl in H.
  - injection H as <-. split; [intros [] | intros (tr & [] & _)].
  - destruct (ArbitrageTrader.scan_triangle self t) as [r0 |] eqn:Hr0; [| discriminate].
    destruct (ArbitrageTrader.scan_all self ts) as [rs |]; [| discriminate].
    injection H as <-. specialize (IH rs eq_refl r). split.
    + intros [<- | Hin]; [exists t; split; [now left | exact Hr0] |].
      apply IH in Hin as (tr & Hin & Hs). exists tr. split; [now right | exact Hs].
    + intros (tr & [<- | Hin] & Hs).
      * rewrite Hr0 in Hs. injection Hs as ->. now left.
      * right. apply IH. eauto.
Qed.

Lemma trader_find_opportunities_ranked (self self' : ArbitrageTrader.t)
    (opps : list ArbitrageTrader.Triangle.t) :
  ArbitrageTrader.find_opportunities self = Py.Ok (opps, self') ->
  exists ids : list nat,
    List.length ids = List.length opps
    /\ (forall i o, In (i, o) (combine ids opps) ->
                    exists tr, nth_error (ArbitrageTrader.triangles self) i = Some tr
                               /\ ArbitrageTrader.scan_triangle self tr = Py.Ok (o, true))
    /\ StronglySorted
         (Spec.ranks_before
            (fun io => Qabs (ArbitrageTrader.Triangle.deviation_points (snd io))) fst)
         (combine ids opps).
Proof.
  unfold ArbitrageTrader.find_opportunities.
  destruct (ArbitrageTrader.scan_all self _) as [marked |] eqn:Hscan; [| discriminate].
  intros [= <- _].
  pose proof (tagged_spec marked 0) as Htag. cbv zeta in Htag.
  set (tagged := List.filter (fun it => snd (snd it))
                   (combine (seq 0 (List.length marked)) marked)) in Htag.
  destruct Htag as (Hmap & Hsorted & Hin).
  set (tt := List.map (fun it : nat * (ArbitrageTrader.Triangle.t * bool) =>
                         (fst it, fst (snd it))) tagged).
  set (key := fun x => Qabs (ArbitrageTrader.Triangle.deviation_points x)).
  set (sorted := Py.sort_desc (fun io : nat * ArbitrageTrader.Triangle.t => key (snd io)) tt).
  assert (Hopps : Py.sort_desc key (List.map fst (List.filter snd marked))
                  = List.map snd sorted).
  { unfold sorted. rewrite (sort_desc_map snd key tt). f_equal.
    rewrite <- Hmap. unfold tt. rewrite !List.map_map. reflexivity. }
  exists (List.map fst sorted).
  rewrite Hopps, combine_map_fst_snd. split; [now rewrite !List.length_map |]. split.
  - intros i o Hio.
    apply (proj1 (sort_desc_In _ _ _)) in Hio.
    unfold tt in Hio. apply in_map_iff in Hio as ([i' [o' b]] & [= <- <-] & Hi).
    destruct (Hin _ _ Hi) as (_ & Hnth & Hb). simpl in Hb. subst b.
    rewrite Nat.sub_0_r in Hnth.
    exact (trader_scan_all_nth _ _ _ Hscan _ _ Hnth).
  - apply sort_desc_ranked.
    assert (Hfst : List.map fst tt = List.map fst tagged)
      by (unfold tt; rewrite List.map_map; reflexivity).
    clear -Hsorted Hfst. revert Hsorted. rewrite <- Hfst. clear Hfst.
    induction tt as [| x tt IH]; simpl; intros Hs; [constructor |].
    apply StronglySorted_inv in Hs as [Hs Hx].
    constructor; [now apply IH |].
    rewrite List.Forall_forall in Hx |- *. intros y Hy. apply Hx. now apply in_map.
Qed.

(** C6.  The list returned by a scan is ordered by [|deviation|]
    descending, and opportunities with equal [|deviation|] stand in
    ascending template order: in [core/arb_calculator.py] the template id is
    [triangle_type]; in [arbitrage_trader.py] it is the position [i] of the
    triangle in [self.triangles], and the returned list pairs up with a
    list of such positions. *)
Theorem C6_opportunities_ranked :
  (forall triangles_state get_ticks_func config (opps : list ArbOpportunity.t),
      ArbCalculator.find_opportunities triangles_state get_ticks_func config = Py.Ok opps ->
      StronglySorted
        (Spec.ranks_before (fun o => Qabs (ArbOpportunity.deviation o))
           ArbOpportunity.triangle_type) opps)
  /\ (forall (self self' : ArbitrageTrader.t) (opps : list ArbitrageTrader.Triangle.t),
        ArbitrageTrader.find_opportunities self = Py.Ok (opps, self') ->
        exists ids : list nat,
          List.length ids = List.length opps
          /\ (forall i o, In (i, o) (combine ids opps) ->
                exists tr, nth_error (ArbitrageTrader.triangles self) i = Some tr
                           /\ ArbitrageTrader.scan_triangle self tr = Py.Ok (o, true))
          /\ StronglySorted
               (Spec.ranks_before
                  (fun io => Qabs (ArbitrageTrader.Triangle.deviation_points (snd io))) fst)
               (combine ids opps)).
Proof.
  split.
  - apply core_find_opportunities_ranked.
  - apply trader_find_opportunities_ranked.
Qed.

Lemma C6_opportunities_ranked_witness :
  exists opps,
    ArbCalculator.find_opportunities [] Samples.tie_ticks ArbConfig.default = Py.Ok opps
    /\ List.map ArbOpportunity.triangle_type opps = [2; 0; 1]%nat
    /\ StronglySorted
         (Spec.ranks_before (fun o => Qabs (ArbOpportunity.deviation o))
            ArbOpportunity.triangle_type) opps.
Proof.
  eexists. split; [reflexivity |]. split; [reflexivity |].
  apply (proj1 C6_opportunities_ranked [] Samples.tie_ticks ArbConfig.default).
  reflexivity.
Defined.

(** ** The deviation test *)

Lemma core_emits_iff triangles_state get_ticks_func config (tri : nat)
    (ticks : list ArbTick.t) (dev_buy dev_sell : Q) (sig : string)
    (opps : list ArbOpportunity.t) :
  ArbCalculator.find_opportunities triangles_state get_ticks_func config = Py.Ok opps ->
  (Z.of_nat (List.length (List.filter ArbTriangle.active triangles_state))
   < ArbConfig.MaxTriangles config)%Z ->
  (tri < List.length ArbConfig.ARB_TRIANGLE_PAIRS)%nat ->
  existsb (fun t => ArbTriangle.active t
                    && Z.eqb (ArbTriangle.triangle_type t) (Z.of_nat tri))
          triangles_state = false ->
  get_ticks_func tri = Some ticks ->
  ticks <> [] ->
  forallb ArbTick.is_valid ticks = true ->
  ArbCalculator.check_spreads ticks (ArbConfig.MaxSpread config) = true ->
  ArbCalculator.calc_deviations tri ticks = Py.Ok (dev_buy, dev_sell, sig) ->
  (exists o, In o opps /\ ArbOpportunity.triangle_type o = tri)
  <-> (ArbConfig.MinDeviation config < dev_buy \/ ArbConfig.MinDeviation config < dev_sell).
Proof.
  intros Hfind Hfree Htri Hact Hget Hne Hvalid Hspread Hdev.
  unfold ArbCalculator.find_opportunities in Hfind.
  apply Z.leb_gt in Hfree. rewrite Hfree in Hfind.
  destruct (ArbCalculator.scan_all _ _ _ _) as [os |] eqn:Hos; [| discriminate].
  injection Hfind as <-.
  assert (Hscan : ArbCalculator.scan_triangle triangles_state get_ticks_func config tri
                  = if Py.gt dev_buy (ArbConfig.MinDeviation config)
                    then Py.Ok (Some (ArbOpportunity.mk tri 1 dev_buy ticks sig
                                        (nth tri ArbConfig.ARB_TRIANGLE_DESCRIPTIONS ""
                                         ++ " BUY")))
                    else if Py.gt dev_sell (ArbConfig.MinDeviation config)
                    then Py.Ok (Some (ArbOpportunity.mk tri (-1) dev_sell ticks sig
                                        (nth tri ArbConfig.ARB_TRIANGLE_DESCRIPTIONS ""
                                         ++ " SELL")))
                    else Py.Ok None).
  { unfold ArbCalculator.scan_triangle. rewrite Hact, Hget.
    destruct ticks as [| u ticks]; [congruence |].
    rewrite Hvalid, Hspread, Hdev. reflexivity. }
  split.
  - intros (o & Hin & Hty).
    apply (proj1 (sort_desc_In _ _ _)) in Hin.
    apply (scan_all_In _ _ _ _ _ Hos) in Hin as (tri' & _ & Hs).
    pose proof (scan_triangle_type _ _ _ _ _ Hs) as Hty'.
    rewrite Hty in Hty'. subst tri'. rewrite Hscan in Hs.
    destruct (Py.gt dev_buy _) eqn:Hb; [left; now apply gt_true |].
    destruct (Py.gt dev_sell _) eqn:Hsl; [right; now apply gt_true | discriminate].
  - intros Hor.
    assert (Hsome : exists o,
               ArbCalculator.scan_triangle triangles_state get_ticks_func config tri
               = Py.Ok (Some o)).
    { rewrite Hscan. destruct (Py.gt dev_buy _) eqn:Hb; [eauto |].
      destruct (Py.gt dev_sell _) eqn:Hsl; [eauto |].
      apply gt_false in Hb, Hsl. destruct Hor as [H | H]; lra. }
    destruct Hsome as (o & Hs). exists o. split.
    + apply sort_desc_In. apply (scan_all_In _ _ _ _ _ Hos).
      exists tri. split; [apply in_seq; lia | exact Hs].
    + exact (scan_triangle_type _ _ _ _ _ Hs).
Qed.

Lemma trader_emits_iff (self self' : ArbitrageTrader.t)
    (opps : list ArbitrageTrader.Triangle.t) (triangle : ArbitrageTrader.Triangle.t)
    (synthetic market dev_points dev_percent : Q) :
  ArbitrageTrader.find_opportunities self = Py.Ok (opps, self') ->
  In triangle (ArbitrageTrader.triangles self) ->
  forallb (ArbitrageTrader.has_quotes self) (ArbitrageTrader.Triangle.pairs triangle) = true ->
  forallb (ArbitrageTrader.spread_ok self) (ArbitrageTrader.Triangle.pairs triangle) = true ->
  ArbitrageTrader.calculate_triangle self triangle
  = Py.Ok (synthetic, market, dev_points, dev_percent) ->
  In (ArbitrageTrader.with_rates triangle (synthetic, market, dev_points, dev_percent)) opps
  <-> Spec.accepts (ArbitrageTrader.min_deviation_points self) dev_points.
Proof.
  intros Hfind Hin Hq Hsp Hcalc. unfold Spec.accepts.
  unfold ArbitrageTrader.find_opportunities in Hfind.
  destruct (ArbitrageTrader.scan_all self _) as [marked |] eqn:Hscan; [| discriminate].
  injection Hfind as <- _.
  assert (Hmem : forall x,
             In x (Py.sort_desc
                     (fun x => Qabs (ArbitrageTrader.Triangle.deviation_points x))
                     (List.map fst (List.filter snd marked)))
             <-> exists tr, In tr (ArbitrageTrader.triangles self)
                            /\ ArbitrageTrader.scan_triangle self tr = Py.Ok (x, true)).
  { intros x. rewrite sort_desc_In, in_map_iff. split.
    - intros ([x' b] & <- & Hf). apply filter_In in Hf as [Hm Hb]. simpl in Hb. subst b.
      now apply (trader_scan_all_In _ _ _ Hscan) in Hm.
    - intros (tr & Htr & Hs). exists (x, true). split; [reflexivity |].
      apply filter_In. split; [| reflexivity].
      apply (trader_scan_all_In _ _ _ Hscan). eauto. }
  rewrite Hmem. split.
  - intros (tr & _ & Hs). unfold ArbitrageTrader.scan_triangle in Hs.
    destruct (negb (forallb _ _)); [discriminate |].
    destruct (negb (forallb _ _)); [discriminate |].
    destruct (ArbitrageTrader.calculate_triangle self tr) as [[[[s' m'] dp'] pc'] |];
      [| discriminate].
    destruct (Py.ge (Qabs dp') _) eqn:Hge; [| discriminate].
    assert (Heq : ArbitrageTrader.Triangle.deviation_points
                    (ArbitrageTrader.with_rates tr (s', m', dp', pc'))
                  = ArbitrageTrader.Triangle.deviation_points
                      (ArbitrageTrader.with_rates triangle
                         (synthetic, market, dev_points, dev_percent)))
      by congruence.
    cbn in Heq. subst dp'. now apply ge_true.
  - intros Hge. exists triangle. split; [exact Hin |].
    unfold ArbitrageTrader.scan_triangle. rewrite Hq, Hsp, Hcalc. simpl.
    apply ge_true in Hge. now rewrite Hge.
Qed.

(** C5 (as amended).  [ArbitrageTrader.find_opportunities] returns a
    triangle that passed the quote and spread tests exactly when
    [|deviation_points| >= min_deviation_points].  The scanner of
    [core/arb_calculator.py] applies signed, strict tests instead: a
    template that is free, has valid ticks and passes the spread test, in
    a scan that runs (fewer active triangles than MaxTriangles), is returned
    exactly when [dev_buy > MinDeviation] or [dev_sell > MinDeviation]. *)
Theorem C5_deviation_test :
  (forall (self self' : ArbitrageTrader.t) (opps : list ArbitrageTrader.Triangle.t)
          (triangle : ArbitrageTrader.Triangle.t)
          (synthetic market dev_points dev_percent : Q),
      ArbitrageTrader.find_opportunities self = Py.Ok (opps, self') ->
      In triangle (ArbitrageTrader.triangles self) ->
      forallb (ArbitrageTrader.has_quotes self)
        (ArbitrageTrader.Triangle.pairs triangle) = true ->
      forallb (ArbitrageTrader.spread_ok self)
        (ArbitrageTrader.Triangle.pairs triangle) = true ->
      ArbitrageTrader.calculate_triangle self triangle
      = Py.Ok (synthetic, market, dev_points, dev_percent) ->
      In (ArbitrageTrader.with_rates triangle (synthetic, market, dev_points, dev_percent))
         opps
      <-> Spec.accepts (ArbitrageTrader.min_deviation_points self) dev_points)
  /\ (forall triangles_state get_ticks_func config (tri : nat) (ticks : list ArbTick.t)
             (dev_buy dev_sell : Q) (sig : string) (opps : list ArbOpportunity.t),
        ArbCalculator.find_opportunities triangles_state get_ticks_func config = Py.Ok opps ->
        (Z.of_nat (List.length (List.filter ArbTriangle.active triangles_state))
         < ArbConfig.MaxTriangles config)%Z ->
        (tri < List.length ArbConfig.ARB_TRIANGLE_PAIRS)%nat ->
        existsb (fun t => ArbTriangle.active t
                          && Z.eqb (ArbTriangle.triangle_type t) (Z.of_nat tri))
                triangles_state = false ->
        get_ticks_func tri = Some ticks ->
        ticks <> [] ->
        forallb ArbTick.is_valid ticks = true ->
        ArbCalculator.check_spreads ticks (ArbConfig.MaxSpread config) = true ->
        ArbCalculator.calc_deviations tri ticks = Py.Ok (dev_buy, dev_sell, sig) ->
        (exists o, In o opps /\ ArbOpportunity.triangle_type o = tri)
        <-> (ArbConfig.MinDeviation config < dev_buy
             \/ ArbConfig.MinDeviation config < dev_sell)).
Proof.
  split.
  - apply trader_emits_iff.
  - apply core_emits_iff.
Qed.

Lemma C5_deviation_test_witness :
  (exists opps self' r,
      ArbitrageTrader.find_opportunities
        (Samples.trader [Samples.six_seven; Samples.six_seven_rev] [] 0)
      = Py.Ok (opps, self')
      /\ (In (ArbitrageTrader.with_rates Samples.six_seven r) opps
          <-> Spec.accepts 2.0 (snd (fst r))))
  /\ (exists opps,
        ArbCalculator.find_opportunities [] Samples.tie_ticks ArbConfig.default = Py.Ok opps
        /\ ((exists o, In o opps /\ ArbOpportunity.triangle_type o = 0%nat)
            <-> (2.0 < 10000 \/ 2.0 < -10000))).
Proof.
  split.
  - pose proof (proj1 C5_deviation_test
                  (Samples.trader [Samples.six_seven; Samples.six_seven_rev] [] 0)
                  _ _ Samples.six_seven _ _ _ _
                  eq_refl (or_introl eq_refl) eq_refl eq_refl eq_refl) as H.
    eexists _, _, _. split; [reflexivity | exact H].
  - eexists. split; [reflexivity |].
    apply (proj2 C5_deviation_test [] Samples.tie_ticks ArbConfig.default 0%nat
             [Samples.tick_two; Samples.tick_three; Samples.tick_seven]
             10000 (-10000) "MUL");
      try reflexivity.
    + simpl. lia.
    + discriminate.
Defined.

(** C5, as stated, fails for the core scanner.  On the snapshot, with a
    spread limit that lets it through, [|dev_buy| = 261.6] and
    [|dev_sell| = 1147.5] are far above MinDeviation = 2, yet nothing is
    returned: both deviations are negative.  And a forward deviation of
    exactly 2 = MinDeviation is not returned either: the test is strict.
    The boundary input 0.0002, 1, 0.0004 gives exactly 2 and -2 in binary64
    arithmetic as well. *)
Lemma C5_core_not_absolute :
  (forallb ArbTick.is_valid Samples.snapshot = true
   /\ ArbCalculator.check_spreads Samples.snapshot
        (ArbConfig.MaxSpread Samples.wide_config) = true
   /\ (exists dev_buy dev_sell sig,
          ArbCalculator.calc_deviations 0 Samples.snapshot = Py.Ok (dev_buy, dev_sell, sig)
          /\ Spec.accepts (ArbConfig.MinDeviation Samples.wide_config) dev_buy
          /\ Spec.accepts (ArbConfig.MinDeviation Samples.wide_config) dev_sell)
   /\ ArbCalculator.find_opportunities [] Samples.get_ticks Samples.wide_config = Py.Ok [])
  /\ (forallb ArbTick.is_valid [Samples.tick_0_0002; Samples.tick_one; Samples.tick_0_0004]
      = true
      /\ ArbCalculator.check_spreads
           [Samples.tick_0_0002; Samples.tick_one; Samples.tick_0_0004]
           (ArbConfig.MaxSpread ArbConfig.default) = true
      /\ (exists dev_buy dev_sell sig,
             ArbCalculator.calc_deviations 0
               [Samples.tick_0_0002; Samples.tick_one; Samples.tick_0_0004]
             = Py.Ok (dev_buy, dev_sell, sig)
             /\ dev_buy == ArbConfig.MinDeviation ArbConfig.default
             /\ dev_sell == - ArbConfig.MinDeviation ArbConfig.default
             /\ Spec.accepts (ArbConfig.MinDeviation ArbConfig.default) dev_buy)
      /\ Samples.boundary_ticks 0%nat
         = Some [Samples.tick_0_0002; Samples.tick_one; Samples.tick_0_0004]
      /\ Samples.boundary_binary64_exact = true
      /\ ArbCalculator.find_opportunities [] Samples.boundary_ticks ArbConfig.default
         = Py.Ok []).
Proof.
  split.
  - split; [reflexivity |]. split; [reflexivity |]. split; [| reflexivity].
    eexists _, _, _. split; [reflexivity |]. split; vm_compute; discriminate.
  - split; [reflexivity |]. split; [reflexivity |].
    split; [| split; [reflexivity | split; [vm_compute; reflexivity | reflexivity]]].
    eexists _, _, _. split; [reflexivity |].
    split; [reflexivity | split; [reflexivity | vm_compute; discriminate]].
Qed.

(** * Further properties of the code *)

(** ** The executor's slot table *)

Lemma close_position_frame (broker : Broker.t) (ticket : string) (self : ArbExecutor.t) :
  let self' := snd (ArbExecutor.close_position broker ticket self) in
  ArbExecutor.triangles self' = ArbExecutor.triangles self
  /\ ArbExecutor.config self' = ArbExecutor.config self
  /\ ArbExecutor.account_id self' = ArbExecutor.account_id self
  /\ ArbExecutor.clock self' = ArbExecutor.clock self
  /\ ArbExecutor.calls self'
     = (ArbExecutor.calls self
        ++ (if Py.startswith ticket "PAPER_" then []
            else [Broker.CancelOrder (ArbExecutor.account_id self) ticket]))%list.
Proof.
  unfold ArbExecutor.close_position.
  destruct (Py.startswith ticket "PAPER_");
    [cbn; now rewrite app_nil_r |].
  destruct (Broker.cancel_order _ _ _) as [[|] |]; cbn; auto.
Qed.

Lemma rollback_frame (broker : Broker.t) (tickets : list string) (self : ArbExecutor.t) :
  let self' := ArbExecutor._rollback broker tickets self in
  ArbExecutor.triangles self' = ArbExecutor.triangles self
  /\ ArbExecutor.config self' = ArbExecutor.config self
  /\ ArbExecutor.account_id self' = ArbExecutor.account_id self
  /\ exists trace, ArbExecutor.calls self' = (ArbExecutor.calls self ++ trace)%list.
Proof.
  revert self. induction tickets as [| ticket tickets IH]; intros self; cbn.
  - repeat split; try reflexivity. exists []. now rewrite app_nil_r.
  - destruct (close_position_frame broker ticket self) as (Ht & Hc & Ha & _ & Hl).
    destruct (IH (snd (ArbExecutor.close_position broker ticket self)))
      as (Ht' & Hc' & Ha' & trace & Hl').
    cbn in *. rewrite Ht', Hc', Ha', Hl', Ht, Hc, Ha, Hl.
    repeat split. eexists. now rewrite <- app_assoc.
Qed.

Lemma place_legs_frame (broker : Broker.t) (opp : ArbOpportunity.t) (comp : bool)
    (slot : nat) (symbols : list string) (lots : list Q) (sides : list Broker.Side)
    (legs : list nat) (tickets : list string) (self : ArbExecutor.t) :
  let out := ArbExecutor.place_legs broker opp comp slot symbols lots sides legs tickets self in
  ArbExecutor.triangles (snd out) = ArbExecutor.triangles self
  /\ ArbExecutor.config (snd out) = ArbExecutor.config self
  /\ ArbExecutor.account_id (snd out) = ArbExecutor.account_id self
  /\ (exists trace, ArbExecutor.calls (snd out) = (ArbExecutor.calls self ++ trace)%list)
  /\ (forall placed, fst out = Some placed ->
                     List.length placed = (List.length tickets + List.length legs)%nat).
Proof.
  revert tickets self.
  induction legs as [| i legs IH]; intros tickets self; cbn [ArbExecutor.place_legs].
  - cbn. repeat split; try reflexivity.
    + exists []. now rewrite app_nil_r.
    + intros placed [= <-]. lia.
  - destruct (ArbConfig.PaperTrading (ArbExecutor.config self)).
    + match goal with
      | |- context [ArbExecutor.place_legs _ _ _ _ _ _ _ legs ?tk self] =>
          destruct (IH tk self) as (Ht & Hc & Ha & Hl & Hn)
      end.
      repeat split; try assumption.
      intros placed Hp. rewrite (Hn placed Hp), length_app. cbn. lia.
    + set (order := ArbExecutor.make_order self opp comp slot symbols lots sides i).
      set (self1 := ArbExecutor.send (Broker.PlaceOrder order) self).
      assert (Hfail : let out := (@None (list string), ArbExecutor._rollback broker tickets self1) in
                ArbExecutor.triangles (snd out) = ArbExecutor.triangles self
                /\ ArbExecutor.config (snd out) = ArbExecutor.config self
                /\ ArbExecutor.account_id (snd out) = ArbExecutor.account_id self
                /\ (exists trace,
                       ArbExecutor.calls (snd out) = (ArbExecutor.calls self ++ trace)%list)
                /\ (forall placed, fst out = Some placed ->
                       List.length placed
                       = (List.length tickets + List.length (i :: legs))%nat)).
      { cbn [fst snd].
        destruct (rollback_frame broker tickets self1) as (Ht & Hc & Ha & trace & Hl).
        cbn in Ht, Hc, Ha, Hl. rewrite Ht, Hc, Ha, Hl.
        repeat split; [| discriminate].
        eexists. unfold self1. cbn. now rewrite <- app_assoc. }
      destruct (Broker.place_order broker (ArbExecutor.calls self) order) as [order_id | |];
        try exact Hfail.
      destruct (Py.truthy order_id); [| exact Hfail].
      destruct (IH (tickets ++ [order_id])%list (ArbExecutor.sleep 0.5 self1))
        as (Ht & Hc & Ha & (trace & Hl) & Hn).
      repeat split; try assumption.
      * eexists. rewrite Hl. unfold self1. cbn. now rewrite <- app_assoc.
      * intros placed Hp. rewrite (Hn placed Hp), length_app. cbn. lia.
Qed.

(** Replacing the triangle of a slot changes the number of active slots by
    the difference of the two flags. *)
Lemma active_count_insert (ts : list ArbTriangle.t) (i : nat) (old new : ArbTriangle.t) :
  ts !! i = Some old ->
  (List.length (List.filter ArbTriangle.active (<[i := new]> ts))
   + (if ArbTriangle.active old then 1 else 0)
   = List.length (List.filter ArbTriangle.active ts)
     + (if ArbTriangle.active new then 1 else 0))%nat.
Proof.
  revert i. induction ts as [| t ts IH]; intros i H; [discriminate |].
  destruct i as [| i].
  - injection H as ->. change (<[0%nat := new]> (old :: ts)) with (new :: ts).
    simpl. destruct (ArbTriangle.active old), (ArbTriangle.active new); simpl; lia.
  - change (<[S i := new]> (t :: ts)) with (t :: <[i := new]> ts).
    specialize (IH i H). simpl. destruct (ArbTriangle.active t); simpl; lia.
Qed.

Lemma first_free_none (ts : list ArbTriangle.t) (i : nat) :
  forallb ArbTriangle.active ts = true -> ArbExecutor.first_free ts i = None.
Proof.
  revert i. induction ts as [| t ts IH]; intros i H; [reflexivity |].
  cbn in *. apply andb_true_iff in H as [-> H]. cbn. now apply IH.
Qed.

(** When every slot is active, [open_triangle] returns None and leaves the
    executor as it is: no order is sent, no slot changes, and the
    opportunity is not even looked at. *)
Theorem open_triangle_no_free_slot :
  forall (broker : Broker.t) (opp : ArbOpportunity.t) (comp : bool) (parent : Z)
         (self : ArbExecutor.t),
    forallb ArbTriangle.active (ArbExecutor.triangles self) = true ->
    ArbExecutor.open_triangle broker opp comp parent self = (Py.Ok None, self).
Proof.
  intros broker opp comp parent self H. unfold ArbExecutor.open_triangle.
  now rewrite (first_free_none _ 0 H).
Qed.

Lemma open_triangle_no_free_slot_witness :
  ArbExecutor.open_triangle Samples.accept_all Samples.opportunity false (-1)
    Samples.full_executor = (Py.Ok None, Samples.full_executor).
Proof.
  apply (open_triangle_no_free_slot Samples.accept_all Samples.opportunity false (-1)
           Samples.full_executor).
  reflexivity.
Defined.

(** What [open_triangle] can do to the executor, whatever the broker
    answers.  The slot table keeps its size, account and configuration stay,
    and the call log only grows.  On success the returned slot is the first
    free one; it now holds an active triangle with three tickets, the given
    compensation flag and parent, and the number of active slots is one
    more.  In every other case (None or an exception) the slot table is
    unchanged. *)
Theorem open_triangle_outcome :
  forall (broker : Broker.t) (opp : ArbOpportunity.t) (comp : bool) (parent : Z)
         (self : ArbExecutor.t),
    let out := ArbExecutor.open_triangle broker opp comp parent self in
    List.length (ArbExecutor.triangles (snd out)) = List.length (ArbExecutor.triangles self)
    /\ ArbExecutor.config (snd out) = ArbExecutor.config self
    /\ ArbExecutor.account_id (snd out) = ArbExecutor.account_id self
    /\ (exists trace, ArbExecutor.calls (snd out) = (ArbExecutor.calls self ++ trace)%list)
    /\ match fst out with
       | Py.Ok (Some slot) =>
           ArbExecutor.first_free (ArbExecutor.triangles self) 0 = Some slot
           /\ ArbExecutor.active_count (snd out) = S (ArbExecutor.active_count self)
           /\ exists tri,
               ArbExecutor.triangles (snd out) = <[slot := tri]> (ArbExecutor.triangles self)
               /\ ArbExecutor.triangles (snd out) !! slot = Some tri
               /\ ArbTriangle.active tri = true
               /\ List.length (ArbTriangle.tickets tri) = 3%nat
               /\ ArbTriangle.compensation tri = comp
               /\ ArbTriangle.parent_index tri = parent
               /\ ArbTriangle.direction tri = ArbOpportunity.direction opp
               /\ ArbTriangle.deviation tri = ArbOpportunity.deviation opp
       | _ => ArbExecutor.triangles (snd out) = ArbExecutor.triangles self
       end.
Proof.
  intros broker opp comp parent self. unfold ArbExecutor.open_triangle.
  assert (Hsame : forall r : Py.result (option nat),
             let out := (r, self) in
             List.length (ArbExecutor.triangles (snd out))
             = List.length (ArbExecutor.triangles self)
             /\ ArbExecutor.config (snd out) = ArbExecutor.config self
             /\ ArbExecutor.account_id (snd out) = ArbExecutor.account_id self
             /\ (exists trace,
                    ArbExecutor.calls (snd out) = (ArbExecutor.calls self ++ trace)%list)).
  { intros r. cbn. repeat split. exists []. now rewrite app_nil_r. }
  destruct (ArbExecutor.first_free (ArbExecutor.triangles self) 0) as [slot |] eqn:Hfree.
  2: { destruct (Hsame (Py.Ok None)) as (H1 & H2 & H3 & H4). cbn. auto. }
  destruct (ArbExecutor.order_symbols opp) as [symbols | e].
  2: { destruct (Hsame (Py.Raise e)) as (H1 & H2 & H3 & H4). cbn. auto. }
  destruct (ArbOpportunity.ticks opp) as [| t0 [| t1 [| t2 more]]];
    try (destruct (Hsame (Py.Raise "IndexError")) as (H1 & H2 & H3 & H4); cbn; now auto).
  destruct (ArbExecutor.sides_prices opp t0 t1 t2) as [sides prices].
  match goal with
  | |- context [ArbExecutor.place_legs ?b ?o ?c ?s ?sy ?l ?sd ?lg ?tk ?st] =>
      pose proof (place_legs_frame b o c s sy l sd lg tk st) as Hframe;
      destruct (ArbExecutor.place_legs b o c s sy l sd lg tk st) as [[placed |] self']
  end; cbn in Hframe; destruct Hframe as (Ht & Hc & Ha & Hl & Hn); cbn.
  - destruct (first_free_inactive _ _ _ Hfree) as (old & Hold & Hinact).
    rewrite Nat.sub_0_r in Hold.
    rewrite Ht.
    match goal with
    | |- context [<[slot := ?x]> _] => set (tri := x)
    end.
    split; [apply length_insert |]. split; [exact Hc |]. split; [exact Ha |].
    split; [exact Hl |]. split; [reflexivity |]. split.
    + pose proof (active_count_insert _ slot old tri Hold) as Hcount.
      rewrite Hinact in Hcount. change (ArbTriangle.active tri) with true in Hcount.
      rewrite Nat.add_0_r, Nat.add_1_r in Hcount. exact Hcount.
    + exists tri. split; [reflexivity |].
      split; [apply list_lookup_insert_eq; now apply lookup_lt_Some in Hold |].
      cbn. repeat split. exact (Hn placed eq_refl).
  - rewrite Ht. repeat split; assumption.
Qed.

(** A ticket needs a cancel request when it is non-empty and not a paper
    ticket. *)
Lemma close_tickets_frame (broker : Broker.t) (tickets : list string) (self : ArbExecutor.t) :
  let self' := ArbExecutor.close_tickets broker tickets self in
  ArbExecutor.triangles self' = ArbExecutor.triangles self
  /\ ArbExecutor.config self' = ArbExecutor.config self
  /\ ArbExecutor.account_id self' = ArbExecutor.account_id self
  /\ ArbExecutor.calls self'
     = (ArbExecutor.calls self
        ++ List.map (Broker.CancelOrder (ArbExecutor.account_id self))
             (List.filter (fun t => Py.truthy t && negb (Py.startswith t "PAPER_")) tickets))%list.
Proof.
  revert self. induction tickets as [| ticket tickets IH]; intros self;
    cbn [ArbExecutor.close_tickets List.filter].
  - cbn. repeat split. now rewrite app_nil_r.
  - destruct (Py.truthy ticket); cbn [andb]; [| apply IH].
    destruct (close_position_frame broker ticket self) as (Ht & Hc & Ha & _ & Hl).
    cbn in Ht, Hc, Ha, Hl.
    destruct (IH (ArbExecutor.sleep 0.3 (snd (ArbExecutor.close_position broker ticket self))))
      as (Ht' & Hc' & Ha' & Hl').
    cbn in Ht', Hc', Ha', Hl'. cbn zeta.
    rewrite Ht', Hc', Ha', Hl', Ht, Hc, Ha, Hl.
    repeat split.
    destruct (Py.startswith ticket "PAPER_"); cbn; now rewrite <- app_assoc.
Qed.

Lemma nth_error_lookup {A : Type} (l : list A) (i : nat) : nth_error l i = l !! i.
Proof. revert i. induction l as [| a l IH]; intros [| i]; cbn; auto. Qed.

Lemma getitem_spec {A : Type} (l : list A) (i : Z) (pos : nat) (a : A) :
  Py.getitem l i = Some (pos, a) ->
  l !! pos = Some a
  /\ pos = Z.to_nat (if Z.ltb i 0 then i + Z.of_nat (List.length l) else i)
  /\ (- Z.of_nat (List.length l) <= i < Z.of_nat (List.length l))%Z.
Proof.
  unfold Py.getitem.
  set (p := if Z.ltb i 0 then (i + Z.of_nat (List.length l))%Z else i).
  destruct (Z.ltb p 0) eqn:Hneg; [discriminate |]. apply Z.ltb_ge in Hneg.
  destruct (nth_error l (Z.to_nat p)) as [x |] eqn:Hnth; [| discriminate].
  intros [= <- <-]. rewrite nth_error_lookup in Hnth. split; [exact Hnth |].
  split; [reflexivity |]. apply lookup_lt_Some in Hnth. subst p.
  destruct (Z.ltb i 0) eqn:Hi; [apply Z.ltb_lt in Hi | apply Z.ltb_ge in Hi]; lia.
Qed.

Lemma getitem_in_range {A : Type} (l : list A) (i : Z) :
  (- Z.of_nat (List.length l) <= i < Z.of_nat (List.length l))%Z ->
  exists a,
    Py.getitem l i
    = Some (Z.to_nat (if Z.ltb i 0 then i + Z.of_nat (List.length l) else i), a).
Proof.
  intros Hi. unfold Py.getitem.
  set (p := if Z.ltb i 0 then (i + Z.of_nat (List.length l))%Z else i).
  assert (Hp : (0 <= p < Z.of_nat (List.length l))%Z).
  { subst p. destruct (Z.ltb i 0) eqn:Hneg;
      [apply Z.ltb_lt in Hneg | apply Z.ltb_ge in Hneg]; lia. }
  destruct (Z.ltb p 0) eqn:Hneg; [apply Z.ltb_lt in Hneg; lia |].
  destruct (lookup_lt_is_Some_2 l (Z.to_nat p)) as [a Ha]; [lia |].
  rewrite nth_error_lookup, Ha. now exists a.
Qed.

Lemma getitem_out_of_range {A : Type} (l : list A) (i : Z) :
  (i < - Z.of_nat (List.length l))%Z -> Py.getitem l i = None.
Proof.
  intros Hi. unfold Py.getitem.
  assert (Z.ltb i 0 = true) as -> by (apply Z.ltb_lt; lia).
  assert (Z.ltb (i + Z.of_nat (List.length l)) 0 = true) as -> by (apply Z.ltb_lt; lia).
  reflexivity.
Qed.

(** Closing an active slot, reached by a non-negative or a negative index. *)
Lemma close_triangle_active (broker : Broker.t) (index : Z) (self : ArbExecutor.t)
    (pos : nat) (tri : ArbTriangle.t) :
  Py.getitem (ArbExecutor.triangles self) index = Some (pos, tri) ->
  ArbTriangle.active tri = true ->
  let out := ArbExecutor.close_triangle broker index self in
  fst out = Py.Ok tt
  /\ ArbExecutor.triangles (snd out)
     = <[pos := ArbExecutor.deactivate tri]> (ArbExecutor.triangles self)
  /\ S (ArbExecutor.active_count (snd out)) = ArbExecutor.active_count self
  /\ ArbExecutor.calls (snd out)
     = (ArbExecutor.calls self
        ++ List.map (Broker.CancelOrder (ArbExecutor.account_id self))
             (List.filter (fun t => Py.truthy t && negb (Py.startswith t "PAPER_"))
                (ArbTriangle.tickets tri)))%list.
Proof.
  intros Hget Hact. destruct (getitem_spec _ _ _ _ Hget) as (Hl & _ & Hrange).
  unfold ArbExecutor.close_triangle.
  assert (Z.geb index (Z.of_nat (List.length (ArbExecutor.triangles self))) = false) as ->
    by (rewrite Z.geb_leb; apply Z.leb_gt; lia).
  rewrite Hget, Hact. cbn [negb].
  destruct (close_tickets_frame broker (ArbTriangle.tickets tri) self) as (Ht & Hc & Ha & Hcalls).
  cbn zeta in Ht, Hc, Ha, Hcalls. cbn zeta.
  set (self1 := ArbExecutor.close_tickets broker (ArbTriangle.tickets tri) self) in *.
  cbn [fst snd ArbExecutor.set_triangles ArbExecutor.triangles ArbExecutor.calls]. rewrite Ht.
  split; [reflexivity |]. split; [reflexivity |]. split; [| exact Hcalls].
  unfold ArbExecutor.active_count. cbn [ArbExecutor.triangles].
  pose proof (active_count_insert _ pos tri (ArbExecutor.deactivate tri) Hl) as Hcount.
  rewrite Hact in Hcount. change (ArbTriangle.active (ArbExecutor.deactivate tri)) with false in Hcount.
  rewrite Nat.add_0_r, Nat.add_1_r in Hcount. exact Hcount.
Qed.

(** What [close_triangle] does for every int [index], whatever the broker
    answers.  From the length of the slot table upwards it changes nothing.
    A negative index is not stopped by the guard: down to minus the length
    it addresses the slot counted from the end, below that the call raises
    IndexError with nothing changed.  On the slot addressed, if it is
    inactive nothing changes; if it is active, one CancelOrder is sent for
    every ticket that is neither empty nor a paper ticket, in order and
    regardless of the replies, and nothing else, the slot keeps its triangle
    with [active] and [compensation] cleared, so one slot fewer is active,
    and closing the same index again changes nothing. *)
Theorem close_triangle_outcome :
  forall (broker broker' : Broker.t) (index : Z) (self : ArbExecutor.t),
    let len := Z.of_nat (List.length (ArbExecutor.triangles self)) in
    let out := ArbExecutor.close_triangle broker index self in
    ((len <= index)%Z -> out = (Py.Ok tt, self))
    /\ ((index < - len)%Z -> out = (Py.Raise "IndexError", self))
    /\ ((- len <= index < len)%Z ->
        let pos := Z.to_nat (if Z.ltb index 0 then index + len else index) in
        exists tri,
          ArbExecutor.triangles self !! pos = Some tri
          /\ if ArbTriangle.active tri then
               fst out = Py.Ok tt
               /\ ArbExecutor.triangles (snd out)
                  = <[pos := ArbExecutor.deactivate tri]> (ArbExecutor.triangles self)
               /\ S (ArbExecutor.active_count (snd out)) = ArbExecutor.active_count self
               /\ ArbExecutor.calls (snd out)
                  = (ArbExecutor.calls self
                     ++ List.map (Broker.CancelOrder (ArbExecutor.account_id self))
                          (List.filter
                             (fun t => Py.truthy t && negb (Py.startswith t "PAPER_"))
                             (ArbTriangle.tickets tri)))%list
               /\ ArbExecutor.close_triangle broker' index (snd out) = (Py.Ok tt, snd out)
             else out = (Py.Ok tt, self)).
Proof.
  intros broker broker' index self len out. split; [| split].
  - intros Hge. unfold out, ArbExecutor.close_triangle.
    assert (Z.geb index (Z.of_nat (List.length (ArbExecutor.triangles self))) = true) as ->
      by (rewrite Z.geb_leb; apply Z.leb_le; exact Hge).
    reflexivity.
  - intros Hlt. unfold out, ArbExecutor.close_triangle.
    assert (Z.geb index (Z.of_nat (List.length (ArbExecutor.triangles self))) = false) as ->
      by (rewrite Z.geb_leb; apply Z.leb_gt; fold len; lia).
    now rewrite getitem_out_of_range.
  - intros Hrange pos. destruct (getitem_in_range _ index Hrange) as [tri Hget].
    fold len pos in Hget. destruct (getitem_spec _ _ _ _ Hget) as (Hl & _ & _).
    exists tri. split; [exact Hl |].
    assert (Hguard : Z.geb index (Z.of_nat (List.length (ArbExecutor.triangles self))) = false)
      by (rewrite Z.geb_leb; apply Z.leb_gt; fold len; lia).
    destruct (ArbTriangle.active tri) eqn:Hact.
    + destruct (close_triangle_active broker index self pos tri Hget Hact)
        as (Hok & Ht & Hcount & Hcalls).
      fold out in Hok, Ht, Hcount, Hcalls.
      split; [exact Hok |]. split; [exact Ht |]. split; [exact Hcount |].
      split; [exact Hcalls |].
      assert (Hlen : List.length (ArbExecutor.triangles (snd out))
                     = List.length (ArbExecutor.triangles self))
        by (rewrite Ht; apply length_insert).
      assert (Hget' : Py.getitem (ArbExecutor.triangles (snd out)) index
                      = Some (pos, ArbExecutor.deactivate tri)).
      { unfold Py.getitem. rewrite Hlen. fold len.
        unfold Py.getitem in Hget. fold len in Hget.
        destruct (Z.ltb (if Z.ltb index 0 then (index + len)%Z else index) 0);
          [discriminate |].
        fold pos. rewrite nth_error_lookup, Ht.
        rewrite list_lookup_insert_eq by (now apply lookup_lt_Some in Hl). reflexivity. }
      unfold ArbExecutor.close_triangle. rewrite Hlen, Hguard, Hget'. reflexivity.
    + unfold out, ArbExecutor.close_triangle. rewrite Hguard, Hget, Hact. reflexivity.
Qed.

(** On a table of two slots with the last one active: index -1 closes the
    last slot, index -3 raises IndexError, index 2 does nothing. *)
Example close_triangle_from_the_end :
  (let out := ArbExecutor.close_triangle Samples.third_fails (-1) Samples.two_slots in
   fst out = Py.Ok tt
   /\ List.map ArbTriangle.active (ArbExecutor.triangles (snd out)) = [false; false]
   /\ ArbExecutor.calls (snd out) = [Broker.CancelOrder "ACC" "ID0"])
  /\ ArbExecutor.close_triangle Samples.third_fails (-3) Samples.two_slots
     = (Py.Raise "IndexError", Samples.two_slots)
  /\ ArbExecutor.close_triangle Samples.third_fails 2 Samples.two_slots
     = (Py.Ok tt, Samples.two_slots).
Proof. repeat split. Qed.

Lemma startswith_paper (x : string) : Py.startswith ("PAPER_" ++ x) "PAPER_" = true.
Proof. unfold Py.startswith. cbn. destruct x; reflexivity. Qed.

Lemma truthy_paper (x : string) : Py.truthy ("PAPER_" ++ x) = true.
Proof. reflexivity. Qed.

Lemma place_legs_paper (broker : Broker.t) (opp : ArbOpportunity.t) (comp : bool)
    (slot : nat) (symbols : list string) (lots : list Q) (sides : list Broker.Side)
    (legs : list nat) (tickets : list string) (self : ArbExecutor.t) :
  ArbConfig.PaperTrading (ArbExecutor.config self) = true ->
  exists placed,
    ArbExecutor.place_legs broker opp comp slot symbols lots sides legs tickets self
    = (Some (tickets ++ placed)%list, self)
    /\ List.Forall (fun t => Py.startswith t "PAPER_" = true) placed
    /\ List.length placed = List.length legs.
Proof.
  intros Hpaper. revert tickets.
  induction legs as [| i legs IH]; intros tickets; cbn [ArbExecutor.place_legs].
  - exists []. rewrite app_nil_r. repeat split. constructor.
  - rewrite Hpaper.
    match goal with
    | |- context [ArbExecutor.place_legs _ _ _ _ _ _ _ legs (tickets ++ [?tk])%list self] =>
        destruct (IH (tickets ++ [tk])%list) as (placed & Hp & Hall & Hlen);
        exists (tk :: placed)
    end.
    rewrite Hp, <- app_assoc. split; [reflexivity |].
    split; [constructor; [apply startswith_paper | exact Hall] | cbn; now rewrite Hlen].
Qed.

(** Paper trading never reaches the broker.  With a free slot and ticks
    whose symbols resolve, [open_triangle] in paper mode succeeds on the
    first free slot with three PAPER_ tickets and sends nothing; closing
    that slot afterwards sends nothing either and brings the number of
    active slots back to where it was. *)
Theorem paper_open_close :
  forall (broker broker' : Broker.t) (opp : ArbOpportunity.t) (comp : bool) (parent : Z)
         (self : ArbExecutor.t) (slot : nat) (symbols : list string),
    ArbConfig.PaperTrading (ArbExecutor.config self) = true ->
    ArbExecutor.first_free (ArbExecutor.triangles self) 0 = Some slot ->
    ArbExecutor.order_symbols opp = Py.Ok symbols ->
    let out := ArbExecutor.open_triangle broker opp comp parent self in
    let closing := ArbExecutor.close_triangle broker' (Z.of_nat slot) (snd out) in
    let closed := snd closing in
    fst out = Py.Ok (Some slot)
    /\ fst closing = Py.Ok tt
    /\ ArbExecutor.calls (snd out) = ArbExecutor.calls self
    /\ (exists tri,
          ArbExecutor.triangles (snd out) !! slot = Some tri
          /\ ArbTriangle.active tri = true
          /\ List.length (ArbTriangle.tickets tri) = 3%nat
          /\ List.Forall (fun t => Py.startswith t "PAPER_" = true) (ArbTriangle.tickets tri))
    /\ ArbExecutor.calls closed = ArbExecutor.calls self
    /\ ArbExecutor.active_count closed = ArbExecutor.active_count self.
Proof.
  intros broker broker' opp comp parent self slot symbols Hpaper Hfree Hsym out closing closed.
  destruct (first_free_inactive _ _ _ Hfree) as (old & Hold & Hinact).
  rewrite Nat.sub_0_r in Hold.
  assert (Hlt : (slot < List.length (ArbExecutor.triangles self))%nat)
    by now apply lookup_lt_Some in Hold.
  assert (Hout : exists tri,
             out = (Py.Ok (Some slot),
                    ArbExecutor.set_triangles (<[slot := tri]> (ArbExecutor.triangles self)) self)
             /\ ArbTriangle.active tri = true
             /\ List.length (ArbTriangle.tickets tri) = 3%nat
             /\ List.Forall (fun t => Py.startswith t "PAPER_" = true) (ArbTriangle.tickets tri)).
  { unfold out, ArbExecutor.open_triangle. rewrite Hfree, Hsym.
    unfold ArbExecutor.order_symbols in Hsym.
    destruct (ArbOpportunity.ticks opp) as [| t0 [| t1 [| t2 more]]]; try discriminate.
    destruct (ArbExecutor.sides_prices opp t0 t1 t2) as [sides prices].
    match goal with
    | |- context [ArbExecutor.place_legs ?b ?o ?c ?s ?sy ?l ?sd ?lg ?tk ?st] =>
        destruct (place_legs_paper b o c s sy l sd lg tk st Hpaper)
          as (placed & Hp & Hall & Hlen)
    end.
    rewrite Hp. cbn [app]. eexists. split; [reflexivity |]. cbn. auto. }
  destruct Hout as (tri & Hout & Hact & Hlen & Hall).
  assert (Hlook : ArbExecutor.triangles (snd out) !! slot = Some tri).
  { rewrite Hout. cbn. now apply list_lookup_insert_eq. }
  assert (Hget : Py.getitem (ArbExecutor.triangles (snd out)) (Z.of_nat slot)
                 = Some (slot, tri)).
  { unfold Py.getitem. cbv zeta.
    assert (Hpos : Z.ltb (Z.of_nat slot) 0 = false) by (apply Z.ltb_ge; lia).
    rewrite !Hpos, Nat2Z.id, nth_error_lookup, Hlook. reflexivity. }
  pose proof (close_triangle_active broker' (Z.of_nat slot) (snd out) slot tri Hget Hact)
    as Hclose.
  cbv zeta in Hclose. fold closing closed in Hclose.
  destruct Hclose as (Hok & _ & Hcount & Hcalls).
  split; [now rewrite Hout |]. split; [exact Hok |]. split; [now rewrite Hout |].
  split; [exists tri; auto |].
  split.
  - rewrite Hcalls.
    assert (Hnone : List.filter (fun t => Py.truthy t && negb (Py.startswith t "PAPER_"))
                      (ArbTriangle.tickets tri) = []).
    { clear -Hall. induction Hall as [| t ts Ht _ IH]; [reflexivity |].
      cbn. now rewrite Ht, andb_false_r. }
    rewrite Hnone, app_nil_r. now rewrite Hout.
  - assert (Hopen : ArbExecutor.active_count (snd out) = S (ArbExecutor.active_count self)).
    { rewrite Hout. unfold ArbExecutor.active_count. cbn.
      pose proof (active_count_insert _ slot old tri Hold) as Hc.
      rewrite Hinact, Hact, Nat.add_0_r, Nat.add_1_r in Hc. exact Hc. }
    lia.
Qed.

Lemma paper_open_close_witness :
  fst (ArbExecutor.open_triangle Samples.third_fails Samples.opportunity false (-1)
         Samples.paper_executor) = Py.Ok (Some 0%nat)
  /\ ArbExecutor.calls
       (snd (ArbExecutor.close_triangle Samples.third_fails 0
               (snd (ArbExecutor.open_triangle Samples.third_fails Samples.opportunity false
                       (-1) Samples.paper_executor)))) = [].
Proof.
  pose proof (paper_open_close Samples.third_fails Samples.third_fails Samples.opportunity
                false (-1) Samples.paper_executor 0%nat
                ["USD000000TOD@CETS"; "EUR_RUB__TOD@CETS"; "EUR_RUB__TOD@CETS"]
                eq_refl eq_refl eq_refl) as H.
  cbv zeta in H. destruct H as (H1 & _ & _ & _ & H2 & _). split; [exact H1 | exact H2].
Defined.

(** ** The quote cache as the scanner sees it *)

Lemma handle_keeps_keys (self : ArbMonitor.t) (u : ArbMonitor.Quote * Q) :
  (forall symbol tick, ArbMonitor.ticks self !! symbol = Some tick ->
                       ArbTick.symbol tick = symbol) ->
  forall symbol tick, ArbMonitor.ticks (ArbMonitor.handle self u) !! symbol = Some tick ->
                      ArbTick.symbol tick = symbol.
Proof.
  intros Hinv symbol tick. unfold ArbMonitor.handle. cbn [ArbMonitor.ticks].
  rewrite lookup_insert. case_decide as Hk.
  - intros [= <-]. exact Hk.
  - apply Hinv.
Qed.

(** After any sequence of quote messages on a fresh monitor: every cached
    tick is stored under its own symbol; the cached symbols are exactly the
    symbols that occurred; [updates] counts every entry handled, so the
    number of cached symbols never exceeds it. *)
Theorem monitor_cache_invariant :
  forall (batches : list (list (ArbMonitor.Quote * Q))),
    let monitor := fold_left ArbMonitor._handler batches ArbMonitor.init in
    (forall symbol tick, ArbMonitor.ticks monitor !! symbol = Some tick ->
                         ArbTick.symbol tick = symbol)
    /\ dom (ArbMonitor.ticks monitor)
       = list_to_set (List.map (fun u => ArbMonitor.q_symbol (fst u)) (concat batches))
    /\ ArbMonitor.updates monitor = Z.of_nat (List.length (concat batches))
    /\ (Z.of_nat (size (ArbMonitor.ticks monitor)) <= ArbMonitor.updates monitor)%Z.
Proof.
  intros batches monitor. unfold monitor. rewrite handler_concat.
  generalize (concat batches) as updates. clear.
  induction updates as [| u updates IH] using rev_ind.
  - cbn. repeat split; try reflexivity; try lia.
    intros symbol tick H. rewrite lookup_empty in H. discriminate.
  - rewrite fold_left_app. cbn [fold_left].
    destruct IH as (Hkeys & Hdom & Hupd & Hsize).
    set (m := fold_left ArbMonitor.handle updates ArbMonitor.init) in *.
    split; [now apply handle_keeps_keys |].
    assert (Hlen : ArbMonitor.updates (ArbMonitor.handle m u)
                   = Z.of_nat (List.length (updates ++ [u]))).
    { unfold ArbMonitor.handle. cbn [ArbMonitor.updates].
      rewrite Hupd, length_app. cbn. lia. }
    split; [| split; [exact Hlen |]].
    + unfold ArbMonitor.handle. cbn [ArbMonitor.ticks].
      rewrite dom_insert_L, Hdom, List.map_app. cbn [List.map].
      rewrite list_to_set_snoc_L. apply union_comm_L.
    + rewrite Hlen, length_app. cbn. rewrite Hupd in Hsize.
      unfold ArbMonitor.handle. cbn [ArbMonitor.ticks].
      rewrite map_size_insert.
      destruct (ArbMonitor.ticks m !! _); cbn; lia.
Qed.

Lemma collect_ticks_spec (monitor : ArbMonitor.t) (currencies : list string)
    (ticks : list ArbTick.t) :
  ArbitrageApp.collect_ticks monitor currencies = Some ticks <->
  List.Forall2 (fun currency tick => ArbMonitor.get_tick monitor currency = Some tick
                                     /\ ArbTick.is_valid tick = true)
               currencies ticks.
Proof.
  revert ticks. induction currencies as [| c cs IH]; intros ticks; cbn.
  - split; [intros [= <-]; constructor | intros H; inversion H; reflexivity].
  - destruct (ArbMonitor.get_tick monitor c) as [tick |] eqn:Hg.
    + destruct (ArbTick.is_valid tick) eqn:Hv; cbn.
      * destruct (ArbitrageApp.collect_ticks monitor cs) as [rest |].
        -- split.
           ++ intros [= <-]. constructor; [auto | now apply IH].
           ++ intros H. inversion H as [| ? t ? ts [Ht _] Hrest]; subst.
              apply IH in Hrest. congruence.
        -- split; [discriminate |].
           intros H. inversion H as [| ? t ? ts _ Hrest]; subst.
           apply IH in Hrest. discriminate.
      * split; [discriminate |].
        intros H. inversion H as [| ? t ? ts [Ht Hvt] _]; subst. congruence.
    + split; [discriminate |].
      intros H. inversion H as [| ? t ? ts [Ht _] _]; subst. congruence.
Qed.

(** The ticks [get_ticks_for_triangle] hands to the scanner, for a
    configured triangle: three of them, each the cached tick of its currency
    and valid.  As each configured triangle names one currency twice, the
    three legs are quotes of only two instruments: legs 1 and 2 coincide for
    the multiplication triangles (0..2), legs 0 and 2 for the division
    triangles (3..5). *)
Theorem get_ticks_for_triangle_some :
  forall (monitor : ArbMonitor.t) (tri_type : nat) (ticks : list ArbTick.t),
    (tri_type < List.length ArbConfig.ARB_TRIANGLE_PAIRS)%nat ->
    ArbitrageApp.get_ticks_for_triangle monitor tri_type = Some ticks ->
    forallb ArbTick.is_valid ticks = true
    /\ List.Forall2 (fun currency tick => ArbMonitor.get_tick monitor currency = Some tick)
         (nth tri_type ArbConfig.ARB_TRIANGLE_PAIRS []) ticks
    /\ exists a b, if Nat.ltb tri_type 3 then ticks = [a; b; b] else ticks = [a; b; a].
Proof.
  intros monitor tri_type ticks Htri H.
  unfold ArbitrageApp.get_ticks_for_triangle in H. apply collect_ticks_spec in H.
  split; [| split].
  - apply forallb_forall. intros t Ht.
    clear -H Ht. induction H as [| c t' cs ts [_ Hv] _ IH]; [destruct Ht |].
    destruct Ht as [<- | Ht]; [exact Hv | now apply IH].
  - clear -H. induction H as [| c t cs ts [Hg _] _ IH]; constructor; assumption.
  - cbn in Htri.
    do 6 (destruct tri_type as [| tri_type]; [
      cbn in H;
      inversion H as [| c0 a cs0 ts0 [Ha _] H1]; subst;
      inversion H1 as [| c1 b cs1 ts1 [Hb _] H2]; subst;
      inversion H2 as [| c2 c cs2 ts2 [Hc _] H3]; subst;
      inversion H3; subst;
      exists a, b; cbn; congruence |]).
    lia.
Qed.

Lemma get_ticks_for_triangle_some_witness :
  exists a b, ArbitrageApp.get_ticks_for_triangle Samples.fed_monitor 0 = Some [a; b; b]
              /\ ArbTick.bid a == 79.60 /\ ArbTick.bid b == 85.10.
Proof.
  destruct (ArbitrageApp.get_ticks_for_triangle Samples.fed_monitor 0) as [ticks |] eqn:H;
    [| vm_compute in H; discriminate].
  destruct (get_ticks_for_triangle_some Samples.fed_monitor 0 ticks) as (_ & _ & a & b & Hab);
    [cbn; lia | exact H |].
  cbn in Hab. subst ticks. exists a, b. split; [reflexivity |].
  vm_compute in H. injection H as <- <- _. split; reflexivity.
Defined.

(** ** What the core scanner returns *)

Section CoreScannerSound.
Variable triangles_state : list ArbTriangle.t.
Variable get_ticks_func : nat -> option (list ArbTick.t).
Variable config : ArbConfig.t.

Lemma scan_triangle_sound (tri : nat) (o : ArbOpportunity.t) :
  (tri < List.length ArbConfig.ARB_TRIANGLE_PAIRS)%nat ->
  ArbCalculator.scan_triangle triangles_state get_ticks_func config tri = Py.Ok (Some o) ->
  Spec.sound triangles_state get_ticks_func config o.
Proof.
  intros Htri. unfold ArbCalculator.scan_triangle, Spec.sound.
  destruct (existsb _ _) eqn:Hact; [discriminate |].
  destruct (get_ticks_func tri) as [[| u ticks] |] eqn:Hget; try discriminate.
  destruct (forallb _ _) eqn:Hvalid; [| discriminate].
  destruct (ArbCalculator.check_spreads _ _) eqn:Hsp; [| discriminate]. cbn [negb].
  destruct (ArbCalculator.calc_deviations _ _) as [[[dev_buy dev_sell] sig] |] eqn:Hdev;
    [| discriminate].
  destruct (Py.gt dev_buy _) eqn:Hb.
  - intros [= <-].
    cbn [ArbOpportunity.triangle_type ArbOpportunity.ticks ArbOpportunity.deviation
           ArbOpportunity.direction ArbOpportunity.signal_type].
    rewrite Hact, Hget, Hdev. apply gt_true in Hb.
    repeat split; try assumption. exists dev_buy, dev_sell. split; [reflexivity |].
    left. split; reflexivity.
  - destruct (Py.gt dev_sell _) eqn:Hs; [| discriminate].
    intros [= <-].
    cbn [ArbOpportunity.triangle_type ArbOpportunity.ticks ArbOpportunity.deviation
           ArbOpportunity.direction ArbOpportunity.signal_type].
    rewrite Hact, Hget, Hdev. apply gt_true in Hs. apply gt_false in Hb.
    repeat split; try assumption. exists dev_buy, dev_sell. split; [reflexivity |].
    right. repeat split. exact Hb.
Qed.

Lemma scan_triangle_ok (tri : nat) :
  (tri < List.length ArbConfig.ARB_TRIANGLE_PAIRS)%nat ->
  exists r, ArbCalculator.scan_triangle triangles_state get_ticks_func config tri = Py.Ok r.
Proof.
  intros Htri. unfold ArbCalculator.scan_triangle.
  destruct (existsb _ _); [eauto |].
  destruct (get_ticks_func tri) as [[| u ticks] |]; eauto.
  destruct (negb (forallb _ _)); [eauto |].
  destruct (negb (ArbCalculator.check_spreads _ _)); [eauto |].
  assert (Hdev : exists d, ArbCalculator.calc_deviations tri (u :: ticks) = Py.Ok d).
  { unfold ArbCalculator.calc_deviations.
    destruct ticks as [| t1 [| t2 [| t3 more]]]; eauto.
    destruct (nth_error ArbConfig.ARB_TRIANGLE_FORMULAS tri) as [f |] eqn:Hf.
    - destruct (Z.eqb f 0); eauto.
    - apply nth_error_None in Hf. cbn in Hf, Htri. lia. }
  destruct Hdev as ([[dev_buy dev_sell] sig] & ->).
  destruct (Py.gt dev_buy _); [eauto |]. destruct (Py.gt dev_sell _); eauto.
Qed.

Lemma scan_all_ok (tris : list nat) :
  List.Forall (fun tri => (tri < List.length ArbConfig.ARB_TRIANGLE_PAIRS)%nat) tris ->
  exists os, ArbCalculator.scan_all triangles_state get_ticks_func config tris = Py.Ok os
             /\ (List.length os <= List.length tris)%nat.
Proof.
  induction 1 as [| tri tris Htri _ (os & IH & Hlen)]; cbn.
  - exists []. split; [reflexivity | cbn; lia].
  - destruct (scan_triangle_ok tri Htri) as (r & ->). rewrite IH.
    eexists. split; [reflexivity |]. destruct r; cbn; lia.
Qed.

End CoreScannerSound.

Lemma increasing_NoDup {A : Type} (id : A -> nat) (l : list A) :
  StronglySorted (fun a b => (id a < id b)%nat) l -> List.NoDup (List.map id l).
Proof.
  induction 1 as [| x l _ IH Hx]; cbn; constructor; [| exact IH].
  intros Hin. apply in_map_iff in Hin as (y & Heq & Hy).
  rewrite List.Forall_forall in Hx. specialize (Hx y Hy). lia.
Qed.

(** The core scanner never raises, and what it returns can be relied on:
    at most one opportunity per configured triangle (so at most six); each
    for a template with no active instance, carrying the ticks the tick
    source gave for it, all valid and within the spread limit, with a signed
    deviation strictly above MinDeviation that is [dev_buy] for direction 1
    and [dev_sell] for direction -1 (taken only when [dev_buy] did not
    qualify); and some opportunity is returned only while fewer than
    MaxTriangles triangles are active.  With a non-negative MinDeviation
    every opportunity has exactly three ticks, is [is_profitable] and passes
    the test [abs(best.deviation) >= MinDeviation] of the main loop. *)
Theorem core_scan_sound :
  forall (triangles_state : list ArbTriangle.t)
         (get_ticks_func : nat -> option (list ArbTick.t)) (config : ArbConfig.t),
  exists opps,
    ArbCalculator.find_opportunities triangles_state get_ticks_func config = Py.Ok opps
    /\ List.NoDup (List.map ArbOpportunity.triangle_type opps)
    /\ (List.length opps <= 6)%nat
    /\ (opps <> [] ->
        (Z.of_nat (List.length (List.filter ArbTriangle.active triangles_state))
         < ArbConfig.MaxTriangles config)%Z)
    /\ (forall o, In o opps ->
          Spec.sound triangles_state get_ticks_func config o
          /\ (0 <= ArbConfig.MinDeviation config ->
              List.length (ArbOpportunity.ticks o) = 3%nat
              /\ ArbOpportunity.is_profitable o = true
              /\ Py.ge (Qabs (ArbOpportunity.deviation o)) (ArbConfig.MinDeviation config)
                 = true)).
Proof.
  intros st get cfg. unfold ArbCalculator.find_opportunities.
  destruct (Z.leb _ _) eqn:Hfull.
  - exists []. split; [reflexivity |]. split; [constructor |]. split; [cbn; lia |].
    split; [congruence | intros o []].
  - apply Z.leb_gt in Hfull.
    destruct (scan_all_ok st get cfg (seq 0 (List.length ArbConfig.ARB_TRIANGLE_PAIRS)))
      as (os & Hos & Hlen).
    { rewrite List.Forall_forall. intros tri Hin. apply in_seq in Hin. lia. }
    rewrite Hos. eexists. split; [reflexivity |].
    set (key := fun x : ArbOpportunity.t => Qabs (ArbOpportunity.deviation x)).
    split; [| split; [| split; [intros _; lia |]]].
    + eapply Permutation_NoDup.
      * apply Permutation_map. symmetry. apply sort_desc_perm.
      * apply increasing_NoDup.
        eapply scan_all_increasing; [exact Hos | apply seq_increasing].
    + rewrite (Permutation_length (sort_desc_perm key os)).
      rewrite length_seq in Hlen. exact Hlen.
    + intros o Hin. apply (proj1 (sort_desc_In _ _ _)) in Hin.
      apply (scan_all_In _ _ _ _ _ Hos) in Hin as (tri & Htri & Hscan).
      apply in_seq in Htri.
      assert (Hsound : Spec.sound st get cfg o)
        by (eapply scan_triangle_sound; [| exact Hscan]; lia).
      split; [exact Hsound |]. intros Hmin.
      destruct Hsound as (_ & _ & _ & _ & _ & Hdev & dev_buy & dev_sell & Hcalc & Hdir).
      assert (Hpos : 0 < ArbOpportunity.deviation o) by (eapply Qle_lt_trans; eassumption).
      assert (Habs : Qabs (ArbOpportunity.deviation o) == ArbOpportunity.deviation o)
        by (apply Qabs_pos; now apply Qlt_le_weak).
      split; [| split].
      * unfold ArbCalculator.calc_deviations in Hcalc.
        destruct (ArbOpportunity.ticks o) as [| t0 [| t1 [| t2 [| t3 more]]]];
          try reflexivity; injection Hcalc as <- <- _;
          destruct Hdir as [[_ Hd] | [_ [Hd _]]]; rewrite Hd in Hpos;
          exfalso; revert Hpos; apply Qlt_irrefl.
      * unfold ArbOpportunity.is_profitable. apply gt_true. now rewrite Habs.
      * apply ge_true. rewrite Habs. now apply Qlt_le_weak.
Qed.

(** ** A scan step of the application *)

Lemma handler_keys (batches : list (list (ArbMonitor.Quote * Q))) (symbol : string)
    (tick : ArbTick.t) :
  ArbMonitor.ticks (fold_left ArbMonitor._handler batches ArbMonitor.init) !! symbol
  = Some tick ->
  ArbTick.symbol tick = symbol.
Proof.
  rewrite handler_concat. generalize (concat batches) as updates. intros updates.
  revert symbol tick. induction updates as [| u updates IH] using rev_ind.
  - intros symbol tick H. cbn in H. rewrite lookup_empty in H. discriminate.
  - rewrite fold_left_app. cbn [fold_left]. now apply handle_keeps_keys.
Qed.

(** No configured symbol, cut at its ['@'], is a currency code. *)
Lemma before_at_not_key (currency symbol : string) :
  ArbConfig.currency_pair currency = Some symbol ->
  ArbConfig.currency_pair (Py.before_at symbol) = None.
Proof.
  unfold ArbConfig.currency_pair at 1. unfold ArbConfig.ARB_CURRENCY_PAIRS.
  cbn [List.find fst].
  repeat (destruct (String.eqb _ currency);
          [intros H; cbv in H; injection H as <-; reflexivity |]).
  discriminate.
Qed.

Lemma find_opportunities_In triangles_state get_ticks_func config
    (opps : list ArbOpportunity.t) (o : ArbOpportunity.t) :
  ArbCalculator.find_opportunities triangles_state get_ticks_func config = Py.Ok opps ->
  In o opps ->
  Spec.sound triangles_state get_ticks_func config o.
Proof.
  unfold ArbCalculator.find_opportunities.
  destruct (Z.leb _ _); [intros [= <-] [] |].
  destruct (ArbCalculator.scan_all _ _ _ _) as [os |] eqn:Hos; [| discriminate].
  intros [= <-] Hin. apply (proj1 (sort_desc_In _ _ _)) in Hin.
  apply (scan_all_In _ _ _ _ _ Hos) in Hin as (tri & Htri & Hscan).
  apply in_seq in Htri. eapply scan_triangle_sound; [| exact Hscan]. lia.
Qed.

Lemma find_opportunities_ok triangles_state get_ticks_func config :
  exists opps,
    ArbCalculator.find_opportunities triangles_state get_ticks_func config = Py.Ok opps.
Proof.
  unfold ArbCalculator.find_opportunities. destruct (Z.leb _ _); [eauto |].
  destruct (scan_all_ok triangles_state get_ticks_func config
              (seq 0 (List.length ArbConfig.ARB_TRIANGLE_PAIRS))) as (os & -> & _);
    [| eauto].
  rewrite List.Forall_forall. intros tri Hin. apply in_seq in Hin. lia.
Qed.

(** An opportunity built on cached ticks cannot be opened: the symbols of
    its ticks are exchange symbols, not currency codes. *)
Lemma order_symbols_of_cached (batches : list (list (ArbMonitor.Quote * Q)))
    (tri : nat) (o : ArbOpportunity.t) :
  (tri < List.length ArbConfig.ARB_TRIANGLE_PAIRS)%nat ->
  ArbitrageApp.get_ticks_for_triangle
    (fold_left ArbMonitor._handler batches ArbMonitor.init) tri
  = Some (ArbOpportunity.ticks o) ->
  ArbExecutor.order_symbols o = Py.Raise "KeyError".
Proof.
  intros Htri H. unfold ArbitrageApp.get_ticks_for_triangle in H.
  apply collect_ticks_spec in H.
  assert (Hthree : exists c0 c1 c2, nth tri ArbConfig.ARB_TRIANGLE_PAIRS [] = [c0; c1; c2]).
  { cbn in Htri.
    do 6 (destruct tri as [| tri]; [cbn; eauto |]). lia. }
  destruct Hthree as (c0 & c1 & c2 & Hc). rewrite Hc in H.
  inversion H as [| ? t0 ? ts0 [Hg0 _] H1 E0 E1]; subst.
  inversion H1 as [| ? t1 ? ts1 _ H2]; subst.
  inversion H2 as [| ? t2 ? ts2 _ H3]; subst.
  inversion H3; subst.
  unfold ArbExecutor.order_symbols. rewrite <- E1.
  unfold ArbMonitor.get_tick in Hg0.
  destruct (ArbConfig.currency_pair c0) as [symbol |] eqn:Hsym; [| discriminate].
  destruct (Py.truthy symbol); [| discriminate].
  rewrite (handler_keys _ _ _ Hg0), (before_at_not_key _ _ Hsym). reflexivity.
Qed.

(** Fed by the quote monitor, a scan step of the application never trades:
    it leaves the executor exactly as it was (no order, no slot), whatever
    the quotes and the broker.  It ends normally when the scan finds nothing
    or no slot is free; whenever the scan finds an opportunity and a slot is
    free, [open_triangle] raises KeyError on the first tick symbol (the
    exchange symbol cut at ['@'] is not a key of ARB_CURRENCY_PAIRS) before
    any order is built, and the exception leaves the main loop. *)
Theorem scan_step_never_trades :
  forall (broker : Broker.t) (batches : list (list (ArbMonitor.Quote * Q)))
         (executor : ArbExecutor.t),
    let monitor := fold_left ArbMonitor._handler batches ArbMonitor.init in
    let out := ArbitrageAppRun.scan_step broker monitor executor in
    snd out = executor
    /\ exists opps,
        ArbCalculator.find_opportunities (ArbExecutor.triangles executor)
          (ArbitrageApp.get_ticks_for_triangle monitor) (ArbExecutor.config executor)
        = Py.Ok opps
        /\ fst out
           = match opps, ArbExecutor.first_free (ArbExecutor.triangles executor) 0 with
             | _ :: _, Some _ => Py.Raise "KeyError"
             | _, _ => Py.Ok tt
             end.
Proof.
  intros broker batches executor monitor out. unfold out, ArbitrageAppRun.scan_step.
  destruct (find_opportunities_ok (ArbExecutor.triangles executor)
              (ArbitrageApp.get_ticks_for_triangle monitor) (ArbExecutor.config executor))
    as (opps & Hopps).
  rewrite Hopps. destruct opps as [| best rest].
  - split; [reflexivity |]. exists []. split; reflexivity.
  - pose proof (find_opportunities_In _ _ _ _ best Hopps (or_introl eq_refl)) as Hsound.
    destruct Hsound as (Htri & _ & Hget & _ & _ & Hdev & _).
    assert (Hge : Py.ge (Qabs (ArbOpportunity.deviation best))
                    (ArbConfig.MinDeviation (ArbExecutor.config executor)) = true).
    { apply ge_true. eapply Qle_trans; [apply Qlt_le_weak; exact Hdev | apply Qle_Qabs]. }
    rewrite Hge.
    pose proof (order_symbols_of_cached batches _ best Htri Hget) as Hsym.
    unfold ArbExecutor.open_triangle. rewrite Hsym.
    destruct (ArbExecutor.first_free _ 0); cbn.
    + split; [reflexivity |]. eexists. split; reflexivity.
    + split; [reflexivity |]. eexists. split; reflexivity.
Qed.

(** On the tight quotes the scan does find an opportunity, and the step
    ends in KeyError. *)
Example scan_step_raises :
  fst (ArbitrageAppRun.scan_step Samples.accept_all
         (fold_left ArbMonitor._handler Samples.tight_batches ArbMonitor.init)
         Samples.executor) = Py.Raise "KeyError".
Proof. reflexivity. Qed.

(** ** The triangle catalogs *)

Lemma combinations2_distinct {A : Type} (l : list A) (a b : A) :
  List.NoDup l -> In (a, b) (Py.combinations2 l) -> a <> b /\ In a l /\ In b l.
Proof.
  induction l as [| x l IH]; intros Hnd Hin; [destruct Hin |].
  apply List.NoDup_cons_iff in Hnd as [Hx Hnd]. cbn in Hin.
  apply in_app_or in Hin as [Hin | Hin].
  - apply in_map_iff in Hin as (y & [= <- <-] & Hy).
    split; [intros ->; contradiction | split; [now left | now right]].
  - destruct (IH Hnd Hin) as (Hne & Ha & Hb). split; [exact Hne |]. split; now right.
Qed.

Lemma combinations3_distinct {A : Type} (l : list A) (a b c : A) :
  List.NoDup l -> In (a, b, c) (Py.combinations3 l) -> a <> b /\ b <> c /\ a <> c.
Proof.
  induction l as [| x l IH]; intros Hnd Hin; [destruct Hin |].
  apply List.NoDup_cons_iff in Hnd as [Hx Hnd]. cbn in Hin.
  apply in_app_or in Hin as [Hin | Hin]; [| now apply IH].
  apply in_map_iff in Hin as ([y z] & [= <- <- <-] & Hyz).
  destruct (combinations2_distinct l y z Hnd Hyz) as (Hne & Hy & Hz).
  split; [intros ->; contradiction |]. split; [exact Hne | intros ->; contradiction].
Qed.

Lemma trader_find_pair_rub (self : ArbitrageTrader.t) (base quote : string)
    (pair : ArbitrageTrader.CurrencyPair.t) :
  ArbitrageTrader._find_pair self base quote = Some pair -> quote = "RUB" \/ base = "RUB".
Proof.
  unfold ArbitrageTrader._find_pair.
  destruct (String.eqb_spec quote "RUB") as [-> | _]; [now left |].
  destruct (String.eqb_spec base "RUB") as [-> | _]; [now right | discriminate].
Qed.

Lemma trader_no_triangle (self : ArbitrageTrader.t) (c1 c2 c3 : string) :
  c1 <> c2 -> c2 <> c3 -> c1 <> c3 ->
  ArbitrageTrader._build_multiplication_triangle self c1 c2 c3 = self
  /\ ArbitrageTrader._build_division_triangle self c1 c2 c3 = self.
Proof.
  intros H12 H23 H13.
  unfold ArbitrageTrader._build_multiplication_triangle,
    ArbitrageTrader._build_division_triangle.
  destruct (ArbitrageTrader._find_pair self c1 c2) as [ab |] eqn:Hab;
    destruct (ArbitrageTrader._find_pair self c2 c3) as [bc |] eqn:Hbc;
    destruct (ArbitrageTrader._find_pair self c1 c3) as [ac |] eqn:Hac;
    try (split; reflexivity).
  apply trader_find_pair_rub in Hab, Hbc, Hac.
  destruct Hab as [-> | ->], Hbc as [E | E], Hac as [E' | E']; congruence.
Qed.

(** The trader's catalog is empty.  [_find_pair] knows only pairs with the
    rouble on one side, and three distinct currencies cannot form three such
    pairs; so for base currencies without repetition, the rouble not among
    them, [build_all_triangles] registers no triangle at all, in whatever
    order the currencies come. *)
Theorem trader_catalog_empty :
  forall (bases : list string) (self : ArbitrageTrader.t),
    List.NoDup bases -> ~ In "RUB" bases ->
    ArbitrageTrader.build_all_triangles bases self = self.
Proof.
  intros bases self Hnd Hrub. unfold ArbitrageTrader.build_all_triangles.
  assert (Hall : List.NoDup (bases ++ ["RUB"])%list).
  { apply List.NoDup_app; [exact Hnd | repeat constructor; intros [] |].
    intros x Hx [<- | []]. contradiction. }
  pose proof (fun a b c => combinations3_distinct (bases ++ ["RUB"])%list a b c Hall) as Hd.
  revert Hd. generalize (Py.combinations3 (bases ++ ["RUB"])%list) as triples.
  induction triples as [| [[c1 c2] c3] triples IH]; intros Hd; [reflexivity |].
  cbn [fold_left].
  destruct (Hd c1 c2 c3 (or_introl eq_refl)) as (H12 & H23 & H13).
  destruct (trader_no_triangle self c1 c2 c3 H12 H23 H13) as (-> & ->).
  apply IH. intros a b c Hin. apply Hd. now right.
Qed.

Lemma trader_catalog_empty_witness :
  ArbitrageTrader.triangles
    (ArbitrageTrader.build_all_triangles (List.map fst ArbitrageTrader.currency_symbols)
       Samples.fresh_trader) = [].
Proof.
  rewrite (trader_catalog_empty (List.map fst ArbitrageTrader.currency_symbols)
             Samples.fresh_trader).
  - reflexivity.
  - apply NoDup_ListNoDup, (bool_decide_unpack _). vm_compute. exact I.
  - intros H. apply list_elem_of_In in H. revert H. apply (bool_decide_unpack _).
    vm_compute. exact I.
Defined.

Lemma pair_of_symbol_rub (symbol base quote : string) :
  ArbitrageFinder.pair_of_symbol symbol = Some (base, quote) ->
  quote = "RUB" /\ Py.endswith symbol "@CETS" = true /\ Py.startswith symbol base = true.
Proof.
  unfold ArbitrageFinder.pair_of_symbol.
  destruct (Py.endswith symbol "@CETS"); [| discriminate].
  destruct (Py.contains symbol "TOD"); [| discriminate]. cbn [andb].
  repeat match goal with
         | |- (if Py.startswith symbol ?b then _ else _) = _ -> _ =>
             destruct (Py.startswith symbol b) eqn:?
         end;
    try discriminate;
    try (destruct (Py.contains symbol "RUB"); [| discriminate]);
    intros [= <- <-]; auto.
Qed.

Lemma dict_set_Forall {V : Type} (P : string * V -> Prop) (d : list (string * V))
    (key : string) (value : V) :
  List.Forall P d -> P (key, value) -> List.Forall P (ArbitrageFinder.dict_set d key value).
Proof.
  intros Hd Hp. induction Hd as [| [k v] d Hkv Hd IH]; cbn; [repeat constructor; exact Hp |].
  destruct (String.eqb_spec k key) as [-> | _]; constructor; assumption.
Qed.

Lemma load_fold_rub (symbols : list string)
    (acc : list (string * ArbitrageFinder.CurrencyPair.t) * gset string) :
  let P := fun kv : string * ArbitrageFinder.CurrencyPair.t =>
             ArbitrageFinder.CurrencyPair.quote_currency (snd kv) = "RUB"
             /\ ArbitrageFinder.CurrencyPair.symbol (snd kv) = fst kv
             /\ ArbitrageFinder.pair_of_symbol (fst kv)
                = Some (ArbitrageFinder.CurrencyPair.base_currency (snd kv), "RUB") in
  List.Forall P (fst acc) ->
  List.Forall P
    (fst (fold_left
            (fun acc symbol =>
               match ArbitrageFinder.pair_of_symbol symbol with
               | None => acc
               | Some (base, quote) =>
                   (ArbitrageFinder.dict_set (fst acc) symbol
                      (ArbitrageFinder.CurrencyPair.mk base quote symbol 0 0 0),
                    {[base]} ∪ ({[quote]} ∪ snd acc))
               end) symbols acc)).
Proof.
  intros P. revert acc. induction symbols as [| symbol symbols IH]; intros acc Hacc;
    [exact Hacc |].
  cbn [fold_left]. apply IH.
  destruct (ArbitrageFinder.pair_of_symbol symbol) as [[base quote] |] eqn:Hp; [| exact Hacc].
  cbn [fst]. apply dict_set_Forall; [exact Hacc |].
  destruct (pair_of_symbol_rub _ _ _ Hp) as (-> & _). unfold P. cbn. auto.
Qed.

Lemma finder_find_pair_some (currency_pairs : list (string * ArbitrageFinder.CurrencyPair.t))
    (base quote : string) (pair : ArbitrageFinder.CurrencyPair.t) :
  ArbitrageFinder.find_pair currency_pairs base quote = Some pair ->
  In pair (List.map snd currency_pairs)
  /\ ArbitrageFinder.CurrencyPair.base_currency pair = base
  /\ ArbitrageFinder.CurrencyPair.quote_currency pair = quote.
Proof.
  unfold ArbitrageFinder.find_pair. intros H. apply find_some in H as [Hin Hb].
  apply andb_true_iff in Hb as [Hb Hq]. apply String.eqb_eq in Hb, Hq. auto.
Qed.

(** The finder's catalog is empty.  [load_currency_pairs] stores every pair
    under its symbol with RUB as quote currency, whatever the assets, and
    triangles need the second and the third currency of a triple both to be
    the quote of a stored pair; so with the currencies taken without
    repetition [build_all_triangles] builds nothing. *)
Theorem finder_catalog_empty :
  forall (assets : option (list string)) (currencies_list : list string),
    List.NoDup currencies_list ->
    List.Forall (fun kv => ArbitrageFinder.CurrencyPair.quote_currency (snd kv) = "RUB"
                           /\ ArbitrageFinder.CurrencyPair.symbol (snd kv) = fst kv)
                (fst (ArbitrageFinder.load_currency_pairs assets))
    /\ ArbitrageFinder.build_all_triangles (fst (ArbitrageFinder.load_currency_pairs assets))
         currencies_list = [].
Proof.
  intros assets currencies_list Hnd.
  assert (Hrub : List.Forall
                   (fun kv => ArbitrageFinder.CurrencyPair.quote_currency (snd kv) = "RUB"
                              /\ ArbitrageFinder.CurrencyPair.symbol (snd kv) = fst kv
                              /\ ArbitrageFinder.pair_of_symbol (fst kv)
                                 = Some (ArbitrageFinder.CurrencyPair.base_currency (snd kv),
                                         "RUB"))
                   (fst (ArbitrageFinder.load_currency_pairs assets))).
  { unfold ArbitrageFinder.load_currency_pairs. destruct assets as [symbols |];
      [| constructor].
    apply (load_fold_rub symbols ([], ∅)). constructor. }
  split.
  { eapply List.Forall_impl; [| exact Hrub]. cbn. intros kv (H1 & H2 & _). auto. }
  set (cps := fst (ArbitrageFinder.load_currency_pairs assets)) in *.
  assert (Hquote : forall base quote pair,
             ArbitrageFinder.find_pair cps base quote = Some pair -> quote = "RUB").
  { intros base quote pair H. apply finder_find_pair_some in H as (Hin & _ & <-).
    apply in_map_iff in Hin as (kv & <- & Hkv).
    rewrite List.Forall_forall in Hrub. now destruct (Hrub kv Hkv) as (-> & _). }
  unfold ArbitrageFinder.build_all_triangles.
  pose proof (fun a b c => combinations3_distinct currencies_list a b c Hnd) as Hd.
  revert Hd. generalize (Py.combinations3 currencies_list) as triples.
  induction triples as [| [[c1 c2] c3] triples IH]; intros Hd; [reflexivity |].
  cbn [List.map concat]. rewrite IH by (intros a b c Hin; apply Hd; now right).
  destruct (Hd c1 c2 c3 (or_introl eq_refl)) as (_ & H23 & _).
  unfold ArbitrageFinder.build_triangles.
  destruct (ArbitrageFinder.find_pair cps c1 c2) as [p12 |] eqn:H12; [| reflexivity].
  apply Hquote in H12. subst c2.
  destruct (ArbitrageFinder.find_pair cps "RUB" c3) as [p2 |] eqn:E2;
    [apply Hquote in E2; congruence |].
  destruct (ArbitrageFinder.find_pair cps c1 c3) as [p13 |] eqn:E3; [| reflexivity].
  apply Hquote in E3. congruence.
Qed.

Lemma finder_catalog_empty_witness :
  List.map fst (fst (ArbitrageFinder.load_currency_pairs (Some Samples.asset_symbols)))
  = ["USD000000TOD@CETS"; "EUR_RUB__TOD@CETS"; "CNY000000TOD@CETS"]
  /\ ArbitrageFinder.build_all_triangles
       (fst (ArbitrageFinder.load_currency_pairs (Some Samples.asset_symbols)))
       ["USD"; "RUB"; "EUR"; "CNY"] = [].
Proof.
  split; [reflexivity |].
  apply (finder_catalog_empty (Some Samples.asset_symbols) ["USD"; "RUB"; "EUR"; "CNY"]).
  apply NoDup_ListNoDup, (bool_decide_unpack _). vm_compute. exact I.
Defined.

(** ** What the trader's scanner returns and leaves behind *)

Lemma trader_scan_all_Forall2 (self : ArbitrageTrader.t)
    (ts : list ArbitrageTrader.Triangle.t)
    (marked : list (ArbitrageTrader.Triangle.t * bool)) :
  ArbitrageTrader.scan_all self ts = Py.Ok marked ->
  List.Forall2 (fun t r => ArbitrageTrader.scan_triangle self t = Py.Ok r) ts marked.
Proof.
  revert marked. induction ts as [| t ts IH]; intros marked H; cbn in H.
  - injection H as <-. constructor.
  - destruct (ArbitrageTrader.scan_triangle self t) as [r |] eqn:Hr; [| discriminate].
    destruct (ArbitrageTrader.scan_all self ts) as [rs |]; [| discriminate].
    injection H as <-. constructor; [exact Hr | now apply IH].
Qed.

Lemma trader_scan_triangle_shape (self : ArbitrageTrader.t)
    (t t' : ArbitrageTrader.Triangle.t) (b : bool) :
  ArbitrageTrader.scan_triangle self t = Py.Ok (t', b) ->
  ArbitrageTrader.Triangle.pairs t' = ArbitrageTrader.Triangle.pairs t
  /\ ArbitrageTrader.Triangle.operations t' = ArbitrageTrader.Triangle.operations t
  /\ ArbitrageTrader.Triangle.formula_type t' = ArbitrageTrader.Triangle.formula_type t
  /\ (if b
      then forallb (ArbitrageTrader.has_quotes self) (ArbitrageTrader.Triangle.pairs t) = true
           /\ forallb (ArbitrageTrader.spread_ok self) (ArbitrageTrader.Triangle.pairs t) = true
           /\ (exists rates, ArbitrageTrader.calculate_triangle self t = Py.Ok rates
                             /\ t' = ArbitrageTrader.with_rates t rates)
           /\ ArbitrageTrader.min_deviation_points self
              <= Qabs (ArbitrageTrader.Triangle.deviation_points t')
      else t' = t).
Proof.
  unfold ArbitrageTrader.scan_triangle.
  destruct (forallb (ArbitrageTrader.has_quotes self) _) eqn:Hq; cbn [negb];
    [| intros [= <- <-]; auto].
  destruct (forallb (ArbitrageTrader.spread_ok self) _) eqn:Hs; cbn [negb];
    [| intros [= <- <-]; auto].
  destruct (ArbitrageTrader.calculate_triangle self t) as [[[[sy m] dp] pc] |] eqn:Hc;
    [| discriminate].
  destruct (Py.ge (Qabs dp) _) eqn:Hge; intros [= <- <-]; [| auto].
  cbn. repeat split; try reflexivity.
  - eexists. split; reflexivity.
  - now apply ge_true.
Qed.

(** What [ArbitrageTrader.find_opportunities] returns and what it does to
    the bot.  Every returned triangle is one of [self.triangles] that has
    quotes on all legs, passes the spread test on its real pairs and whose
    computed deviation satisfies [|deviation_points| >= min_deviation_points],
    returned with its four rate fields set to the computed values; there are
    no more opportunities than triangles.  The scan writes only those rate
    fields: the catalog keeps its length and every triangle its pairs,
    operations and formula, and pairs store, active triangles and call log
    are untouched. *)
Theorem trader_scan_sound :
  forall (self self' : ArbitrageTrader.t) (opps : list ArbitrageTrader.Triangle.t),
    ArbitrageTrader.find_opportunities self = Py.Ok (opps, self') ->
    (forall o, In o opps ->
       exists tr rates,
         In tr (ArbitrageTrader.triangles self)
         /\ forallb (ArbitrageTrader.has_quotes self) (ArbitrageTrader.Triangle.pairs tr) = true
         /\ forallb (ArbitrageTrader.spread_ok self) (ArbitrageTrader.Triangle.pairs tr) = true
         /\ ArbitrageTrader.calculate_triangle self tr = Py.Ok rates
         /\ o = ArbitrageTrader.with_rates tr rates
         /\ ArbitrageTrader.min_deviation_points self
            <= Qabs (ArbitrageTrader.Triangle.deviation_points o))
    /\ (List.length opps <= List.length (ArbitrageTrader.triangles self))%nat
    /\ List.Forall2
         (fun t t' =>
            ArbitrageTrader.Triangle.pairs t' = ArbitrageTrader.Triangle.pairs t
            /\ ArbitrageTrader.Triangle.operations t' = ArbitrageTrader.Triangle.operations t
            /\ ArbitrageTrader.Triangle.formula_type t'
               = ArbitrageTrader.Triangle.formula_type t)
         (ArbitrageTrader.triangles self) (ArbitrageTrader.triangles self')
    /\ ArbitrageTrader.currency_pairs self' = ArbitrageTrader.currency_pairs self
    /\ ArbitrageTrader.active_triangles self' = ArbitrageTrader.active_triangles self
    /\ ArbitrageTrader.calls self' = ArbitrageTrader.calls self.
Proof.
  intros self self' opps H. unfold ArbitrageTrader.find_opportunities in H.
  destruct (ArbitrageTrader.scan_all self _) as [marked |] eqn:Hscan; [| discriminate].
  injection H as <- <-.
  pose proof (trader_scan_all_Forall2 _ _ _ Hscan) as Hall.
  split; [| split; [| split; [| cbn; auto]]].
  - intros o Hin. apply (proj1 (sort_desc_In _ _ _)) in Hin.
    apply in_map_iff in Hin as ([o' b] & <- & Hf).
    apply filter_In in Hf as [Hm Hb]. cbn in Hb. subst b.
    apply (trader_scan_all_In _ _ _ Hscan) in Hm as (tr & Htr & Hs).
    apply trader_scan_triangle_shape in Hs as (_ & _ & _ & Hq & Hsp & (rates & Hc & ->) & Hge).
    exists tr, rates. repeat split; auto.
  - rewrite (Permutation_length (sort_desc_perm _ _)), List.length_map.
    rewrite (List.Forall2_length Hall).
    clear. induction marked as [| [t b] marked IH]; cbn; [lia |].
    destruct b; cbn; lia.
  - cbn. clear Hscan. induction Hall as [| t [t' b] ts rs Hs _ IH]; cbn; constructor.
    + apply trader_scan_triangle_shape in Hs as (H1 & H2 & H3 & _). auto.
    + exact IH.
Qed.

Lemma trader_scan_sound_witness :
  exists opps self',
    ArbitrageTrader.find_opportunities
      (Samples.trader [Samples.mul_forward; Samples.six_seven; Samples.six_seven_rev] [] 0)
    = Py.Ok (opps, self')
    /\ List.length opps = 2%nat
    /\ ArbitrageTrader.calls self' = [].
Proof.
  eexists _, _. split; [reflexivity |]. split; [reflexivity |].
  eapply (trader_scan_sound
            (Samples.trader [Samples.mul_forward; Samples.six_seven; Samples.six_seven_rev]
               [] 0)).
  reflexivity.
Defined.

Lemma trader_calculate_ok (self : ArbitrageTrader.t) (t : ArbitrageTrader.Triangle.t) :
  List.length (ArbitrageTrader.Triangle.pairs t) = 3%nat ->
  (3 <= List.length (ArbitrageTrader.Triangle.operations t))%nat ->
  exists rates, ArbitrageTrader.calculate_triangle self t = Py.Ok rates.
Proof.
  intros Hp Ho. unfold ArbitrageTrader.calculate_triangle.
  destruct (ArbitrageTrader.Triangle.pairs t) as [| p1 [| p2 [| p3 [| p4 more]]]];
    try discriminate.
  destruct (ArbitrageTrader.Triangle.operations t) as [| o0 [| o1 [| o2 rest]]];
    cbn in Ho; try lia.
  destruct (_ || _ || _); [eauto |]. destruct (_ && _); eauto.
Qed.

(** On triangles shaped as the catalog builds them, three pairs and three
    operations, the trader's scan never raises; a triangle with another
    number of pairs that passes the quote and spread tests makes it raise
    ValueError. *)
Theorem trader_scan_total :
  forall (self : ArbitrageTrader.t),
    List.Forall (fun t => List.length (ArbitrageTrader.Triangle.pairs t) = 3%nat
                          /\ (3 <= List.length (ArbitrageTrader.Triangle.operations t))%nat)
                (ArbitrageTrader.triangles self) ->
    (exists opps self', ArbitrageTrader.find_opportunities self = Py.Ok (opps, self'))
    /\ (forall t, List.length (ArbitrageTrader.Triangle.pairs t) <> 3%nat ->
                  forallb (ArbitrageTrader.has_quotes self)
                    (ArbitrageTrader.Triangle.pairs t) = true ->
                  forallb (ArbitrageTrader.spread_ok self)
                    (ArbitrageTrader.Triangle.pairs t) = true ->
                  ArbitrageTrader.scan_triangle self t = Py.Raise "ValueError").
Proof.
  intros self Hall. split.
  - unfold ArbitrageTrader.find_opportunities.
    assert (Hscan : exists marked,
               ArbitrageTrader.scan_all self (ArbitrageTrader.triangles self) = Py.Ok marked).
    { induction Hall as [| t ts [Hp Ho] _ (marked & IH)]; cbn; [eauto |].
      unfold ArbitrageTrader.scan_triangle.
      destruct (trader_calculate_ok self t Hp Ho) as ([[[sy m] dp] pc] & ->).
      rewrite IH.
      destruct (negb (forallb (ArbitrageTrader.has_quotes self) _)); [eauto |].
      destruct (negb (forallb (ArbitrageTrader.spread_ok self) _)); [eauto |].
      destruct (Py.ge _ _); eauto. }
    destruct Hscan as (marked & ->). eauto.
  - intros t Hlen Hq Hs. unfold ArbitrageTrader.scan_triangle. rewrite Hq, Hs. cbn [negb].
    unfold ArbitrageTrader.calculate_triangle.
    destruct (ArbitrageTrader.Triangle.pairs t) as [| p1 [| p2 [| p3 [| p4 more]]]];
      try reflexivity.
    now contradiction Hlen.
Qed.

Lemma trader_scan_total_witness :
  exists opps self',
    ArbitrageTrader.find_opportunities
      (Samples.trader [Samples.mul_forward; Samples.six_seven] [] 0) = Py.Ok (opps, self').
Proof.
  apply (trader_scan_total (Samples.trader [Samples.mul_forward; Samples.six_seven] [] 0)).
  repeat constructor.
Defined.

(** ** The trader's deviation *)

(** What the numbers returned by [calculate_triangle] tell.  Either both
    deviations are 0, or both rates are positive and
    [deviation_points = (market - synthetic) / 0.0001].  A positive
    [deviation_points] is returned exactly when the returned synthetic rate
    is positive and below the market rate, a negative one exactly when the
    returned market rate is positive and below the synthetic rate; zero
    deviations are also what comes back when a rate is not positive, so they
    do not say that the rates agree.  [deviation_percent] is positive
    exactly when [deviation_points] is, and negative only if
    [deviation_points] is. *)
Theorem calculate_triangle_signs :
  forall (self : ArbitrageTrader.t) (triangle : ArbitrageTrader.Triangle.t)
         (synthetic market dev_points dev_percent : Q),
    ArbitrageTrader.calculate_triangle self triangle
    = Py.Ok (synthetic, market, dev_points, dev_percent) ->
    ((dev_points == 0 /\ dev_percent == 0)
     \/ (0 < synthetic /\ 0 < market
         /\ dev_points == (market - synthetic) / 0.0001))
    /\ (0 < dev_points <-> 0 < synthetic /\ synthetic < market)
    /\ (dev_points < 0 <-> 0 < market /\ market < synthetic)
    /\ (0 < dev_points <-> 0 < dev_percent)
    /\ (dev_percent < 0 -> dev_points < 0).
Proof.
  intros self triangle sy m dp pc H.
  assert (Hcases : (~ (0 < m /\ 0 < sy) /\ dp == 0 /\ pc == 0)
                   \/ (0 < sy /\ 0 < m /\ dp == (m - sy) / 0.0001
                       /\ pc == (m - sy) / sy * 100)).
  { unfold ArbitrageTrader.calculate_triangle in H.
    destruct (ArbitrageTrader.Triangle.pairs triangle) as [| p1 [| p2 [| p3 [| p4 more]]]];
      try discriminate.
    destruct (ArbitrageTrader.Triangle.operations triangle) as [| o0 [| o1 [| o2 rest]]];
      try discriminate.
    destruct (_ || _ || _).
    - injection H as <- <- <- <-. left.
      split; [intros [Hm _]; revert Hm; apply Qlt_irrefl | split; reflexivity].
    - destruct (Py.gt _ 0 && Py.gt _ 0) eqn:Hpos; injection H as <- <- <- <-.
      + apply andb_prop in Hpos as [Hm Hs]. apply gt_true in Hm, Hs. right.
        split; [exact Hs |]. split; [exact Hm |]. split; reflexivity.
      + left. split; [| split; reflexivity]. intros [Hm Hs].
        apply gt_true in Hm, Hs. rewrite Hm, Hs in Hpos. discriminate. }
  destruct Hcases as [(Hnot & Hd & Hp) | (Hs & Hm & Hd & Hp)].
  - split; [left; split; assumption |]. rewrite Hd, Hp.
    split; [| split; [| split]].
    + split; [intros Hlt; now apply Qlt_irrefl in Hlt |].
      intros [Hs Hlt]. destruct Hnot. split; [lra | exact Hs].
    + split; [intros Hlt; now apply Qlt_irrefl in Hlt |].
      intros [Hm Hlt]. destruct Hnot. split; [exact Hm | lra].
    + split; intros Hlt; now apply Qlt_irrefl in Hlt.
    + intros Hlt. now apply Qlt_irrefl in Hlt.
  - assert (Hd' : dp == (m - sy) * 10000)
      by (rewrite Hd; unfold Qdiv; change (/ 0.0001) with (10000 # 1); ring).
    assert (Hp' : pc * sy == (m - sy) * 100) by (rewrite Hp; field; lra).
    split; [right; repeat split; assumption |].
    split; [| split; [| split]].
    + split; [intros Hlt; split; [exact Hs | lra] | intros [_ Hlt]; lra].
    + split; [intros Hlt; split; [exact Hm | lra] | intros [_ Hlt]; lra].
    + split; intros Hlt; nra.
    + intros Hlt. nra.
Qed.

Lemma calculate_triangle_signs_witness :
  exists synthetic market dev_points dev_percent,
    ArbitrageTrader.calculate_triangle (Samples.trader [] [] 0) Samples.mul_forward
    = Py.Ok (synthetic, market, dev_points, dev_percent)
    /\ (dev_points < 0 <-> 0 < market /\ market < synthetic).
Proof.
  eexists _, _, _, _. split; [reflexivity |].
  eapply (calculate_triangle_signs (Samples.trader [] [] 0) Samples.mul_forward).
  reflexivity.
Defined.

(** ** Execution in the trader: what is placed is tracked or cancelled *)

Lemma accepted_cancels (broker : Broker.t) (account : string) (history : list Broker.Call)
    (tickets : list string) :
  Broker.accepted broker history (List.map (Broker.CancelOrder account) tickets) = []
  /\ List.filter Broker.is_cancel (List.map (Broker.CancelOrder account) tickets)
     = List.map (Broker.CancelOrder account) tickets.
Proof.
  revert history. induction tickets as [| t ts IH]; intros history; cbn; [auto |].
  destruct (IH (history ++ [Broker.CancelOrder account t])%list) as [-> ->]. auto.
Qed.

Lemma trader_close_all_frame (broker : Broker.t) (tickets : list string)
    (self : ArbitrageTrader.t) :
  let self' := ArbitrageTrader.close_all broker tickets self in
  ArbitrageTrader.calls self'
  = (ArbitrageTrader.calls self
     ++ List.map (Broker.CancelOrder (ArbitrageTrader.account_id self)) tickets)%list
  /\ ArbitrageTrader.active_triangles self' = ArbitrageTrader.active_triangles self
  /\ ArbitrageTrader.triangles self' = ArbitrageTrader.triangles self
  /\ ArbitrageTrader.currency_pairs self' = ArbitrageTrader.currency_pairs self
  /\ ArbitrageTrader.account_id self' = ArbitrageTrader.account_id self
  /\ ArbitrageTrader.clock self' = ArbitrageTrader.clock self.
Proof.
  revert self. induction tickets as [| t ts IH]; intros self; cbn.
  - rewrite app_nil_r. repeat split.
  - destruct (IH (snd (ArbitrageTrader.close_position broker t self)))
      as (Hc & Ha & Ht & Hp & Hi & Hk).
    cbn zeta in Hc, Ha, Ht, Hp, Hi, Hk. rewrite Hc, Ha, Ht, Hp, Hi, Hk.
    unfold ArbitrageTrader.close_position.
    destruct (Broker.cancel_order _ _ _) as [[|] |]; cbn; rewrite <- app_assoc;
      repeat split.
Qed.

Lemma execute_legs_spec (broker : Broker.t) (triangle : ArbitrageTrader.Triangle.t)
    (lots : list Q) (legs : list ArbitrageTrader.CurrencyPair.t) (i : nat)
    (tickets : list string) (entry_prices : list Q) (self : ArbitrageTrader.t) :
  let out := ArbitrageTrader.execute_legs broker triangle lots legs i tickets entry_prices
               self in
  ArbitrageTrader.active_triangles (snd out) = ArbitrageTrader.active_triangles self
  /\ ArbitrageTrader.triangles (snd out) = ArbitrageTrader.triangles self
  /\ ArbitrageTrader.currency_pairs (snd out) = ArbitrageTrader.currency_pairs self
  /\ ArbitrageTrader.account_id (snd out) = ArbitrageTrader.account_id self
  /\ exists trace,
      ArbitrageTrader.calls (snd out) = (ArbitrageTrader.calls self ++ trace)%list
      /\ match fst out with
         | Some (placed, prices) =>
             placed = (tickets ++ Broker.accepted broker (ArbitrageTrader.calls self) trace)%list
             /\ List.filter Broker.is_cancel trace = []
             /\ List.length placed = (List.length tickets + List.length legs)%nat
             /\ List.length prices = (List.length entry_prices + List.length legs)%nat
         | None =>
             forallb (fun p => negb (ArbitrageTrader.is_virtual p)
                               || match ArbitrageTrader.real_pair_of self p with
                                  | Some _ => true
                                  | None => false
                                  end) legs = true ->
             List.filter Broker.is_cancel trace
             = List.map (Broker.CancelOrder (ArbitrageTrader.account_id self))
                 (tickets ++ Broker.accepted broker (ArbitrageTrader.calls self) trace)%list
         end.
Proof.
  revert i tickets entry_prices self.
  induction legs as [| cp legs IH]; intros i tickets entry_prices self;
    cbn [ArbitrageTrader.execute_legs].
  - cbn. repeat split. exists []. rewrite !app_nil_r. cbn. repeat split; lia.
  - assert (Hrollback :
        forall (pre : list Broker.Call) (self1 : ArbitrageTrader.t),
          ArbitrageTrader.calls self1 = (ArbitrageTrader.calls self ++ pre)%list ->
          ArbitrageTrader.active_triangles self1 = ArbitrageTrader.active_triangles self ->
          ArbitrageTrader.triangles self1 = ArbitrageTrader.triangles self ->
          ArbitrageTrader.currency_pairs self1 = ArbitrageTrader.currency_pairs self ->
          ArbitrageTrader.account_id self1 = ArbitrageTrader.account_id self ->
          Broker.accepted broker (ArbitrageTrader.calls self) pre = [] ->
          List.filter Broker.is_cancel pre = [] ->
          let out := (@None (list string * list Q),
                      ArbitrageTrader.close_all broker tickets self1) in
          ArbitrageTrader.active_triangles (snd out) = ArbitrageTrader.active_triangles self
          /\ ArbitrageTrader.triangles (snd out) = ArbitrageTrader.triangles self
          /\ ArbitrageTrader.currency_pairs (snd out) = ArbitrageTrader.currency_pairs self
          /\ ArbitrageTrader.account_id (snd out) = ArbitrageTrader.account_id self
          /\ exists trace,
              ArbitrageTrader.calls (snd out) = (ArbitrageTrader.calls self ++ trace)%list
              /\ (forallb (fun p => negb (ArbitrageTrader.is_virtual p)
                                    || match ArbitrageTrader.real_pair_of self p with
                                       | Some _ => true
                                       | None => false
                                       end) (cp :: legs) = true ->
                  List.filter Broker.is_cancel trace
                  = List.map (Broker.CancelOrder (ArbitrageTrader.account_id self))
                      (tickets
                       ++ Broker.accepted broker (ArbitrageTrader.calls self) trace)%list)).
    { intros pre self1 Hcalls Hact Htri Hcp Hacc Hnone Hnocancel. cbn [fst snd].
      destruct (trader_close_all_frame broker tickets self1) as (Hc & Ha & Ht & Hp & Hi & _).
      cbn zeta in Hc, Ha, Ht, Hp, Hi. rewrite Ha, Ht, Hp, Hi, Hact, Htri, Hcp, Hacc.
      repeat split.
      exists (pre ++ List.map (Broker.CancelOrder (ArbitrageTrader.account_id self)) tickets)%list.
      split; [rewrite Hc, Hcalls, Hacc; now rewrite <- app_assoc |].
      intros _. rewrite List.filter_app, Hnocancel. cbn [app].
      assert (Hacc2 : forall h l1 l2,
                 Broker.accepted broker h (l1 ++ l2)%list
                 = (Broker.accepted broker h l1 ++ Broker.accepted broker (h ++ l1) l2)%list).
      { clear. intros h l1. revert h. induction l1 as [| c l1 IH1]; intros h l2; cbn.
        - now rewrite app_nil_r.
        - rewrite IH1, <- !app_assoc. reflexivity. }
      rewrite Hacc2, Hnone.
      destruct (accepted_cancels broker (ArbitrageTrader.account_id self)
                  (ArbitrageTrader.calls self ++ pre)%list tickets) as [-> ->].
      now rewrite app_nil_r. }
    destruct (nth_error (ArbitrageTrader.Triangle.operations triangle) i) as [operation |].
    2: { apply (Hrollback [] self); try reflexivity. now rewrite app_nil_r. }
    set (side := if String.eqb operation "BUY" then Broker.SIDE_BUY else Broker.SIDE_SELL).
    destruct (ArbitrageTrader.execution_price self cp side) as [[price symbol] |] eqn:Hprice.
    2: { cbn. repeat split. exists []. rewrite app_nil_r. split; [reflexivity |].
         intros Hres. exfalso. apply andb_true_iff in Hres as [Hres _].
         unfold ArbitrageTrader.execution_price in Hprice.
         destruct (ArbitrageTrader.is_virtual cp); [| discriminate].
         destruct (ArbitrageTrader.real_pair_of self cp); discriminate. }
    match goal with
    | |- context [Broker.place_order broker (ArbitrageTrader.calls self) ?o] =>
        set (order := o)
    end.
    set (self1 := ArbitrageTrader.send (Broker.PlaceOrder order) self).
    assert (Hfail : Broker.accepted broker (ArbitrageTrader.calls self)
                      [Broker.PlaceOrder order] = [] ->
                    let out := (@None (list string * list Q),
                                ArbitrageTrader.close_all broker tickets self1) in
                    ArbitrageTrader.active_triangles (snd out)
                    = ArbitrageTrader.active_triangles self
                    /\ ArbitrageTrader.triangles (snd out) = ArbitrageTrader.triangles self
                    /\ ArbitrageTrader.currency_pairs (snd out)
                       = ArbitrageTrader.currency_pairs self
                    /\ ArbitrageTrader.account_id (snd out) = ArbitrageTrader.account_id self
                    /\ exists trace,
                        ArbitrageTrader.calls (snd out)
                        = (ArbitrageTrader.calls self ++ trace)%list
                        /\ (forallb (fun p => negb (ArbitrageTrader.is_virtual p)
                                              || match ArbitrageTrader.real_pair_of self p with
                                                 | Some _ => true
                                                 | None => false
                                                 end) (cp :: legs) = true ->
                            List.filter Broker.is_cancel trace
                            = List.map (Broker.CancelOrder (ArbitrageTrader.account_id self))
                                (tickets
                                 ++ Broker.accepted broker (ArbitrageTrader.calls self)
                                      trace)%list)).
    { intros Hnone. apply (Hrollback [Broker.PlaceOrder order] self1); try reflexivity.
      exact Hnone. }
    destruct (Broker.place_order broker (ArbitrageTrader.calls self) order) as [order_id | |]
      eqn:Hreply.
    2, 3: apply Hfail; cbn; rewrite Hreply; reflexivity.
    destruct (Py.truthy order_id) eqn:Htruthy.
    2: { apply Hfail. cbn. rewrite Hreply, Htruthy. reflexivity. }
    specialize (IH (S i) (tickets ++ [order_id])%list (entry_prices ++ [price])%list
                  (ArbitrageTrader.sleep 0.5 self1)).
    cbn zeta in IH.
    destruct (ArbitrageTrader.execute_legs broker triangle lots legs (S i)
                (tickets ++ [order_id]) (entry_prices ++ [price])
                (ArbitrageTrader.sleep 0.5 self1)) as [r self2].
    cbn [fst snd] in IH |- *.
    destruct IH as (Ha & Ht & Hp & Hi & trace & Hcalls & Hr).
    cbn in Ha, Ht, Hp, Hi, Hcalls.
    repeat split; try assumption.
    exists (Broker.PlaceOrder order :: trace).
    split; [rewrite Hcalls, <- app_assoc; reflexivity |].
    assert (Hacc : Broker.accepted broker (ArbitrageTrader.calls self)
                     (Broker.PlaceOrder order :: trace)
                   = order_id
                     :: Broker.accepted broker
                          (ArbitrageTrader.calls self ++ [Broker.PlaceOrder order]) trace).
    { cbn. rewrite Hreply, Htruthy. reflexivity. }
    rewrite Hacc.
    destruct r as [[placed prices] |].
    + destruct Hr as (Hplaced & Hnc & Hl1 & Hl2). cbn in Hplaced.
      rewrite <- app_assoc in Hplaced. cbn in Hplaced.
      repeat split; try assumption.
      * rewrite Hl1, length_app. cbn. lia.
      * rewrite Hl2, length_app. cbn. lia.
    + intros Hres. apply andb_true_iff in Hres as [_ Hres].
      cbn [List.filter Broker.is_cancel]. cbn in Hr.
      rewrite (Hr Hres), <- app_assoc. reflexivity.
Qed.

(** What [execute_triangle] does, whatever the broker answers.  The call
    log only grows; catalog and pairs stay.  If it returns True, exactly one
    entry was appended to the active triangles, for the given triangle, with
    three tickets that are exactly the order ids the broker handed out
    during the call, three entry prices and three lots, and no cancel was
    sent.  If it returns False, the active triangles are unchanged and,
    provided every virtual leg has its real pair, a cancel request was sent
    for each order id handed out during the call, in order, and for nothing
    else: no order is left untracked.  If it raises, nothing has happened. *)
Theorem execute_triangle_outcome :
  forall (broker : Broker.t) (triangle : ArbitrageTrader.Triangle.t)
         (self : ArbitrageTrader.t),
    let out := ArbitrageTrader.execute_triangle broker triangle self in
    ArbitrageTrader.triangles (snd out) = ArbitrageTrader.triangles self
    /\ ArbitrageTrader.currency_pairs (snd out) = ArbitrageTrader.currency_pairs self
    /\ exists trace,
        ArbitrageTrader.calls (snd out) = (ArbitrageTrader.calls self ++ trace)%list
        /\ match fst out with
           | Py.Ok true =>
               (Z.of_nat (List.length (ArbitrageTrader.active_triangles self))
                < ArbitrageTrader.max_concurrent_triangles self)%Z
               /\ List.filter Broker.is_cancel trace = []
               /\ exists active,
                   ArbitrageTrader.active_triangles (snd out)
                   = (ArbitrageTrader.active_triangles self ++ [active])%list
                   /\ ArbitrageTrader.ActiveTriangle.triangle active = triangle
                   /\ ArbitrageTrader.ActiveTriangle.tickets active
                      = Broker.accepted broker (ArbitrageTrader.calls self) trace
                   /\ List.length (ArbitrageTrader.ActiveTriangle.tickets active) = 3%nat
                   /\ List.length (ArbitrageTrader.ActiveTriangle.entry_prices active) = 3%nat
                   /\ List.length (ArbitrageTrader.ActiveTriangle.lots active) = 3%nat
           | Py.Ok false =>
               ArbitrageTrader.active_triangles (snd out)
               = ArbitrageTrader.active_triangles self
               /\ (forallb (fun p => negb (ArbitrageTrader.is_virtual p)
                                     || match ArbitrageTrader.real_pair_of self p with
                                        | Some _ => true
                                        | None => false
                                        end)
                           (ArbitrageTrader.Triangle.pairs triangle) = true ->
                   List.filter Broker.is_cancel trace
                   = List.map (Broker.CancelOrder (ArbitrageTrader.account_id self))
                       (Broker.accepted broker (ArbitrageTrader.calls self) trace))
           | Py.Raise _ => snd out = self /\ trace = []
           end.
Proof.
  intros broker triangle self. unfold ArbitrageTrader.execute_triangle.
  destruct (Z.leb _ _) eqn:Hmax.
  { cbn. repeat split. exists []. rewrite app_nil_r. repeat split. }
  apply Z.leb_gt in Hmax.
  destruct (Nat.ltb _ _).
  { cbn. repeat split. exists []. rewrite app_nil_r. repeat split. }
  destruct (ArbitrageTrader.calculate_lots self triangle) as [lots | e] eqn:Hlots.
  2: { cbn. repeat split. exists []. rewrite app_nil_r. repeat split. }
  assert (Hshape : List.length (ArbitrageTrader.Triangle.pairs triangle) = 3%nat
                   /\ List.length lots = 3%nat).
  { unfold ArbitrageTrader.calculate_lots in Hlots.
    destruct (ArbitrageTrader.Triangle.pairs triangle) as [| p1 [| p2 [| p3 [| p4 more]]]];
      try discriminate.
    injection Hlots as <-. split; reflexivity. }
  destruct Hshape as (Hpairs & Hlen).
  pose proof (execute_legs_spec broker triangle lots
                (ArbitrageTrader.Triangle.pairs triangle) 0 [] [] self) as Hspec.
  cbn zeta in Hspec.
  destruct (ArbitrageTrader.execute_legs broker triangle lots
              (ArbitrageTrader.Triangle.pairs triangle) 0 [] [] self) as [r self'].
  cbn [fst snd] in Hspec. destruct Hspec as (Ha & Ht & Hp & Hi & trace & Hcalls & Hr).
  destruct r as [[tickets entry_prices] |]; cbn [fst snd].
  - destruct Hr as (Hplaced & Hnc & Hl1 & Hl2). cbn in Hplaced, Hl1, Hl2.
    cbn. repeat split; try assumption.
    exists trace. split; [exact Hcalls |]. split; [exact Hmax |]. split; [exact Hnc |].
    eexists. split; [rewrite Ha; reflexivity |]. cbn.
    repeat split; try assumption; try lia; congruence.
  - repeat split; try assumption.
    exists trace. split; [exact Hcalls |]. split; [exact Ha |]. exact Hr.
Qed.

(** With a broker that takes the first order and refuses the second, the
    one order placed is cancelled and nothing becomes active. *)
Example execute_triangle_rolls_back :
  let out := ArbitrageTrader.execute_triangle Samples.second_fails Samples.six_seven
               (Samples.trader [Samples.six_seven] [] 0) in
  fst out = Py.Ok false
  /\ ArbitrageTrader.active_triangles (snd out) = []
  /\ List.filter Broker.is_cancel (ArbitrageTrader.calls (snd out))
     = [Broker.CancelOrder "ACC" "ID0"].
Proof. repeat split. Qed.

(** ** The trader's monitor *)

Lemma poll_tickets_frame (broker : Broker.t) (active : ArbitrageTrader.ActiveTriangle.t)
    (tickets : list string) (i : nat) (profit : Q) (all_closed : bool)
    (self : ArbitrageTrader.t) :
  let self' := snd (ArbitrageTrader.poll_tickets broker active tickets i profit all_closed
                      self) in
  ArbitrageTrader.calls self'
  = (ArbitrageTrader.calls self
     ++ List.map (Broker.GetOrder (ArbitrageTrader.account_id self)) tickets)%list
  /\ ArbitrageTrader.active_triangles self' = ArbitrageTrader.active_triangles self
  /\ ArbitrageTrader.triangles self' = ArbitrageTrader.triangles self
  /\ ArbitrageTrader.currency_pairs self' = ArbitrageTrader.currency_pairs self
  /\ ArbitrageTrader.account_id self' = ArbitrageTrader.account_id self.
Proof.
  revert i profit all_closed self.
  induction tickets as [| ticket tickets IH]; intros i profit all_closed self;
    cbn [ArbitrageTrader.poll_tickets].
  - cbn. rewrite app_nil_r. repeat split.
  - destruct (ArbitrageTrader.leg_profit self active i _) as [p seen].
    destruct (IH (S i) (profit + p) (all_closed && negb seen)
                (ArbitrageTrader.send
                   (Broker.GetOrder (ArbitrageTrader.account_id self) ticket) self))
      as (Hc & Ha & Ht & Hp & Hi).
    cbn zeta in Hc, Ha, Ht, Hp, Hi. cbn zeta. rewrite Hc, Ha, Ht, Hp, Hi.
    cbn. rewrite <- app_assoc. repeat split.
Qed.

Lemma poll_tickets_no_state (broker : Broker.t) (active : ArbitrageTrader.ActiveTriangle.t)
    (tickets : list string) (i : nat) (profit : Q) (self : ArbitrageTrader.t) :
  (forall history ticket side, Broker.get_order broker history ticket <> Broker.GetState side) ->
  snd (fst (ArbitrageTrader.poll_tickets broker active tickets i profit true self)) = true.
Proof.
  intros Hno. revert i profit self.
  induction tickets as [| ticket tickets IH]; intros i profit self;
    cbn [ArbitrageTrader.poll_tickets]; [reflexivity |].
  destruct (Broker.get_order broker (ArbitrageTrader.calls self) ticket) as [side | |] eqn:Hg;
    [now apply Hno in Hg | |]; cbn; apply IH.
Qed.

Lemma monitor_one_frame (broker : Broker.t) (active : ArbitrageTrader.ActiveTriangle.t)
    (self : ArbitrageTrader.t) :
  let out := ArbitrageTrader.monitor_one broker active self in
  (exists cancelled,
      ArbitrageTrader.calls (snd out)
      = (ArbitrageTrader.calls self
         ++ List.map (Broker.GetOrder (ArbitrageTrader.account_id self))
              (ArbitrageTrader.ActiveTriangle.tickets active)
         ++ List.map (Broker.CancelOrder (ArbitrageTrader.account_id self)) cancelled)%list
      /\ (cancelled = [] \/ (cancelled = ArbitrageTrader.ActiveTriangle.tickets active
                              /\ fst out = true))
      /\ ((forall history ticket side,
              Broker.get_order broker history ticket <> Broker.GetState side) ->
          cancelled = [] /\ fst out = true))
  /\ ArbitrageTrader.active_triangles (snd out) = ArbitrageTrader.active_triangles self
  /\ ArbitrageTrader.triangles (snd out) = ArbitrageTrader.triangles self
  /\ ArbitrageTrader.currency_pairs (snd out) = ArbitrageTrader.currency_pairs self
  /\ ArbitrageTrader.account_id (snd out) = ArbitrageTrader.account_id self.
Proof.
  unfold ArbitrageTrader.monitor_one.
  pose proof (poll_tickets_frame broker active
                (ArbitrageTrader.ActiveTriangle.tickets active) 0 0 true self) as Hpoll.
  pose proof (poll_tickets_no_state broker active
                (ArbitrageTrader.ActiveTriangle.tickets active) 0 0 self) as Hno.
  destruct (ArbitrageTrader.poll_tickets broker active _ 0 0 true self)
    as [[profit all_closed] self1].
  cbn [fst snd] in Hpoll, Hno. cbn zeta in Hpoll.
  destruct Hpoll as (Hc & Ha & Ht & Hp & Hi).
  assert (Hkeep : forall b : bool,
             (all_closed = false -> b = false \/ True) ->
             (b = true \/ all_closed = false) ->
             let out := (b, self1) in
             (exists cancelled,
                 ArbitrageTrader.calls (snd out)
                 = (ArbitrageTrader.calls self
                    ++ List.map (Broker.GetOrder (ArbitrageTrader.account_id self))
                         (ArbitrageTrader.ActiveTriangle.tickets active)
                    ++ List.map (Broker.CancelOrder (ArbitrageTrader.account_id self))
                         cancelled)%list
                 /\ (cancelled = [] \/ (cancelled = ArbitrageTrader.ActiveTriangle.tickets active
                                         /\ fst out = true))
                 /\ ((forall history ticket side,
                         Broker.get_order broker history ticket <> Broker.GetState side) ->
                     cancelled = [] /\ fst out = true))
             /\ ArbitrageTrader.active_triangles (snd out)
                = ArbitrageTrader.active_triangles self
             /\ ArbitrageTrader.triangles (snd out) = ArbitrageTrader.triangles self
             /\ ArbitrageTrader.currency_pairs (snd out) = ArbitrageTrader.currency_pairs self
             /\ ArbitrageTrader.account_id (snd out) = ArbitrageTrader.account_id self).
  { intros b _ Hb. cbn [fst snd]. repeat split; try assumption.
    exists []. cbn. rewrite app_nil_r. split; [exact Hc |]. split; [now left |].
    intros Hnone. split; [reflexivity |].
    destruct Hb as [-> | Hb]; [reflexivity |]. rewrite (Hno Hnone) in Hb. discriminate. }
  assert (Hclose :
             let out := (true, ArbitrageTrader.close_all broker
                                 (ArbitrageTrader.ActiveTriangle.tickets active) self1) in
             all_closed = false ->
             (exists cancelled,
                 ArbitrageTrader.calls (snd out)
                 = (ArbitrageTrader.calls self
                    ++ List.map (Broker.GetOrder (ArbitrageTrader.account_id self))
                         (ArbitrageTrader.ActiveTriangle.tickets active)
                    ++ List.map (Broker.CancelOrder (ArbitrageTrader.account_id self))
                         cancelled)%list
                 /\ (cancelled = [] \/ (cancelled = ArbitrageTrader.ActiveTriangle.tickets active
                                         /\ fst out = true))
                 /\ ((forall history ticket side,
                         Broker.get_order broker history ticket <> Broker.GetState side) ->
                     cancelled = [] /\ fst out = true))
             /\ ArbitrageTrader.active_triangles (snd out)
                = ArbitrageTrader.active_triangles self
             /\ ArbitrageTrader.triangles (snd out) = ArbitrageTrader.triangles self
             /\ ArbitrageTrader.currency_pairs (snd out) = ArbitrageTrader.currency_pairs self
             /\ ArbitrageTrader.account_id (snd out) = ArbitrageTrader.account_id self).
  { intros out Hopen. unfold out. cbn [fst snd].
    destruct (trader_close_all_frame broker (ArbitrageTrader.ActiveTriangle.tickets active)
                self1) as (Hc' & Ha' & Ht' & Hp' & Hi' & _).
    cbn zeta in Hc', Ha', Ht', Hp', Hi'. rewrite Ha', Ht', Hp', Hi', Ha, Ht, Hp, Hi.
    repeat split.
    exists (ArbitrageTrader.ActiveTriangle.tickets active).
    split; [rewrite Hc', Hc, Hi, <- app_assoc; reflexivity |]. split; [right; auto |].
    intros Hnone. rewrite (Hno Hnone) in Hopen. discriminate. }
  destruct all_closed.
  - apply Hkeep; auto.
  - destruct (Py.ge profit _); [now apply Hclose |].
    destruct (Py.le profit _); [now apply Hclose |].
    apply Hkeep; auto.
Qed.

Lemma trader_monitor_loop_frame (broker : Broker.t)
    (actives : list ArbitrageTrader.ActiveTriangle.t) (self : ArbitrageTrader.t) :
  let out := ArbitrageTrader.monitor_loop broker actives self in
  List.map fst (fst out) = actives
  /\ (exists trace,
         ArbitrageTrader.calls (snd out) = (ArbitrageTrader.calls self ++ trace)%list
         /\ List.Forall
              (fun c => exists active ticket,
                   List.In active actives
                   /\ List.In ticket (ArbitrageTrader.ActiveTriangle.tickets active)
                   /\ (c = Broker.GetOrder (ArbitrageTrader.account_id self) ticket
                       \/ c = Broker.CancelOrder (ArbitrageTrader.account_id self) ticket))
              trace
         /\ ((forall history ticket side,
                 Broker.get_order broker history ticket <> Broker.GetState side) ->
             trace = List.flat_map
                       (fun active =>
                          List.map (Broker.GetOrder (ArbitrageTrader.account_id self))
                            (ArbitrageTrader.ActiveTriangle.tickets active)) actives
             /\ List.Forall (fun m => snd m = true) (fst out)))
  /\ ArbitrageTrader.active_triangles (snd out) = ArbitrageTrader.active_triangles self
  /\ ArbitrageTrader.triangles (snd out) = ArbitrageTrader.triangles self
  /\ ArbitrageTrader.currency_pairs (snd out) = ArbitrageTrader.currency_pairs self
  /\ ArbitrageTrader.account_id (snd out) = ArbitrageTrader.account_id self.
Proof.
  revert self. induction actives as [| active rest IH]; intros self;
    cbn [ArbitrageTrader.monitor_loop].
  - cbn. repeat split. exists []. rewrite app_nil_r. repeat split; constructor.
  - destruct (monitor_one_frame broker active self)
      as ((cancelled & Hc1 & Hcancelled & Hnone1) & Ha1 & Ht1 & Hp1 & Hi1).
    destruct (ArbitrageTrader.monitor_one broker active self) as [remove self1].
    cbn [fst snd] in Hc1, Hcancelled, Hnone1, Ha1, Ht1, Hp1, Hi1.
    destruct (IH self1) as (Hmarks & (trace & Hc2 & Hall & Hnone2) & Ha2 & Ht2 & Hp2 & Hi2).
    destruct (ArbitrageTrader.monitor_loop broker rest self1) as [marks self2].
    cbn [fst snd] in Hmarks, Hc2, Hall, Hnone2, Ha2, Ht2, Hp2, Hi2. cbn [fst snd List.map].
    rewrite Hmarks, Ha2, Ht2, Hp2, Hi2, Ha1, Ht1, Hp1, Hi1. repeat split.
    exists ((List.map (Broker.GetOrder (ArbitrageTrader.account_id self))
               (ArbitrageTrader.ActiveTriangle.tickets active)
             ++ List.map (Broker.CancelOrder (ArbitrageTrader.account_id self)) cancelled)
            ++ trace)%list.
    split; [rewrite Hc2, Hc1, <- !app_assoc; reflexivity |]. split.
    + apply List.Forall_app. split; [apply List.Forall_app; split |].
      * apply List.Forall_forall. intros c Hin. apply List.in_map_iff in Hin.
        destruct Hin as (ticket & <- & Hin). exists active, ticket.
        split; [now left |]. split; [exact Hin | now left].
      * apply List.Forall_forall. intros c Hin. apply List.in_map_iff in Hin.
        destruct Hin as (ticket & <- & Hin). exists active, ticket.
        split; [now left |]. split; [| now right].
        destruct Hcancelled as [-> | [-> _]]; [destruct Hin | exact Hin].
      * rewrite Hi1 in Hall. revert Hall. apply List.Forall_impl.
        intros c (a & ticket & Ha & Hticket & Hc). exists a, ticket.
        split; [now right |]. split; assumption.
    + intros Hnone. destruct (Hnone1 Hnone) as [-> ->].
      destruct (Hnone2 Hnone) as [-> Hmarked]. rewrite Hi1. cbn [List.flat_map List.map].
      rewrite app_nil_r. split; [reflexivity |]. constructor; [reflexivity | exact Hmarked].
Qed.

Lemma filter_marks_sublist {A : Type} (marks : list (A * bool)) :
  sublist (List.map fst (List.filter (fun m => negb (snd m)) marks)) (List.map fst marks).
Proof.
  induction marks as [| [a [|]] marks IH]; cbn.
  - constructor.
  - now apply sublist_cons.
  - now apply sublist_skip.
Qed.

Lemma filter_marks_all {A : Type} (marks : list (A * bool)) :
  List.Forall (fun m => snd m = true) marks ->
  List.filter (fun m => negb (snd m)) marks = [].
Proof.
  induction 1 as [| [a b] marks Hb _ IH]; cbn in *; [reflexivity |].
  rewrite Hb. exact IH.
Qed.

(** [monitor_active_triangles] only ever shrinks the list of open triangles:
    what is left is a sublist of what was there, in the same order.  It sends
    no order: every request of the round is a GetOrder or a CancelOrder for a
    ticket of a triangle that was open when the round began.  The catalog and
    the pairs are not touched. *)
Theorem trader_monitor_outcome :
  forall (broker : Broker.t) (self : ArbitrageTrader.t),
    let self' := ArbitrageTrader.monitor_active_triangles broker self in
    sublist (ArbitrageTrader.active_triangles self') (ArbitrageTrader.active_triangles self)
    /\ ArbitrageTrader.triangles self' = ArbitrageTrader.triangles self
    /\ ArbitrageTrader.currency_pairs self' = ArbitrageTrader.currency_pairs self
    /\ exists trace,
        ArbitrageTrader.calls self' = (ArbitrageTrader.calls self ++ trace)%list
        /\ List.Forall
             (fun c => exists active ticket,
                  List.In active (ArbitrageTrader.active_triangles self)
                  /\ List.In ticket (ArbitrageTrader.ActiveTriangle.tickets active)
                  /\ (c = Broker.GetOrder (ArbitrageTrader.account_id self) ticket
                      \/ c = Broker.CancelOrder (ArbitrageTrader.account_id self) ticket))
             trace.
Proof.
  intros broker self. unfold ArbitrageTrader.monitor_active_triangles.
  destruct (trader_monitor_loop_frame broker (ArbitrageTrader.active_triangles self) self)
    as (Hmarks & (trace & Hc & Hall & _) & _ & Ht & Hp & _).
  destruct (ArbitrageTrader.monitor_loop broker _ self) as [marks self1].
  cbn [fst snd] in Hmarks, Hc, Hall, Ht, Hp. cbn.
  pose proof (filter_marks_sublist marks) as Hsub. rewrite Hmarks in Hsub.
  split; [exact Hsub |].
  split; [exact Ht |]. split; [exact Hp |]. exists trace. split; assumption.
Qed.

(** When the broker gives no order state for any ticket (GetOrder returns
    nothing or fails, as it does while the connection is down), one monitor
    round forgets every open triangle: the list of open triangles becomes
    empty, and nothing but the GetOrder requests was sent, so no order of
    those triangles was cancelled. *)
Theorem trader_monitor_forgets :
  forall (broker : Broker.t) (self : ArbitrageTrader.t),
    (forall history ticket side,
        Broker.get_order broker history ticket <> Broker.GetState side) ->
    let self' := ArbitrageTrader.monitor_active_triangles broker self in
    ArbitrageTrader.active_triangles self' = []
    /\ ArbitrageTrader.calls self'
       = (ArbitrageTrader.calls self
          ++ List.flat_map
               (fun active =>
                  List.map (Broker.GetOrder (ArbitrageTrader.account_id self))
                    (ArbitrageTrader.ActiveTriangle.tickets active))
               (ArbitrageTrader.active_triangles self))%list.
Proof.
  intros broker self Hnone. unfold ArbitrageTrader.monitor_active_triangles.
  destruct (trader_monitor_loop_frame broker (ArbitrageTrader.active_triangles self) self)
    as (_ & (trace & Hc & _ & Hnone') & _).
  destruct (ArbitrageTrader.monitor_loop broker _ self) as [marks self1].
  cbn [fst snd] in Hc, Hnone'. destruct (Hnone' Hnone) as [-> Hmarked]. cbn.
  rewrite (filter_marks_all _ Hmarked). split; [reflexivity | exact Hc].
Qed.

Lemma trader_monitor_forgets_witness :
  ArbitrageTrader.active_triangles
    (ArbitrageTrader.monitor_active_triangles Samples.unreachable
       (Samples.trader [] [Samples.active_at 0] 10)) = []
  /\ ArbitrageTrader.calls
       (ArbitrageTrader.monitor_active_triangles Samples.unreachable
          (Samples.trader [] [Samples.active_at 0] 10))
     = [Broker.GetOrder "ACC" "T0"; Broker.GetOrder "ACC" "T1"; Broker.GetOrder "ACC" "T2"].
Proof.
  apply (trader_monitor_forgets Samples.unreachable
           (Samples.trader [] [Samples.active_at 0] 10)).
  intros history ticket side. cbn. discriminate.
Defined.

Lemma trader_cleanup_fold (broker : Broker.t)
    (actives : list ArbitrageTrader.ActiveTriangle.t) (self : ArbitrageTrader.t) :
  let self' := fold_left
                 (fun acc active =>
                    ArbitrageTrader.close_all broker
                      (ArbitrageTrader.ActiveTriangle.tickets active) acc)
                 actives self in
  ArbitrageTrader.calls self'
  = (ArbitrageTrader.calls self
     ++ List.map (Broker.CancelOrder (ArbitrageTrader.account_id self))
          (List.flat_map ArbitrageTrader.ActiveTriangle.tickets actives))%list
  /\ ArbitrageTrader.active_triangles self' = ArbitrageTrader.active_triangles self
  /\ ArbitrageTrader.triangles self' = ArbitrageTrader.triangles self
  /\ ArbitrageTrader.currency_pairs self' = ArbitrageTrader.currency_pairs self.
Proof.
  revert self.
  induction actives as [| active rest IH]; intros self; cbn [fold_left List.flat_map].
  - cbn. rewrite app_nil_r. repeat split.
  - destruct (trader_close_all_frame broker (ArbitrageTrader.ActiveTriangle.tickets active)
                self) as (Hc & Ha & Ht & Hp & Hi & _).
    destruct (IH (ArbitrageTrader.close_all broker
                    (ArbitrageTrader.ActiveTriangle.tickets active) self))
      as (Hc' & Ha' & Ht' & Hp').
    cbn zeta in Hc, Ha, Ht, Hp, Hi, Hc', Ha', Ht', Hp'. cbn zeta.
    rewrite Hc', Ha', Ht', Hp', Hc, Ha, Ht, Hp, Hi, List.map_app, <- app_assoc.
    repeat split.
Qed.

(** [cleanup] asks the broker to cancel every ticket of every open triangle,
    triangle by triangle in list order, whatever the broker answers, and
    sends nothing else; the list of open triangles itself is left as it
    was. *)
Theorem trader_cleanup_outcome :
  forall (broker : Broker.t) (self : ArbitrageTrader.t),
    let self' := ArbitrageTrader.cleanup broker self in
    ArbitrageTrader.calls self'
    = (ArbitrageTrader.calls self
       ++ List.map (Broker.CancelOrder (ArbitrageTrader.account_id self))
            (List.flat_map ArbitrageTrader.ActiveTriangle.tickets
               (ArbitrageTrader.active_triangles self)))%list
    /\ ArbitrageTrader.active_triangles self' = ArbitrageTrader.active_triangles self
    /\ ArbitrageTrader.triangles self' = ArbitrageTrader.triangles self
    /\ ArbitrageTrader.currency_pairs self' = ArbitrageTrader.currency_pairs self.
Proof.
  intros broker self.
  exact (trader_cleanup_fold broker (ArbitrageTrader.active_triangles self) self).
Qed.

(** ** The finder's monitor *)

Lemma finder_close_all_frame (broker : Broker.t) (tickets : list string)
    (self : ArbitrageFinder.t) :
  let self' := ArbitrageFinder.close_all broker tickets self in
  ArbitrageFinder.calls self'
  = (ArbitrageFinder.calls self
     ++ List.map (Broker.CancelOrder (ArbitrageFinder.account_id self)) tickets)%list
  /\ ArbitrageFinder.active_triangles self' = ArbitrageFinder.active_triangles self
  /\ ArbitrageFinder.account_id self' = ArbitrageFinder.account_id self
  /\ ArbitrageFinder.clock self' = ArbitrageFinder.clock self.
Proof.
  revert self. induction tickets as [| t ts IH]; intros self; cbn.
  - rewrite app_nil_r. repeat split.
  - destruct (IH (snd (ArbitrageFinder.close_position broker t self)))
      as (Hc & Ha & Hi & Hk).
    cbn zeta in Hc, Ha, Hi, Hk. rewrite Hc, Ha, Hi, Hk.
    unfold ArbitrageFinder.close_position.
    destruct (Broker.cancel_order _ _ _) as [[|] |]; cbn; rewrite <- app_assoc;
      repeat split.
Qed.

Lemma finder_monitor_loop_spec (broker : Broker.t) (actives : list ArbitrageFinder.Active)
    (self : ArbitrageFinder.t) :
  let late := fun a => Z.ltb 3600 (ArbitrageFinder.timedelta_seconds
                                     (ArbitrageFinder.clock self)
                                     (ArbitrageFinder.a_open_time a)) in
  let out := ArbitrageFinder.monitor_loop broker actives self in
  fst out = List.map (fun a => (a, late a)) actives
  /\ ArbitrageFinder.calls (snd out)
     = (ArbitrageFinder.calls self
        ++ List.map (Broker.CancelOrder (ArbitrageFinder.account_id self))
             (List.flat_map ArbitrageFinder.a_tickets (List.filter late actives)))%list
  /\ ArbitrageFinder.account_id (snd out) = ArbitrageFinder.account_id self
  /\ ArbitrageFinder.clock (snd out) = ArbitrageFinder.clock self.
Proof.
  cbn zeta. revert self.
  induction actives as [| active rest IH]; intros self;
    cbn [ArbitrageFinder.monitor_loop List.map List.filter].
  - cbn. rewrite app_nil_r. repeat split.
  - destruct (Z.ltb 3600 _) eqn:Hlate.
    + destruct (finder_close_all_frame broker (ArbitrageFinder.a_tickets active) self)
        as (Hc & _ & Hi & Hk).
      destruct (IH (ArbitrageFinder.close_all broker (ArbitrageFinder.a_tickets active) self))
        as (Hm & Hc' & Hi' & Hk').
      destruct (ArbitrageFinder.monitor_loop broker rest _) as [marks self'].
      cbn zeta in Hc, Hi, Hk. cbn [fst snd] in Hm, Hc', Hi', Hk' |- *.
      rewrite Hm, Hc', Hi', Hk', Hc, Hi, Hk. cbn [List.flat_map].
      rewrite List.map_app, <- app_assoc. repeat split.
    + destruct (IH self) as (Hm & Hc' & Hi' & Hk').
      destruct (ArbitrageFinder.monitor_loop broker rest self) as [marks self'].
      cbn [fst snd] in Hm, Hc', Hi', Hk' |- *. rewrite Hm, Hc', Hi', Hk'. repeat split.
Qed.

Lemma filter_marked {A : Type} (late : A -> bool) (l : list A) :
  List.map fst (List.filter (fun m => negb (snd m)) (List.map (fun a => (a, late a)) l))
  = List.filter (fun a => negb (late a)) l.
Proof.
  induction l as [| a l IH]; cbn; [reflexivity |].
  destruct (late a); cbn; [exact IH | now rewrite IH].
Qed.

(** One round of [monitor_active_positions] in closed form.  With [late a]
    saying that the seconds field of the age of [a] exceeds 3600, the round
    keeps exactly the triangles that are not late, in order, and sends one
    CancelOrder for every ticket of every late triangle, in order, and
    nothing else, whatever the broker answers. *)
Theorem finder_monitor_outcome :
  forall (broker : Broker.t) (self : ArbitrageFinder.t),
    let late := fun a => Z.ltb 3600 (ArbitrageFinder.timedelta_seconds
                                       (ArbitrageFinder.clock self)
                                       (ArbitrageFinder.a_open_time a)) in
    let self' := ArbitrageFinder.monitor_active_positions broker self in
    ArbitrageFinder.active_triangles self'
    = List.filter (fun a => negb (late a)) (ArbitrageFinder.active_triangles self)
    /\ ArbitrageFinder.calls self'
       = (ArbitrageFinder.calls self
          ++ List.map (Broker.CancelOrder (ArbitrageFinder.account_id self))
               (List.flat_map ArbitrageFinder.a_tickets
                  (List.filter late (ArbitrageFinder.active_triangles self))))%list.
Proof.
  intros broker self. cbn zeta. unfold ArbitrageFinder.monitor_active_positions.
  destruct (finder_monitor_loop_spec broker (ArbitrageFinder.active_triangles self) self)
    as (Hm & Hc & _).
  destruct (ArbitrageFinder.monitor_loop broker _ self) as [marks self'].
  cbn [fst snd] in Hm, Hc. cbn. rewrite Hm, filter_marked. split; [reflexivity | exact Hc].
Qed.

Lemma timedelta_seconds_wrap (now open_time : Q) (days : Z) :
  inject_Z (86400 * days) <= now - open_time ->
  now - open_time <= inject_Z (86400 * days + 3600) ->
  Z.ltb 3600 (ArbitrageFinder.timedelta_seconds now open_time) = false.
Proof.
  intros Hlo Hhi. unfold ArbitrageFinder.timedelta_seconds.
  apply Qfloor_resp_le in Hlo, Hhi. rewrite Qfloor_Z in Hlo, Hhi.
  apply Z.ltb_ge.
  replace (Qfloor (now - open_time))
    with ((Qfloor (now - open_time) - 86400 * days) + days * 86400)%Z by lia.
  rewrite Z.mod_add by lia. rewrite Z.mod_small; lia.
Qed.

(** The hour limit of [monitor_active_positions] is tested on the seconds
    field of the age, which starts again at zero every 24 hours.  When every
    open triangle is, for some whole number of days, between that many days
    and that many days plus one hour old, the round closes nothing: the list
    of open triangles stays as it is and no request is sent.  A triangle
    that has been open for 24.5 hours is such a case. *)
Theorem finder_monitor_wraps_daily :
  forall (broker : Broker.t) (self : ArbitrageFinder.t),
    (forall a, In a (ArbitrageFinder.active_triangles self) ->
       exists days : Z,
         inject_Z (86400 * days)
         <= ArbitrageFinder.clock self - ArbitrageFinder.a_open_time a
         /\ ArbitrageFinder.clock self - ArbitrageFinder.a_open_time a
            <= inject_Z (86400 * days + 3600)) ->
    let self' := ArbitrageFinder.monitor_active_positions broker self in
    ArbitrageFinder.active_triangles self' = ArbitrageFinder.active_triangles self
    /\ ArbitrageFinder.calls self' = ArbitrageFinder.calls self.
Proof.
  intros broker self Hage. cbn zeta. unfold ArbitrageFinder.monitor_active_positions.
  destruct (finder_monitor_loop_spec broker (ArbitrageFinder.active_triangles self) self)
    as (Hm & Hc & _).
  destruct (ArbitrageFinder.monitor_loop broker _ self) as [marks self'].
  cbn [fst snd] in Hm, Hc. cbn. rewrite Hm, filter_marked, Hc.
  assert (Hnone : forall l : list ArbitrageFinder.Active,
             (forall a, In a l -> In a (ArbitrageFinder.active_triangles self)) ->
             List.filter
               (fun a => negb (Z.ltb 3600 (ArbitrageFinder.timedelta_seconds
                                             (ArbitrageFinder.clock self)
                                             (ArbitrageFinder.a_open_time a)))) l = l
             /\ List.filter
                  (fun a => Z.ltb 3600 (ArbitrageFinder.timedelta_seconds
                                          (ArbitrageFinder.clock self)
                                          (ArbitrageFinder.a_open_time a))) l = []).
  { induction l as [| a l IH]; intros Hl; cbn [List.filter]; [split; reflexivity |].
    destruct (Hage a (Hl a (or_introl eq_refl))) as (days & Hlo & Hhi).
    rewrite (timedelta_seconds_wrap _ _ days Hlo Hhi). cbn [negb].
    destruct IH as [-> ->]; [intros b Hb; apply Hl; now right |]. split; reflexivity. }
  destruct (Hnone (ArbitrageFinder.active_triangles self)) as [-> ->]; [auto |].
  cbn. rewrite app_nil_r. split; reflexivity.
Qed.

Lemma finder_monitor_wraps_daily_witness :
  ArbitrageFinder.active_triangles
    (ArbitrageFinder.monitor_active_positions Samples.accept_all Samples.finder_after_a_day)
  = ArbitrageFinder.active_triangles Samples.finder_after_a_day
  /\ ArbitrageFinder.calls
       (ArbitrageFinder.monitor_active_positions Samples.accept_all
          Samples.finder_after_a_day)
     = ArbitrageFinder.calls Samples.finder_after_a_day.
Proof.
  apply (finder_monitor_wraps_daily Samples.accept_all Samples.finder_after_a_day).
  intros a [<- | []]. exists 1%Z. cbn. split; unfold Qle; cbn; lia.
Defined.

(** ** The sides of a stored triangle *)

(** [ArbTriangle.get_side] against the sides [open_triangle] orders.  For a
    triangle that carries the direction of the opportunity it was opened
    for, the three sides [get_side] reports are the three sides that were
    ordered exactly when the opportunity is a MUL one; for any other signal
    type the first and the last side agree and the middle one is the
    opposite of [get_side]. *)
Theorem get_side_agrees_iff_mul :
  forall (opp : ArbOpportunity.t) (t0 t1 t2 : ArbTick.t) (tri : ArbTriangle.t),
    ArbTriangle.direction tri = ArbOpportunity.direction opp ->
    let ordered := List.map Broker.side_name
                     (fst (ArbExecutor.sides_prices opp t0 t1 t2)) in
    (ordered = List.map (ArbTriangle.get_side tri) [0; 1; 2]%Z
     <-> ArbOpportunity.signal_type opp = "MUL")
    /\ nth 0 ordered "" = ArbTriangle.get_side tri 0
    /\ nth 2 ordered "" = ArbTriangle.get_side tri 2.
Proof.
  intros opp t0 t1 t2 tri Hdir. cbn zeta.
  unfold ArbExecutor.sides_prices, ArbTriangle.get_side. rewrite Hdir.
  destruct (String.eqb_spec (ArbOpportunity.signal_type opp) "MUL") as [Hmul | Hdiv];
    destruct (Z.eqb (ArbOpportunity.direction opp) 1); cbn;
    (split; [split; [first [reflexivity | discriminate | intros; assumption]
                    | first [reflexivity | intros H; now destruct (Hdiv H)]]
            | split; reflexivity]).
Qed.

Lemma get_side_agrees_iff_mul_witness :
  (List.map Broker.side_name
     (fst (ArbExecutor.sides_prices Samples.div_opportunity Samples.usd_rub
             Samples.eur_usd Samples.eur_rub))
   = List.map (ArbTriangle.get_side Samples.div_slot) [0; 1; 2]%Z
   <-> ArbOpportunity.signal_type Samples.div_opportunity = "MUL")
  /\ nth 0 (List.map Broker.side_name
              (fst (ArbExecutor.sides_prices Samples.div_opportunity Samples.usd_rub
                      Samples.eur_usd Samples.eur_rub))) ""
     = ArbTriangle.get_side Samples.div_slot 0
  /\ nth 2 (List.map Broker.side_name
              (fst (ArbExecutor.sides_prices Samples.div_opportunity Samples.usd_rub
                      Samples.eur_usd Samples.eur_rub))) ""
     = ArbTriangle.get_side Samples.div_slot 2.
Proof.
  apply (get_side_agrees_iff_mul Samples.div_opportunity Samples.usd_rub Samples.eur_usd
           Samples.eur_rub Samples.div_slot).
  reflexivity.
Defined.
